(** * Versioned ingestion and hybrid retrieval

    A shallow embedding of the knowledge-base search service:
    - [app/models/database.py]: the [Document] and [DocumentChunk] tables;
    - [app/api/documents.py]: [upload_document], the version manager;
    - [app/services/chunking_service.py]: [detect_temporal_indicators] and
      [chunk_text];
    - [app/services/search_service.py]: the search cache, [semantic_search]
      and [semantic_search_with_filters].

    Python floats are modelled by rationals ([Q]): every score the code
    computes is a sum, product, maximum or minimum of its inputs, and the
    development reasons about these operations exactly.  Integers are [Z],
    timestamps are [Z], text is [string]. *)

From Stdlib Require Import List ZArith QArith String Ascii Bool Lia.
From Stdlib Require Import Permutation Sorted DecimalString Lqa.
Import ListNotations.

Local Open Scope string_scope.
Local Open Scope list_scope.
Local Open Scope Z_scope.

(* ================================================================== *)
(** * Python values and list operations *)
(* ================================================================== *)

(** JSON values, as stored in the JSONB columns. *)
#[local] Unset Elimination Schemes.
Inductive Json : Type :=
| JNull
| JBool (b : bool)
| JInt (z : Z)
| JFloat (q : Q)
| JStr (s : string)
| JList (l : list Json)
| JDict (l : list (string * Json)).
#[local] Set Elimination Schemes.

(** Truth value of the Python object a JSON value is loaded as. *)
Definition py_truthy (j : Json) : bool :=
  match j with
  | JNull => false
  | JBool b => b
  | JInt z => negb (z =? 0)
  | JFloat q => negb (Qeq_bool q 0)
  | JStr s => negb (String.eqb s "")
  | JList l => match l with [] => false | _ => true end
  | JDict l => match l with [] => false | _ => true end
  end.

Fixpoint assoc_get {V : Type} (k : string) (l : list (string * V)) : option V :=
  match l with
  | [] => None
  | (k', v) :: l' => if String.eqb k k' then Some v else assoc_get k l'
  end.

(** [j.get(key, default)]: only a dict has [get]; on anything else the call
    raises [AttributeError], here [None]. *)
Definition py_get (j : Json) (key : string) (default : Json) : option Json :=
  match j with
  | JDict l => Some (match assoc_get key l with Some v => v | None => default end)
  | _ => None
  end.

(** [metadata.get(key, default) if metadata else default]. *)
Definition get_if_truthy (metadata : Json) (key : string) (default : Json)
  : option Json :=
  if py_truthy metadata then py_get metadata key default else Some default.

(** A slice bound, clamped the way Python clamps it for a list of length [n]. *)
Definition py_clamp (n i : Z) : Z :=
  let i' := if i <? 0 then i + n else i in
  if i' <? 0 then 0 else if n <? i' then n else i'.

(** [l[start:stop]]. *)
Definition py_slice {A : Type} (l : list A) (start stop : Z) : list A :=
  let n := Z.of_nat (List.length l) in
  let a := py_clamp n start in
  let b := py_clamp n stop in
  skipn (Z.to_nat a) (firstn (Z.to_nat b) l).

(** [l[:stop]]. *)
Definition py_prefix {A : Type} (l : list A) (stop : Z) : list A :=
  py_slice l 0 stop.

(** Insertion of [x] in front of the first element whose key is not larger:
    [x] comes from the left of everything already in [l]. *)
Fixpoint insert_desc {A : Type} (le : A -> A -> bool) (x : A) (l : list A)
  : list A :=
  match l with
  | [] => [x]
  | y :: l' => if le y x then x :: y :: l' else y :: insert_desc le x l'
  end.

(** [l.sort(key=..., reverse=True)]: descending and stable, elements with
    equal keys keep their original order.  [le a b] compares the keys. *)
Fixpoint sort_desc {A : Type} (le : A -> A -> bool) (l : list A) : list A :=
  match l with
  | [] => []
  | x :: l' => insert_desc le x (sort_desc le l')
  end.

(* ================================================================== *)
(** * app/models/database.py *)
(* ================================================================== *)

(** The [documents] table.  The columns [raw_content] and [last_modified]
    are read by none of the operations below and are left out. *)
Module Document.
Record t : Type := mk {
    id : Z;
    filename : string;
    content_hash : string;
    file_size : Z;
    uploaded_at : option Z;
    document_metadata : Json;
    version : Z;
    is_active : bool;
    replaced_at : option Z
  }.
End Document.

(** The [document_chunks] table. *)
Module DocumentChunk.
Record t : Type := mk {
    id : Z;
    document_id : Z;
    chunk_text : string;
    chunk_index : Z;
    embedding : option (list Q);
    document_metadata : Json;
    recency_score : option Q;
    created_at : option Z;
    is_active : bool;
    version : Z;
    replaced_at : option Z
  }.
End DocumentChunk.

(** The database: both tables in storage order and the sequence behind the
    primary key of [documents]. *)
Record DB : Type := mkDB {
  documents : list Document.t;
  document_chunks : list DocumentChunk.t;
  next_document_id : Z
}.

(** [db.query(Document).filter(p).first()]. *)
Definition query_first (p : Document.t -> bool) (db : DB) : option Document.t :=
  find p (documents db).

(* ================================================================== *)
(** * app/services/search_service.py: results and the cache *)
(* ================================================================== *)

(** One entry of the list [semantic_search] returns. *)
Module SearchResult.
Record t : Type := mk {
    chunk_id : Z;
    text : string;
    chunk_index : Z;
    document_id : Z;
    filename : string;
    version : Z;
    uploaded_at : option Z;
    created_at : option Z;
    similarity : Q;
    recency_score : Q;
    hybrid_score : Q;
    entities : Json;
    data_types : Json;
    temporal_info : Json
  }.
End SearchResult.

(** [_search_cache]: a Python dict, whose iteration order is the order in
    which its keys were first inserted; the head is the oldest entry. *)
Definition Cache : Type := list (string * list SearchResult.t).

Definition _cache_max_size : Z := 100.

(** [key in d]. *)
Definition dict_mem {V : Type} (k : string) (d : list (string * V)) : bool :=
  match assoc_get k d with Some _ => true | None => false end.

(** [d[k] = v]: an existing key keeps its place, a new key goes last. *)
Fixpoint dict_set {V : Type} (k : string) (v : V) (d : list (string * V))
  : list (string * V) :=
  match d with
  | [] => [(k, v)]
  | (k', v') :: d' =>
      if String.eqb k k' then (k', v) :: d' else (k', v') :: dict_set k v d'
  end.

(** [d.pop(k)], used on a key that is present. *)
Fixpoint dict_pop {V : Type} (k : string) (d : list (string * V))
  : list (string * V) :=
  match d with
  | [] => []
  | (k', v') :: d' => if String.eqb k k' then d' else (k', v') :: dict_pop k d'
  end.

(** [d.pop(next(iter(d)))]: [next] raises [StopIteration] on an empty dict. *)
Definition dict_pop_oldest {V : Type} (d : list (string * V))
  : option (list (string * V)) :=
  match d with
  | [] => None
  | (k, _) :: _ => Some (dict_pop k d)
  end.

Definition clear_search_cache (c : Cache) : Cache := [].

(* ================================================================== *)
(** * app/api/documents.py: upload_document *)
(* ================================================================== *)

Record UploadResponse : Type := mkUploadResponse {
  status : string;
  response_document_id : option Z;
  task_id : option string
}.

(** What a request handler can change: the database, the search cache and
    the queue of [process_document] calls (document id, staged path,
    filename). *)
Record World : Type := mkWorld {
  db : DB;
  search_cache : Cache;
  task_queue : list (Z * string * string)
}.

Definition opt_str (o : option string) : Json :=
  match o with Some s => JStr s | None => JNull end.

(** [existing_by_filename.is_active = False; replaced_at = utcnow()], written
    to the row with that primary key at commit. *)
Definition deactivate_document (old_id : Z) (now : Z) (d : Document.t)
  : Document.t :=
  if Document.id d =? old_id then
    Document.mk (Document.id d) (Document.filename d) (Document.content_hash d)
      (Document.file_size d) (Document.uploaded_at d)
      (Document.document_metadata d) (Document.version d) false (Some now)
  else d.

(** The bulk update of the chunks with [document_id == old_id] and
    [is_active == True]. *)
Definition deactivate_chunk (old_id : Z) (now : Z) (c : DocumentChunk.t)
  : DocumentChunk.t :=
  if (DocumentChunk.document_id c =? old_id) && DocumentChunk.is_active c then
    DocumentChunk.mk (DocumentChunk.id c) (DocumentChunk.document_id c)
      (DocumentChunk.chunk_text c) (DocumentChunk.chunk_index c)
      (DocumentChunk.embedding c) (DocumentChunk.document_metadata c)
      (DocumentChunk.recency_score c) (DocumentChunk.created_at c)
      false (DocumentChunk.version c) (Some now)
  else c.

(** [db.add(document); db.commit(); db.refresh(document)]: the row gets the
    next value of the id sequence and the column default of [uploaded_at]. *)
Definition insert_document (d : DB) (docs : list Document.t)
    (chunks : list DocumentChunk.t) (fname hash : string) (size : Z)
    (meta : Json) (ver : Z) (now : Z) : Document.t * DB :=
  let document :=
    Document.mk (next_document_id d) fname hash size (Some now) meta ver true None in
  (document, mkDB (docs ++ [document]) chunks (next_document_id d + 1)).

(** Steps 3 to 6 of [upload_document], after the file has been streamed to
    [temp_file_path] and hashed.  [now] is the reading of [datetime.utcnow()]
    during the request and [queued_task] the id Celery gives the queued task. *)
Definition upload_document (w : World) (file_filename : string)
    (file_content_type : option string) (content_hash : string)
    (total_bytes : Z) (upload_id : string) (now : Z) (queued_task : string)
  : UploadResponse * World :=
  let temp_file_path :=
    ("/app/uploads/" ++ upload_id ++ "_" ++ file_filename)%string in
  let existing_by_filename :=
    query_first (fun d => String.eqb (Document.filename d) file_filename
                          && Document.is_active d) (db w) in
  match existing_by_filename with
  | Some existing =>
      if String.eqb (Document.content_hash existing) content_hash then
        (mkUploadResponse "no_change" (Some (Document.id existing)) None, w)
      else
        let docs := map (deactivate_document (Document.id existing) now)
                        (documents (db w)) in
        let chunks := map (deactivate_chunk (Document.id existing) now)
                          (document_chunks (db w)) in
        let meta := JDict [("original_filename", JStr file_filename);
                           ("content_type", opt_str file_content_type);
                           ("upload_id", JStr upload_id);
                           ("previous_version", JInt (Document.id existing));
                           ("previous_version_number",
                            JInt (Document.version existing))] in
        let '(document, db') :=
          insert_document (db w) docs chunks file_filename content_hash
            total_bytes meta (Document.version existing + 1) now in
        (mkUploadResponse "updated" (Some (Document.id document)) (Some queued_task),
         mkWorld db' (clear_search_cache (search_cache w))
           (task_queue w ++ [(Document.id document, temp_file_path, file_filename)]))
  | None =>
      let existing_by_content :=
        query_first (fun d => String.eqb (Document.content_hash d) content_hash
                              && Document.is_active d) (db w) in
      match existing_by_content with
      | Some existing =>
          (mkUploadResponse "duplicate" (Some (Document.id existing)) None, w)
      | None =>
          let meta := JDict [("original_filename", JStr file_filename);
                             ("content_type", opt_str file_content_type);
                             ("upload_id", JStr upload_id)] in
          let '(document, db') :=
            insert_document (db w) (documents (db w)) (document_chunks (db w))
              file_filename content_hash total_bytes meta 1 now in
          (mkUploadResponse "processing" (Some (Document.id document))
             (Some queued_task),
           mkWorld db' (search_cache w)
             (task_queue w ++ [(Document.id document, temp_file_path, file_filename)]))
      end
  end.

(** One upload request, as the client and the environment determine it. *)
Record Upload : Type := mkUpload {
  up_filename : string;
  up_content_type : option string;
  up_content_hash : string;
  up_total_bytes : Z;
  up_upload_id : string;
  up_now : Z;
  up_task : string
}.

Definition do_upload (w : World) (u : Upload) : UploadResponse * World :=
  upload_document w (up_filename u) (up_content_type u) (up_content_hash u)
    (up_total_bytes u) (up_upload_id u) (up_now u) (up_task u).

(** Successive uploads, each handled to completion before the next. *)
Definition uploads (w : World) (us : list Upload) : World :=
  fold_left (fun w u => snd (do_upload w u)) us w.

(** Number of active documents that carry the filename. *)
Definition active_count (fname : string) (docs : list Document.t) : nat :=
  List.length (filter (fun d => String.eqb (Document.filename d) fname
                                && Document.is_active d) docs).

(** Number of active chunks owned by the document. *)
Definition active_chunks_of (doc_id : Z) (chunks : list DocumentChunk.t) : nat :=
  List.length (filter (fun c => (DocumentChunk.document_id c =? doc_id)
                                && DocumentChunk.is_active c) chunks).

(** Consecutive hashes differ: every upload changes the content. *)
Fixpoint adjacent_distinct (hs : list string) : bool :=
  match hs with
  | h1 :: ((h2 :: _) as tl) => negb (String.eqb h1 h2) && adjacent_distinct tl
  | _ => true
  end.

(** The two filters of [upload_document]. *)
Definition by_filename (fname : string) (d : Document.t) : bool :=
  String.eqb (Document.filename d) fname && Document.is_active d.

Definition by_content (hash : string) (d : Document.t) : bool :=
  String.eqb (Document.content_hash d) hash && Document.is_active d.

(** The invariant of the data model: no filename has two active documents. *)
Definition one_active_per_filename (w : World) : Prop :=
  forall fname, (active_count fname (documents (db w)) <= 1)%nat.

(** The lineage of a filename stands at version [k] with content [h]: its
    one active document has that version and that hash. *)
Definition lineage_at (fname : string) (k : Z) (h : string) (w : World) : Prop :=
  active_count fname (documents (db w)) = 1%nat
  /\ exists doc, query_first (by_filename fname) (db w) = Some doc
                 /\ Document.version doc = k
                 /\ Document.content_hash doc = h.

(* ================================================================== *)
(** * Regular expressions, as far as the keyword tables use them *)
(* ================================================================== *)

(** The patterns of [detect_temporal_indicators] are built from literal
    characters, the optional group [(?:...)?] and the word boundary [\b].
    Text is ASCII: a byte of the string is a character. *)
Inductive regex : Type :=
| REps
| RChar (c : ascii)
| RSeq (r1 r2 : regex)
| ROpt (r : regex)
| RWordBoundary.

(** [\w] on ASCII text. *)
Definition is_word_char (c : ascii) : bool :=
  let n := nat_of_ascii c in
  ((97 <=? n) && (n <=? 122) || (65 <=? n) && (n <=? 90)
   || (48 <=? n) && (n <=? 57) || (n =? 95))%nat.

Definition is_word_opt (o : option ascii) : bool :=
  match o with Some c => is_word_char c | None => false end.

Definition next_char (s : string) : option ascii :=
  match s with String c _ => Some c | EmptyString => None end.

(** Backtracking matcher in continuation style: [prev] is the character in
    front of the current position, [s] the text from that position on. *)
Fixpoint rmatch (r : regex) (prev : option ascii) (s : string)
    (k : option ascii -> string -> bool) : bool :=
  match r with
  | REps => k prev s
  | RChar c =>
      match s with
      | String c' s' => if Ascii.eqb c c' then k (Some c') s' else false
      | EmptyString => false
      end
  | RSeq r1 r2 => rmatch r1 prev s (fun p s' => rmatch r2 p s' k)
  | ROpt r1 => rmatch r1 prev s k || k prev s
  | RWordBoundary =>
      if xorb (is_word_opt prev) (is_word_opt (next_char s)) then k prev s
      else false
  end.

Fixpoint search_from (r : regex) (prev : option ascii) (s : string) : bool :=
  rmatch r prev s (fun _ _ => true)
  || match s with
     | String c s' => search_from r (Some c) s'
     | EmptyString => false
     end.

(** [re.search(pattern, text)], as a truth value. *)
Definition re_search (r : regex) (text : string) : bool := search_from r None text.

Fixpoint lit (s : string) : regex :=
  match s with
  | EmptyString => REps
  | String c s' => RSeq (RChar c) (lit s')
  end.

(** [\bword\b]. *)
Definition word_re (w : string) : regex :=
  RSeq RWordBoundary (RSeq (lit w) RWordBoundary).

(** [\bword(?:suffix)?\b]. *)
Definition word_opt_re (w suffix : string) : regex :=
  RSeq RWordBoundary (RSeq (lit w) (RSeq (ROpt (lit suffix)) RWordBoundary)).

Definition lower_char (c : ascii) : ascii :=
  let n := nat_of_ascii c in
  if ((65 <=? n) && (n <=? 90))%nat then ascii_of_nat (n + 32) else c.

(** [text.lower()] on ASCII text. *)
Fixpoint lower (s : string) : string :=
  match s with
  | EmptyString => EmptyString
  | String c s' => String (lower_char c) (lower s')
  end.

Fixpoint lstrip_chars (chars : list ascii) (s : list ascii) : list ascii :=
  match s with
  | c :: s' => if existsb (Ascii.eqb c) chars then lstrip_chars chars s' else s
  | [] => []
  end.

(** [s.strip(chars)]. *)
Definition py_strip (s chars : string) : string :=
  let cs := list_ascii_of_string chars in
  string_of_list_ascii
    (rev (lstrip_chars cs (rev (lstrip_chars cs (list_ascii_of_string s))))).

(** Python's [max(a, b)] and [min(a, b)] of two floats: the first argument
    unless the second is strictly beyond it. *)
Definition py_max (a b : Q) : Q := if Qle_bool b a then a else b.
Definition py_min (a b : Q) : Q := if Qle_bool a b then a else b.

(* ================================================================== *)
(** * app/services/chunking_service.py *)
(* ================================================================== *)

Module TemporalInfo.
Record t : Type := mk {
    has_temporal_indicator : bool;
    recency_score : Q;
    keywords : list string;
    is_current : bool;
    is_historical : bool;
    confidence : string
  }.
End TemporalInfo.

(** A row of a keyword table: the pattern as written, the pattern as
    compiled, and its weight.  The tables are dicts and are iterated in the
    order written. *)
Definition current_patterns : list (string * regex * Q) :=
  [ ("\bcurrent(?:ly)?\b", word_opt_re "current" "ly", 9 # 10);
    ("\blatest\b", word_re "latest", 9 # 10);
    ("\bnow\b", word_re "now", 85 # 100);
    ("\btoday\b", word_re "today", 85 # 100);
    ("\bpresent\b", word_re "present", 8 # 10);
    ("\bas of now\b", word_re "as of now", 9 # 10);
    ("\bupdated\b", word_re "updated", 85 # 100);
    ("\brecent(?:ly)?\b", word_opt_re "recent" "ly", 8 # 10);
    ("\bactive\b", word_re "active", 75 # 100);
    ("\beffective\b", word_re "effective", 7 # 10) ]%Q.

Definition historical_patterns : list (string * regex * Q) :=
  [ ("\bprevious(?:ly)?\b", word_opt_re "previous" "ly", 3 # 10);
    ("\bold\b", word_re "old", 2 # 10);
    ("\bformer(?:ly)?\b", word_opt_re "former" "ly", 25 # 100);
    ("\bwas\b", word_re "was", 4 # 10);
    ("\bpast\b", word_re "past", 3 # 10);
    ("\barchived\b", word_re "archived", 1 # 10);
    ("\bdeprecated\b", word_re "deprecated", 1 # 10);
    ("\bexpired\b", word_re "expired", 1 # 10);
    ("\bobsolete\b", word_re "obsolete", 1 # 10) ]%Q.

(** Body of the first loop; the state is [temporal_info] and [max_score]. *)
Definition current_step (text_lower : string) (st : TemporalInfo.t * Q)
    (row : string * regex * Q) : TemporalInfo.t * Q :=
  let '(temporal_info, max_score) := st in
  let '(pattern, re, score) := row in
  if re_search re text_lower then
    (TemporalInfo.mk true (TemporalInfo.recency_score temporal_info)
       (TemporalInfo.keywords temporal_info ++ [py_strip pattern "\b"])
       true (TemporalInfo.is_historical temporal_info)
       (TemporalInfo.confidence temporal_info),
     py_max max_score score)
  else st.

(** Body of the second loop. *)
Definition historical_step (text_lower : string) (st : TemporalInfo.t * Q)
    (row : string * regex * Q) : TemporalInfo.t * Q :=
  let '(temporal_info, max_score) := st in
  let '(pattern, re, score) := row in
  if re_search re text_lower then
    (TemporalInfo.mk true (TemporalInfo.recency_score temporal_info)
       (TemporalInfo.keywords temporal_info ++ [py_strip pattern "\b"])
       (TemporalInfo.is_current temporal_info) true
       (TemporalInfo.confidence temporal_info),
     if negb (TemporalInfo.is_current temporal_info)
     then py_min max_score score else max_score)
  else st.

Definition detect_temporal_indicators (text : string) : TemporalInfo.t :=
  let temporal_info := TemporalInfo.mk false (5 # 10) [] false false "medium" in
  let text_lower := lower text in
  let max_score := (5 # 10)%Q in
  let st1 := fold_left (current_step text_lower) current_patterns
                       (temporal_info, max_score) in
  let '(temporal_info, max_score) :=
    fold_left (historical_step text_lower) historical_patterns st1 in
  let n := List.length (TemporalInfo.keywords temporal_info) in
  TemporalInfo.mk (TemporalInfo.has_temporal_indicator temporal_info)
    max_score (TemporalInfo.keywords temporal_info)
    (TemporalInfo.is_current temporal_info)
    (TemporalInfo.is_historical temporal_info)
    (if (2 <=? n)%nat then "high" else if (n =? 1)%nat then "medium" else "low").

(** The scoring rule in the words of the specification: start at 0.5; every
    matching current pattern raises the score to its weight; a matching
    historical pattern lowers it only when no current pattern matched. *)
Definition matched (table : list (string * regex * Q)) (text_lower : string)
  : list Q :=
  map snd (filter (fun row => re_search (snd (fst row)) text_lower) table).

Definition recency_rule (text : string) : Q :=
  let cur := matched current_patterns (lower text) in
  let hist := matched historical_patterns (lower text) in
  match cur with
  | [] => fold_left py_min hist (5 # 10)%Q
  | _ => fold_left py_max cur (5 # 10)%Q
  end.

Record Settings : Type := mkSettings {
  chunk_size : Z;
  chunk_overlap : Z
}.

(** The defaults of [app/config.py]. *)
Definition settings : Settings := mkSettings 1000 100.

(** The splitter lives in a name space of its own: the tables have a
    column called [chunk_text] too. *)
Module Chunking.
Section Tokenizer.
  (** The [cl100k_base] encoding of tiktoken. *)
Variable token : Type.
Variable encode : string -> list token.
Variable decode : list token -> string.

  (** The [while] loop of [chunk_text]; [None] when [fuel] iterations do not
      reach its end. *)
Fixpoint chunk_loop (fuel : nat) (tokens : list token) (size overlap : Z)
      (start : Z) (chunks : list string) : option (list string) :=
    match fuel with
    | O => None
    | S fuel' =>
        if start <? Z.of_nat (List.length tokens) then
          let end_ := start + size in
          let chunk_tokens := py_slice tokens start end_ in
          let chunks' := chunks ++ [decode chunk_tokens] in
          let start' := end_ - overlap in
          if Z.of_nat (List.length tokens) <=? start' then Some chunks'
          else chunk_loop fuel' tokens size overlap start' chunks'
        else Some chunks
    end.

Definition chunk_text (fuel : nat) (text : string)
      (size overlap : option Z) : option (list string) :=
    let size := match size with Some s => s | None => chunk_size settings end in
    let overlap :=
      match overlap with Some o => o | None => chunk_overlap settings end in
    let tokens := encode text in
    chunk_loop fuel tokens size overlap 0 [].

  (** The windows a slide of [step] tokens visits: the starts
      [k * step < length tokens], in order. *)
Definition windows (tokens : list token) (size step : Z) : list string :=
    let n := Z.of_nat (List.length tokens) in
    map (fun k => decode (py_slice tokens (Z.of_nat k * step)
                                   (Z.of_nat k * step + size)))
        (seq 0 (Z.to_nat ((n + step - 1) / step))).
End Tokenizer.

Arguments chunk_loop {token} decode fuel tokens size overlap start chunks.
Arguments chunk_text {token} encode decode fuel text size overlap.
Arguments windows {token} decode tokens size step.
End Chunking.
Import Chunking.

(* ================================================================== *)
(** * The vector store behind [db.execute] *)
(* ================================================================== *)

(** The collaborators of a search: the embedding provider (which may
    raise, [None]), pgvector's cosine distance [<=>], whether the database
    answers at all, and [hashlib.md5(...).hexdigest()]. *)
Record Env : Type := mkEnv {
  generate_embedding : string -> option (list Q);
  cosine_distance : list Q -> list Q -> Q;
  db_available : bool;
  md5_hexdigest : string -> string
}.

(** A row of the result set of the search query. *)
Module Row.
Record t : Type := mk {
    id : Z;
    chunk_text : string;
    chunk_index : Z;
    document_id : Z;
    recency_score : option Q;
    document_metadata : Json;
    created_at : option Z;
    filename : string;
    uploaded_at : option Z;
    version : Z;
    similarity : Q
  }.
End Row.

(** [FROM document_chunks dc JOIN documents d ON dc.document_id = d.id]. *)
Definition join_chunks (d : DB) : list (DocumentChunk.t * Document.t) :=
  flat_map (fun dc =>
              map (pair dc)
                  (filter (fun doc => Document.id doc =? DocumentChunk.document_id dc)
                          (documents d)))
           (document_chunks d).

(** [dc.embedding IS NOT NULL AND dc.is_active = true AND d.is_active = true]. *)
Definition where_active (p : DocumentChunk.t * Document.t) : bool :=
  match DocumentChunk.embedding (fst p) with Some _ => true | None => false end
  && DocumentChunk.is_active (fst p) && Document.is_active (snd p).

Definition distance (env : Env) (query_embedding : list Q)
    (p : DocumentChunk.t * Document.t) : Q :=
  match DocumentChunk.embedding (fst p) with
  | Some e => cosine_distance env e query_embedding
  | None => 0
  end.

(** [ORDER BY dc.embedding <=> q]: ascending distance; rows at the same
    distance stay in storage order. *)
Definition order_by_distance (env : Env) (query_embedding : list Q)
    (l : list (DocumentChunk.t * Document.t))
  : list (DocumentChunk.t * Document.t) :=
  sort_desc (fun a b => Qle_bool (distance env query_embedding b)
                                 (distance env query_embedding a)) l.

Definition select_row (env : Env) (query_embedding : list Q)
    (p : DocumentChunk.t * Document.t) : Row.t :=
  let '(dc, d) := p in
  Row.mk (DocumentChunk.id dc) (DocumentChunk.chunk_text dc)
    (DocumentChunk.chunk_index dc) (DocumentChunk.document_id dc)
    (DocumentChunk.recency_score dc) (DocumentChunk.document_metadata dc)
    (DocumentChunk.created_at dc) (Document.filename d)
    (Document.uploaded_at d) (Document.version d)
    (1 - distance env query_embedding p)%Q.

(** The search query with the extra conditions [extra] in its WHERE clause.
    It raises when the database is unreachable, and PostgreSQL rejects a
    negative LIMIT. *)
Definition db_execute (env : Env) (d : DB) (query_embedding : list Q)
    (extra : DocumentChunk.t -> bool) (search_limit : Z) : option (list Row.t) :=
  if negb (db_available env) || (search_limit <? 0) then None
  else
    Some (map (select_row env query_embedding)
              (firstn (Z.to_nat search_limit)
                 (order_by_distance env query_embedding
                    (filter (fun p => where_active p && extra (fst p))
                            (join_chunks d))))).

(** What a search asks of its collaborators, in order. *)
Inductive Event : Type :=
| EmbedQuery (query : string)
| StoreQuery (query_embedding : list Q) (search_limit : Z).

(* ================================================================== *)
(** * app/services/search_service.py: semantic_search *)
(* ================================================================== *)

(** [str(n)] for an int. *)
Definition str_of_int (n : Z) : string :=
  DecimalString.NilZero.string_of_int (Z.to_int n).

Definition str_of_bool (b : bool) : string := if b then "True" else "False".

Definition _get_cache_key (env : Env) (query : string) (top_k : Z)
    (use_recency : bool) : string :=
  md5_hexdigest env
    (query ++ "|" ++ str_of_int top_k ++ "|" ++ str_of_bool use_recency)%string.

(** What the body of the [for row in rows] loop does with one row. *)
Inductive RowOutcome : Type :=
| BelowThreshold
| Raised
| Built (r : SearchResult.t).

(** [float(recency_score) if recency_score else 0.5]: [None] and [0.0] are
    both falsy. *)
Definition reported_recency (recency_score : option Q) : Q :=
  match recency_score with
  | Some r => if Qeq_bool r 0 then (5 # 10)%Q else r
  | None => (5 # 10)%Q
  end.

Definition process_row (use_recency_boost : bool)
    (recency_weight similarity_threshold : Q) (row : Row.t) : RowOutcome :=
  let similarity := Row.similarity row in
  if negb (Qle_bool similarity_threshold similarity) then BelowThreshold
  else
    let hybrid_score :=
      match Row.recency_score row with
      | Some recency_score =>
          if use_recency_boost
          then (similarity * (1 - recency_weight) + recency_score * recency_weight)%Q
          else similarity
      | None => similarity
      end in
    let metadata := Row.document_metadata row in
    match get_if_truthy metadata "entities" (JDict []),
          get_if_truthy metadata "data_types" (JList []),
          get_if_truthy metadata "temporal_info" (JDict []) with
    | Some entities, Some data_types, Some temporal_info =>
        Built (SearchResult.mk (Row.id row) (Row.chunk_text row)
                 (Row.chunk_index row) (Row.document_id row) (Row.filename row)
                 (Row.version row) (Row.uploaded_at row) (Row.created_at row)
                 similarity (reported_recency (Row.recency_score row))
                 hybrid_score entities data_types temporal_info)
    | _, _, _ => Raised
    end.

(** The loop: a row below the threshold and a row whose processing raised
    are both passed over ([continue]). *)
Fixpoint build_results (use_recency_boost : bool)
    (recency_weight similarity_threshold : Q) (rows : list Row.t)
  : list SearchResult.t :=
  match rows with
  | [] => []
  | row :: rows' =>
      match process_row use_recency_boost recency_weight similarity_threshold row with
      | Built r =>
          r :: build_results use_recency_boost recency_weight similarity_threshold rows'
      | _ => build_results use_recency_boost recency_weight similarity_threshold rows'
      end
  end.

Definition hybrid_le (a b : SearchResult.t) : bool :=
  Qle_bool (SearchResult.hybrid_score a) (SearchResult.hybrid_score b).

(** [search_limit = top_k * 3 if use_recency_boost else top_k]. *)
Definition search_limit_of (top_k : Z) (use_recency_boost : bool) : Z :=
  if use_recency_boost then top_k * 3 else top_k.

(** [semantic_search]: the returned list, the cache afterwards and the calls
    made to the collaborators.  Every exception ends in [return []]. *)
Definition semantic_search (env : Env) (d : DB) (cache : Cache)
    (query : string) (top_k : Z) (use_recency_boost : bool)
    (recency_weight similarity_threshold : Q)
  : list SearchResult.t * Cache * list Event :=
  let cache_key := _get_cache_key env query top_k use_recency_boost in
  match assoc_get cache_key cache with
  | Some cached => (cached, cache, [])
  | None =>
      match generate_embedding env query with
      | None => ([], cache, [EmbedQuery query])
      | Some query_embedding =>
          let search_limit := search_limit_of top_k use_recency_boost in
          let log := [EmbedQuery query; StoreQuery query_embedding search_limit] in
          match db_execute env d query_embedding (fun _ => true) search_limit with
          | None => ([], cache, log)
          | Some [] => ([], cache, log)
          | Some rows =>
              let search_results :=
                build_results use_recency_boost recency_weight
                              similarity_threshold rows in
              let final_results :=
                py_prefix (sort_desc hybrid_le search_results) top_k in
              if _cache_max_size <=? Z.of_nat (List.length cache) then
                match dict_pop_oldest cache with
                | None => ([], cache, log)
                | Some cache' =>
                    (final_results, dict_set cache_key final_results cache', log)
                end
              else (final_results, dict_set cache_key final_results cache, log)
          end
      end
  end.

(** The defaults of the signature of [semantic_search]. *)
Definition default_top_k : Z := 10.
Definition default_recency_weight : Q := (3 # 10)%Q.
Definition default_similarity_threshold : Q := 0%Q.

(* ================================================================== *)
(** * app/services/search_service.py: semantic_search_with_filters *)
(* ================================================================== *)

Definition json_is_str (s : string) (j : Json) : bool :=
  match j with JStr s' => String.eqb s s' | _ => false end.

(** [dc.document_metadata @> '{"data_types": [...]}']: the metadata is an
    object whose [data_types] array holds each requested type. *)
Definition contains_data_types (metadata : Json) (data_types : list string) : bool :=
  match metadata with
  | JDict l =>
      match assoc_get "data_types" l with
      | Some (JList xs) => forallb (fun s => existsb (json_is_str s) xs) data_types
      | _ => false
      end
  | _ => false
  end.

(** [j -> key]: NULL unless [j] is an object with that key. *)
Definition json_arrow (j : option Json) (key : string) : option Json :=
  match j with
  | Some (JDict l) => assoc_get key l
  | _ => None
  end.

(** [j ?| ids]: some id is a key of the object, an element of the array or
    the string itself. *)
Definition json_exists_any (j : option Json) (ids : list string) : bool :=
  match j with
  | Some (JDict l) => existsb (fun s => dict_mem s l) ids
  | Some (JList xs) => existsb (fun s => existsb (json_is_str s) xs) ids
  | Some (JStr s') => existsb (String.eqb s') ids
  | _ => false
  end.

Definition is_nonempty {A : Type} (o : option (list A)) : bool :=
  match o with Some (_ :: _) => true | _ => false end.

Definition opt_list {A : Type} (o : option (list A)) : list A :=
  match o with Some l => l | None => [] end.

(** The clauses [semantic_search_with_filters] adds to the WHERE clause. *)
Definition filter_clauses (data_types entity_ids : option (list string))
    (min_recency_score : option Q) (dc : DocumentChunk.t) : bool :=
  match min_recency_score with
  | Some m =>
      match DocumentChunk.recency_score dc with
      | Some r => Qle_bool m r
      | None => false
      end
  | None => true
  end
  && (if is_nonempty data_types
      then contains_data_types (DocumentChunk.document_metadata dc)
                               (opt_list data_types)
      else true)
  && (if is_nonempty entity_ids
      then json_exists_any
             (json_arrow (json_arrow (Some (DocumentChunk.document_metadata dc))
                                     "entities") "ids")
             (opt_list entity_ids)
      else true).

Module FilteredResult.
Record t : Type := mk {
    chunk_id : Z;
    text : string;
    filename : string;
    similarity : Q;
    recency_score : Q;
    entities : Json;
    data_types : Json
  }.
End FilteredResult.

(** One turn of the loop of the filtered search; no handler surrounds it,
    so [None] leaves the loop and the function. *)
Definition filtered_row (row : Row.t) : option FilteredResult.t :=
  let metadata := Row.document_metadata row in
  match get_if_truthy metadata "entities" (JDict []),
        get_if_truthy metadata "data_types" (JList []) with
  | Some entities, Some data_types_found =>
      Some (FilteredResult.mk (Row.id row) (Row.chunk_text row)
              (Row.filename row) (Row.similarity row)
              (reported_recency (Row.recency_score row))
              entities data_types_found)
  | _, _ => None
  end.

Fixpoint filtered_results (rows : list Row.t) : option (list FilteredResult.t) :=
  match rows with
  | [] => Some []
  | row :: rows' =>
      match filtered_row row with
      | None => None
      | Some r =>
          match filtered_results rows' with
          | None => None
          | Some rs => Some (r :: rs)
          end
      end
  end.

(** [(s1, r1) < (s2, r2)] on tuples of floats. *)
Definition tuple_lt (a b : Q * Q) : bool :=
  if Qeq_bool (fst a) (fst b) then negb (Qle_bool (snd b) (snd a))
  else negb (Qle_bool (fst b) (fst a)).

Definition sort_key (r : FilteredResult.t) : Q * Q :=
  (FilteredResult.similarity r, FilteredResult.recency_score r).

Definition tuple_le (a b : FilteredResult.t) : bool :=
  negb (tuple_lt (sort_key b) (sort_key a)).

(** [semantic_search_with_filters]: the returned list and the calls made. *)
Definition semantic_search_with_filters (env : Env) (d : DB) (query : string)
    (top_k : Z) (data_types entity_ids : option (list string))
    (min_recency_score : option Q) : list FilteredResult.t * list Event :=
  match generate_embedding env query with
  | None => ([], [EmbedQuery query])
  | Some query_embedding =>
      let search_limit := top_k * 3 in
      let log := [EmbedQuery query; StoreQuery query_embedding search_limit] in
      match db_execute env d query_embedding
              (filter_clauses data_types entity_ids min_recency_score)
              search_limit with
      | None => ([], log)
      | Some rows =>
          match filtered_results rows with
          | None => ([], log)
          | Some search_results =>
              (py_prefix (sort_desc tuple_le search_results) top_k, log)
          end
      end
  end.

(** Descending order of hybrid score and of the pair (similarity, recency). *)
Definition hybrid_ge (a b : SearchResult.t) : Prop :=
  (SearchResult.hybrid_score b <= SearchResult.hybrid_score a)%Q.

Definition tuple_ge (a b : FilteredResult.t) : Prop :=
  (FilteredResult.similarity b < FilteredResult.similarity a)%Q
  \/ (FilteredResult.similarity b == FilteredResult.similarity a
      /\ FilteredResult.recency_score b <= FilteredResult.recency_score a)%Q.

(** A small knowledge base for examples: [report.txt] on file at version 1
    with one embedded chunk, and requests against it. *)
Definition empty_world : World := mkWorld (mkDB [] [] 1) [] [].

Definition report_v1 : Document.t :=
  Document.mk 1 "report.txt" "h1" 10 (Some 0)
    (JDict [("original_filename", JStr "report.txt"); ("content_type", JNull);
            ("upload_id", JStr "u1")]) 1 true None.

Definition report_chunk : DocumentChunk.t :=
  DocumentChunk.mk 1 1 "the current report" 0 (Some [1%Q]) (JDict [])
    (Some (9 # 10)%Q) (Some 0) true 1 None.

Definition report_world : World :=
  mkWorld (mkDB [report_v1] [report_chunk] 2) [] [].

Definition upload_of (fname hash : string) : Upload :=
  mkUpload fname None hash 10 "u" 5 "task".

(** A tokenizer for examples: one token per character. *)
Definition char_encode (s : string) : list ascii := list_ascii_of_string s.
Definition char_decode (l : list ascii) : string := string_of_list_ascii l.

(** Collaborators for examples: every query embeds to the same vector, the
    distance of a stored vector is one minus its first component (so that
    component is the similarity), and the digest is the identity. *)
Definition demo_env : Env :=
  mkEnv (fun _ => Some [1%Q]) (fun e _ => (1 - hd 0 e)%Q) true (fun s => s).

(** The same collaborators with the embedding provider down, and with the
    database down. *)
Definition provider_down : Env :=
  mkEnv (fun _ => None) (fun e _ => (1 - hd 0 e)%Q) true (fun s => s).

Definition database_down : Env :=
  mkEnv (fun _ => Some [1%Q]) (fun e _ => (1 - hd 0 e)%Q) false (fun s => s).

(** An active chunk of [report_v1] with the given similarity to any query. *)
Definition chunk_of (id : Z) (sim : Q) (recency : option Q) (meta : Json)
  : DocumentChunk.t :=
  DocumentChunk.mk id 1 "text" id (Some [sim]) meta recency (Some 0) true 1 None.

Definition db_of (chunks : list DocumentChunk.t) : DB := mkDB [report_v1] chunks 2.

(** Similarities 0.9 and 0.2 with recency scores 0.1 and 0.9. *)
Definition ranking_db : DB :=
  db_of [chunk_of 1 (9 # 10) (Some (1 # 10)%Q) (JDict []);
         chunk_of 2 (2 # 10) (Some (9 # 10)%Q) (JDict [])].

(** A chunk whose [recency_score] column is NULL. *)
Definition null_recency_db : DB := db_of [chunk_of 1 (9 # 10) None (JDict [])].

(** A chunk whose metadata column holds a JSON string, next to a sound one. *)
Definition bad_metadata_db : DB :=
  db_of [chunk_of 1 (9 # 10) (Some (5 # 10)%Q) (JStr "legacy");
         chunk_of 2 (8 # 10) (Some (5 # 10)%Q) (JDict [])].

(** Similarities 0.7 and 0.8 with recency scores 0.9 and 0.1. *)
Definition tie_break_db : DB :=
  db_of [chunk_of 1 (7 # 10) (Some (9 # 10)%Q) (JDict []);
         chunk_of 2 (8 # 10) (Some (1 # 10)%Q) (JDict [])].

(** The hybrid score the primary search gives a row of the result set. *)
Definition hybrid_of (use_recency_boost : bool) (recency_weight : Q)
    (row : Row.t) : Q :=
  match Row.recency_score row with
  | Some recency_score =>
      if use_recency_boost
      then (Row.similarity row * (1 - recency_weight)
            + recency_score * recency_weight)%Q
      else Row.similarity row
  | None => Row.similarity row
  end.

(** The cache once room has been made for an insertion. *)
Definition evicted (cache : Cache) : Cache :=
  if _cache_max_size <=? Z.of_nat (List.length cache) then tl cache else cache.

(** A cache at capacity: one hundred entries, keyed ["0"] to ["99"], oldest
    first. *)
Definition full_cache : Cache :=
  map (fun n => (str_of_int (Z.of_nat n), [])) (seq 0 100).

(* ================================================================== *)
(** * app/api/documents.py: the other endpoints *)
(* ================================================================== *)

(** [delete_document]: [None] is the 404 answer.  [db.delete(document)]
    removes the row with that primary key and, by the cascade of the
    [chunks] relationship, the chunks that belong to it.  The search cache
    is not touched. *)
Definition delete_document (w : World) (document_id : Z) : option World :=
  match query_first (fun d => Document.id d =? document_id) (db w) with
  | None => None
  | Some document =>
      Some (mkWorld
              (mkDB (filter (fun d => negb (Document.id d =? Document.id document))
                            (documents (db w)))
                    (filter (fun c => negb (DocumentChunk.document_id c
                                            =? Document.id document))
                            (document_chunks (db w)))
                    (next_document_id (db w)))
              (search_cache w) (task_queue w))
  end.

(** [batch_upload_documents]: the single upload, file after file. *)
Fixpoint batch_upload_documents (w : World) (files : list Upload)
  : list UploadResponse * World :=
  match files with
  | [] => ([], w)
  | file :: files' =>
      let '(response, w1) := do_upload w file in
      let '(responses, w2) := batch_upload_documents w1 files' in
      (response :: responses, w2)
  end.

Record DocumentInfo : Type := mkDocumentInfo {
  info_id : Z;
  info_filename : string;
  info_file_size : Z;
  info_uploaded_at : option Z;
  chunk_count : Z
}.

(** [len(doc.chunks)]: the chunks whose foreign key is the document. *)
Definition chunks_of (d : DB) (doc : Document.t) : list DocumentChunk.t :=
  filter (fun c => DocumentChunk.document_id c =? Document.id doc)
         (document_chunks d).

(** [list_documents]: [OFFSET skip LIMIT limit] over the whole table; the
    database rejects a negative offset or limit. *)
Definition list_documents (w : World) (skip limit : Z)
  : option (list DocumentInfo) :=
  if (skip <? 0) || (limit <? 0) then None
  else
    Some (map (fun doc =>
                 mkDocumentInfo (Document.id doc) (Document.filename doc)
                   (Document.file_size doc) (Document.uploaded_at doc)
                   (Z.of_nat (List.length (chunks_of (db w) doc))))
              (firstn (Z.to_nat limit)
                      (skipn (Z.to_nat skip) (documents (db w))))).

(* ================================================================== *)
(** * app/services/chunking_service.py: classify_data_type *)
(* ================================================================== *)

(** The dict [extract_entities] returns. *)
Module Entities.
Record t : Type := mk {
  ids : list string;
  emails : list string;
  phone_numbers : list string;
  amounts : list string;
  dates : list string;
  names : list string
}.
End Entities.

(** [re.search(r'\bw1\b|\bw2\b|...', text)], as a truth value: some
    alternative matches somewhere. *)
Definition search_words (words : list string) (text : string) : bool :=
  existsb (fun w => re_search (word_re w) text) words.

(** Truth value of a list. *)
Definition truthy_list {A : Type} (l : list A) : bool :=
  match l with [] => false | _ => true end.

Definition classify_data_type (text : string) (entities : Entities.t)
  : list string :=
  let data_types : list string := [] in
  let text_lower := lower text in
  let data_types :=
    if search_words ["salary"; "compensation"; "pay"; "wage"] text_lower
    then (if truthy_list (Entities.amounts entities)
          then data_types ++ ["salary_data"] else data_types)
    else data_types in
  let data_types :=
    if truthy_list (Entities.emails entities)
       || truthy_list (Entities.phone_numbers entities)
    then data_types ++ ["contact_info"] else data_types in
  let data_types :=
    if search_words ["status"; "state"; "phase"; "completed"; "in progress";
                     "pending"] text_lower
    then data_types ++ ["status_data"] else data_types in
  let data_types :=
    if search_words ["policy"; "rule"; "guideline"; "procedure"; "must";
                     "shall"; "required"] text_lower
    then data_types ++ ["policy_data"] else data_types in
  let data_types :=
    if truthy_list (Entities.amounts entities)
       && search_words ["price"; "cost"; "fee"; "budget"; "revenue"] text_lower
    then data_types ++ ["financial_data"] else data_types in
  let data_types :=
    if truthy_list (Entities.names entities)
       && search_words ["employee"; "manager"; "team"; "department"; "hr"]
                       text_lower
    then data_types ++ ["personnel_data"] else data_types in
  let data_types :=
    if search_words ["project"; "product"; "feature"; "release"; "version"]
                    text_lower
    then data_types ++ ["project_data"] else data_types in
  if negb (truthy_list data_types) then data_types ++ ["general"]
  else data_types.

(** An entities dict with nothing found. *)
Definition no_entities : Entities.t := Entities.mk [] [] [] [] [] [].

(* ================================================================== *)
(** * app/services/ai_providers and app/services/embedding_service.py *)
(* ================================================================== *)

(** The two back ends of the providers: the OpenAI API and the local
    sentence-transformers model.  [None] is a raised exception.
    [local_available] is [LocalProvider._available], whether the model was
    loaded when the provider was built. *)
Record Backends : Type := mkBackends {
  openai_embed : string -> option (list Q);
  openai_embed_batch : list string -> option (list (list Q));
  openai_complete : list (string * string) -> Q -> Z -> option string;
  local_available : bool;
  local_encode : string -> option (list Q);
  local_encode_batch : list string -> option (list (list Q))
}.

Inductive ProviderKind : Type := OpenAIProvider | LocalProvider | HybridProvider.

Definition provider_name (p : ProviderKind) : string :=
  match p with
  | OpenAIProvider => "OpenAI"
  | LocalProvider => "Local"
  | HybridProvider => "Hybrid"
  end.

(** [LocalProvider.generate_embedding]: raises when the model is not
    available. *)
Definition local_generate_embedding (b : Backends) (text : string)
  : option (list Q) :=
  if negb (local_available b) then None else local_encode b text.

Definition local_generate_embeddings_batch (b : Backends) (texts : list string)
  : option (list (list Q)) :=
  if negb (local_available b) then None else local_encode_batch b texts.

(** The method [generate_embedding] of each provider.  The hybrid provider
    uses the local model when it was available at start-up and falls back
    to OpenAI when the local call raises. *)
Definition provider_generate_embedding (p : ProviderKind) (b : Backends)
    (text : string) : option (list Q) :=
  match p with
  | OpenAIProvider => openai_embed b text
  | LocalProvider => local_generate_embedding b text
  | HybridProvider =>
      if local_available b then
        match local_generate_embedding b text with
        | Some e => Some e
        | None => openai_embed b text
        end
      else openai_embed b text
  end.

Definition provider_generate_embeddings_batch (p : ProviderKind) (b : Backends)
    (texts : list string) : option (list (list Q)) :=
  match p with
  | OpenAIProvider => openai_embed_batch b texts
  | LocalProvider => local_generate_embeddings_batch b texts
  | HybridProvider =>
      if local_available b then
        match local_generate_embeddings_batch b texts with
        | Some es => Some es
        | None => openai_embed_batch b texts
        end
      else openai_embed_batch b texts
  end.

(** [generate_completion]: the local provider raises [NotImplementedError];
    the hybrid provider always asks OpenAI. *)
Definition provider_generate_completion (p : ProviderKind) (b : Backends)
    (messages : list (string * string)) (temperature : Q) (max_tokens : Z)
  : option string :=
  match p with
  | OpenAIProvider => openai_complete b messages temperature max_tokens
  | LocalProvider => None
  | HybridProvider => openai_complete b messages temperature max_tokens
  end.

(** The [status] field of [health_check]. *)
Definition openai_health (b : Backends) : string :=
  match openai_embed b "test" with
  | Some _ => "healthy"
  | None => "unhealthy"
  end.

Definition local_health (b : Backends) : string :=
  if negb (local_available b) then "unavailable"
  else match local_generate_embedding b "test" with
       | Some _ => "healthy"
       | None => "unhealthy"
       end.

Definition provider_health (p : ProviderKind) (b : Backends) : string :=
  match p with
  | OpenAIProvider => openai_health b
  | LocalProvider => local_health b
  | HybridProvider =>
      if String.eqb (openai_health b) "healthy" then "healthy" else "degraded"
  end.

(** [get_provider] of the embedding service, on [settings.ai_provider]. *)
Definition get_provider (ai_provider : string) : ProviderKind :=
  let provider_type := lower ai_provider in
  if String.eqb provider_type "openai" then OpenAIProvider
  else if String.eqb provider_type "local" then LocalProvider
  else if String.eqb provider_type "hybrid" then HybridProvider
  else HybridProvider.

(** [get_completion_provider] of the question-answering service. *)
Definition get_completion_provider (ai_provider : string) : ProviderKind :=
  let provider_type := lower ai_provider in
  if String.eqb provider_type "local" then OpenAIProvider
  else if String.eqb provider_type "hybrid" then HybridProvider
  else OpenAIProvider.

Definition TARGET_DIMENSION : Z := 1536.

(** [normalize_embedding_dimension]. *)
Definition normalize_embedding_dimension (embedding : list Q) (target_dim : Z)
  : list Q :=
  let current_dim := Z.of_nat (List.length embedding) in
  if current_dim =? target_dim then embedding
  else if current_dim <? target_dim then
    embedding ++ repeat 0%Q (Z.to_nat (target_dim - current_dim))
  else py_prefix embedding target_dim.

(** [generate_embedding] and [generate_embeddings_batch] of the service. *)
Definition service_generate_embedding (p : ProviderKind) (b : Backends)
    (text : string) : option (list Q) :=
  match provider_generate_embedding p b text with
  | Some embedding => Some (normalize_embedding_dimension embedding TARGET_DIMENSION)
  | None => None
  end.

Definition service_generate_embeddings_batch (p : ProviderKind) (b : Backends)
    (texts : list string) : option (list (list Q)) :=
  match provider_generate_embeddings_batch p b texts with
  | Some embeddings =>
      Some (map (fun emb => normalize_embedding_dimension emb TARGET_DIMENSION)
                embeddings)
  | None => None
  end.

(** The collaborators of a search when the embedding service runs on the
    configured provider. *)
Definition service_env (ai_provider : string) (b : Backends)
    (distance : list Q -> list Q -> Q) (available : bool)
    (md5 : string -> string) : Env :=
  mkEnv (service_generate_embedding (get_provider ai_provider) b)
        distance available md5.

(** The status [check_providers] reports for the whole system. *)
Definition check_providers (ai_provider : string) (b : Backends) : string :=
  let embedding_health := provider_health (get_provider ai_provider) b in
  let completion_health :=
    provider_health (get_completion_provider ai_provider) b in
  let all_healthy :=
    existsb (String.eqb embedding_health) ["healthy"; "degraded"]
    && existsb (String.eqb completion_health) ["healthy"; "degraded"] in
  if all_healthy then "healthy" else "unhealthy".

(** Back ends for examples: a local model of three dimensions that fails on
    the empty text, and an OpenAI API that is down. *)
Definition demo_backends : Backends :=
  mkBackends (fun _ => None) (fun _ => None) (fun _ _ _ => None) true
    (fun s => if String.eqb s "" then None else Some [1; 2; 3]%Q)
    (fun l => Some (map (fun _ => [1; 2; 3]%Q) l)).

(* ================================================================== *)
(** * app/services/file_service.py: extract_text *)
(* ================================================================== *)

(** [s.split('.')[-1]]: what follows the last dot, the whole string when
    there is none.  [acc] is the segment read so far. *)
Fixpoint last_segment_from (acc : string) (s : string) : string :=
  match s with
  | EmptyString => acc
  | String c s' =>
      if Ascii.eqb c "." then last_segment_from "" s'
      else last_segment_from (acc ++ String c "")%string s'
  end.

Definition last_segment (s : string) : string := last_segment_from "" s.

(** The three readers, which open the file at the path; [None] is any
    exception they raise. *)
Record Readers : Type := mkReaders {
  extract_text_from_pdf : string -> option string;
  extract_text_from_docx : string -> option string;
  extract_text_from_txt : string -> option string
}.

Inductive Extraction : Type :=
| Extracted (text : string)
| ReaderRaised
| UnsupportedFileType (extension : string).

Definition of_reader (o : option string) : Extraction :=
  match o with Some text => Extracted text | None => ReaderRaised end.

Definition extract_text (r : Readers) (file_path filename : string) : Extraction :=
  let extension := last_segment (lower filename) in
  if String.eqb extension "pdf" then of_reader (extract_text_from_pdf r file_path)
  else if String.eqb extension "docx" then
    of_reader (extract_text_from_docx r file_path)
  else if String.eqb extension "txt" then
    of_reader (extract_text_from_txt r file_path)
  else UnsupportedFileType extension.

(** No dot among the characters. *)
Fixpoint dotless (s : string) : bool :=
  match s with
  | EmptyString => true
  | String c s' => negb (Ascii.eqb c ".") && dotless s'
  end.

(** Readers for examples: each names its format. *)
Definition demo_readers : Readers :=
  mkReaders (fun _ => Some "pdf text") (fun _ => Some "docx text")
            (fun _ => Some "txt text").

(* ================================================================== *)
(** * app/services/completeness_service.py and app/services/qa_service.py *)
(* ================================================================== *)

Definition newline : string := String (ascii_of_nat 10) EmptyString.
Definition double_quote : string := String (ascii_of_nat 34) EmptyString.

(** [sep.join(parts)]. *)
Fixpoint join (sep : string) (parts : list string) : string :=
  match parts with
  | [] => ""
  | [p] => p
  | p :: ps => (p ++ sep ++ join sep ps)%string
  end.

(** One entry of the analysis of [check_completeness]. *)
Module Analysis.
Record t : Type := mk {
  requirement : string;
  covered : bool;
  confidence : Q;
  summary : string;
  sources : list (string * Q)
}.
End Analysis.

Record CompletenessReport : Type := mkCompletenessReport {
  completeness_percentage : Q;
  total_requirements : Z;
  covered_count : Z;
  gaps : list string;
  detailed_analysis : list Analysis.t
}.

Definition completeness_prompt (requirement context : string) : string :=
  ("Analyze if the following content adequately covers the topic: "
   ++ double_quote ++ requirement ++ double_quote ++ newline
   ++ newline
   ++ "Content:" ++ newline
   ++ context ++ newline
   ++ newline
   ++ "Does this content cover the topic? Provide:" ++ newline
   ++ "1. Yes/No" ++ newline
   ++ "2. Brief explanation (2-3 sentences)" ++ newline
   ++ "3. What's missing (if anything)")%string.

(** The loop of [check_completeness].  [chat] is
    [client.chat.completions.create] with its messages and temperature; an
    exception of it ends the function ([None]).  The search cache is
    threaded through the searches. *)
Fixpoint completeness_loop (env : Env)
    (chat : list (string * string) -> Q -> option string) (d : DB)
    (cache : Cache) (requirements : list string) (analysis : list Analysis.t)
  : option (list Analysis.t) * Cache :=
  match requirements with
  | [] => (Some analysis, cache)
  | requirement :: rest =>
      let '(results, cache1, _) :=
        semantic_search env d cache requirement 3 true default_recency_weight
                        default_similarity_threshold in
      match results with
      | [] =>
          completeness_loop env chat d cache1 rest
            (analysis ++ [Analysis.mk requirement false 0
                            "No relevant information found" []])
      | best :: _ =>
          let best_similarity := SearchResult.similarity best in
          let context :=
            join (newline ++ newline) (map SearchResult.text results) in
          let prompt := completeness_prompt requirement context in
          match chat [("system",
                       "You are an expert at analyzing documentation completeness.");
                      ("user", prompt)] (2 # 10)%Q with
          | None => (None, cache1)
          | Some llm_analysis =>
              let covered := negb (Qle_bool best_similarity (7 # 10)) in
              completeness_loop env chat d cache1 rest
                (analysis
                 ++ [Analysis.mk requirement covered best_similarity llm_analysis
                       (map (fun r => (SearchResult.filename r,
                                       SearchResult.similarity r)) results)])
          end
      end
  end.

Definition check_completeness (env : Env)
    (chat : list (string * string) -> Q -> option string) (d : DB)
    (cache : Cache) (requirements : list string)
  : option CompletenessReport * Cache :=
  match completeness_loop env chat d cache requirements [] with
  | (None, cache') => (None, cache')
  | (Some analysis, cache') =>
      let total_requirements := Z.of_nat (List.length requirements) in
      let covered_requirements :=
        Z.of_nat (List.length (filter Analysis.covered analysis)) in
      let completeness_percentage :=
        if 0 <? total_requirements
        then (inject_Z covered_requirements / inject_Z total_requirements * 100)%Q
        else 0%Q in
      let gaps :=
        map Analysis.requirement
            (filter (fun a => negb (Analysis.covered a)) analysis) in
      (Some (mkCompletenessReport completeness_percentage total_requirements
               covered_requirements gaps analysis), cache')
  end.

Record QASource : Type := mkQASource {
  source_filename : string;
  source_text : string;
  source_similarity : Q
}.

Record QAResponse : Type := mkQAResponse {
  answer : string;
  qa_sources : list QASource;
  qa_question : option string;
  qa_provider : string
}.

(** [for idx, result in enumerate(search_results, 1)]. *)
Fixpoint context_parts (idx : Z) (search_results : list SearchResult.t)
  : list string :=
  match search_results with
  | [] => []
  | result :: rest =>
      ("[Source " ++ str_of_int idx ++ " - " ++ SearchResult.filename result
       ++ "]:" ++ newline ++ SearchResult.text result)%string
      :: context_parts (idx + 1) rest
  end.

Definition qa_prompt (context question : string) : string :=
  ("Based on the following context from our knowledge base, please answer the question."
   ++ newline
   ++ "If the answer is not in the context, say so." ++ newline
   ++ newline
   ++ "Context:" ++ newline
   ++ context ++ newline
   ++ newline
   ++ "Question: " ++ question ++ newline
   ++ newline
   ++ "Answer:")%string.

(** [answer_question].  The completion provider is the one
    [get_completion_provider] chose; an exception of its completion ends the
    function ([None]). *)
Definition answer_question (env : Env) (ai_provider : string) (b : Backends)
    (d : DB) (cache : Cache) (question : string) (top_k : Z)
  : option QAResponse * Cache :=
  let provider := get_completion_provider ai_provider in
  let '(search_results, cache1, _) :=
    semantic_search env d cache question top_k true default_recency_weight
                    default_similarity_threshold in
  match search_results with
  | [] =>
      (Some (mkQAResponse
               "I couldn't find relevant information to answer this question."
               [] None (provider_name provider)), cache1)
  | _ =>
      let context :=
        join (newline ++ newline) (context_parts 1 search_results) in
      let prompt := qa_prompt context question in
      let messages :=
        [("system",
          "You are a helpful assistant that answers questions based on provided context. Always cite your sources.");
         ("user", prompt)] in
      match provider_generate_completion provider b messages (3 # 10)%Q 500 with
      | None => (None, cache1)
      | Some answer =>
          (Some (mkQAResponse answer
                   (map (fun result =>
                           mkQASource (SearchResult.filename result)
                             (substring 0 200 (SearchResult.text result) ++ "...")
                             (SearchResult.similarity result))
                        search_results)
                   (Some question) (provider_name provider)), cache1)
      end
  end.

(* ================================================================== *)
(** * app/services/chunking_service.py: chunk_text_enhanced *)
(* ================================================================== *)

(** What the enhanced chunking calls and this development does not open:
    the [cl100k_base] encoding, [extract_entities], [detect_content_type]
    and [datetime.isoformat]. *)
Record Chunker : Type := mkChunker {
  tok : Type;
  encoding_encode : string -> list tok;
  encoding_decode : list tok -> string;
  extract_entities : string -> Entities.t;
  detect_content_type : string -> string;
  isoformat : Z -> string
}.

Definition count_tokens (ck : Chunker) (text : string) : Z :=
  Z.of_nat (List.length (encoding_encode ck text)).

(** The dict [chunk_metadata]. *)
Module ChunkMetadata.
Record t : Type := mk {
    chunk_index : Z;
    chunk_length : Z;
    token_count : Z;
    content_type : string;
    data_types : list string;
    entities : Entities.t;
    temporal_info : TemporalInfo.t;
    recency_score : Q;
    created_at : string;
    document_metadata : option Json
  }.
End ChunkMetadata.

(** An element of the list [chunk_text_enhanced] returns. *)
Module EnhancedChunk.
Record t : Type := mk {
    text : string;
    metadata : ChunkMetadata.t
  }.
End EnhancedChunk.

(** The dicts as the JSONB column stores them. *)
Definition json_strs (l : list string) : Json := JList (map JStr l).

Definition entities_json (e : Entities.t) : Json :=
  JDict [ ("ids", json_strs (Entities.ids e));
          ("emails", json_strs (Entities.emails e));
          ("phone_numbers", json_strs (Entities.phone_numbers e));
          ("amounts", json_strs (Entities.amounts e));
          ("dates", json_strs (Entities.dates e));
          ("names", json_strs (Entities.names e)) ].

Definition temporal_info_json (t : TemporalInfo.t) : Json :=
  JDict [ ("has_temporal_indicator", JBool (TemporalInfo.has_temporal_indicator t));
          ("recency_score", JFloat (TemporalInfo.recency_score t));
          ("keywords", json_strs (TemporalInfo.keywords t));
          ("is_current", JBool (TemporalInfo.is_current t));
          ("is_historical", JBool (TemporalInfo.is_historical t));
          ("confidence", JStr (TemporalInfo.confidence t)) ].

Definition metadata_json (m : ChunkMetadata.t) : Json :=
  JDict ([ ("chunk_index", JInt (ChunkMetadata.chunk_index m));
           ("chunk_length", JInt (ChunkMetadata.chunk_length m));
           ("token_count", JInt (ChunkMetadata.token_count m));
           ("content_type", JStr (ChunkMetadata.content_type m));
           ("data_types", json_strs (ChunkMetadata.data_types m));
           ("entities", entities_json (ChunkMetadata.entities m));
           ("temporal_info", temporal_info_json (ChunkMetadata.temporal_info m));
           ("recency_score", JFloat (ChunkMetadata.recency_score m));
           ("created_at", JStr (ChunkMetadata.created_at m)) ]
         ++ match ChunkMetadata.document_metadata m with
            | Some j => [("document_metadata", j)]
            | None => []
            end).

(** The loop over [enumerate(basic_chunks)], from index [idx] on.
    [chunked_at i] is the reading of [datetime.utcnow()] in iteration [i]. *)
Fixpoint enhance (ck : Chunker) (chunked_at : Z -> Z)
    (document_metadata : option Json) (idx : Z) (basic_chunks : list string)
  : list EnhancedChunk.t :=
  match basic_chunks with
  | [] => []
  | text_chunk :: rest =>
      let entities := extract_entities ck text_chunk in
      let data_types := classify_data_type text_chunk entities in
      let temporal_info := detect_temporal_indicators text_chunk in
      let content_type := detect_content_type ck text_chunk in
      let chunk_metadata :=
        ChunkMetadata.mk idx (Z.of_nat (String.length text_chunk))
          (count_tokens ck text_chunk) content_type data_types entities
          temporal_info (TemporalInfo.recency_score temporal_info)
          (isoformat ck (chunked_at idx))
          (match document_metadata with
           | Some j => if py_truthy j then Some j else None
           | None => None
           end) in
      EnhancedChunk.mk text_chunk chunk_metadata
        :: enhance ck chunked_at document_metadata (idx + 1) rest
  end.

Definition chunk_text_enhanced (ck : Chunker) (chunked_at : Z -> Z) (fuel : nat)
    (text : string) (chunk_size overlap : option Z)
    (document_metadata : option Json) : option (list EnhancedChunk.t) :=
  match chunk_text (encoding_encode ck) (encoding_decode ck) fuel text
                   chunk_size overlap with
  | Some basic_chunks =>
      Some (enhance ck chunked_at document_metadata 0 basic_chunks)
  | None => None
  end.

(* ================================================================== *)
(** * app/tasks/document_tasks.py: process_document *)
(* ================================================================== *)

(** What a run of the task depends on besides the database: the chunker,
    the file readers, the configured embedding provider and its back ends,
    and the clock, read once per chunk while chunking and once per row
    while the rows are flushed. *)
Record Worker : Type := mkWorker {
  chunker : Chunker;
  readers : Readers;
  provider : ProviderKind;
  backends : Backends;
  chunked_at : Z -> Z;
  flushed_at : Z -> Z
}.

Definition max_retries : Z := 3.

(** How a run ends: with the returned dict (of which [status], [document_id],
    [chunks_created] and [total_entities_extracted] are kept; the rounded
    average and the set of data types are not modelled), with a retry after
    [countdown] seconds, or, when [self.retry] finds the retries used up,
    with the exception itself. *)
Inductive TaskResult : Type :=
| Succeeded (document_id chunks_created total_entities_extracted : Z)
| Retry (countdown : Z)
| Failed.

(** The result, the tables and the search cache of the worker process after
    the run, and whether the staged file has been removed by it. *)
Record TaskOutcome : Type := mkTaskOutcome {
  task_result : TaskResult;
  task_db : DB;
  task_cache : Cache;
  temp_file_removed : bool
}.

(** [filename.split('.')[-1] if '.' in filename else 'unknown']. *)
Definition file_type (filename : string) : string :=
  if negb (dotless filename) then last_segment filename else "unknown".

(** The [except] branch: roll back, remove the file when the retries are
    used up, and retry with a countdown of [60 * 2 ** retries]. *)
Definition on_exception (d : DB) (cache : Cache) (retries : Z) : TaskOutcome :=
  let exhausted := max_retries <=? retries in
  mkTaskOutcome (if exhausted then Failed else Retry (60 * 2 ^ retries))
    d cache exhausted.

(** The rows added for [zip(enhanced_chunks, embeddings)]; [first_id] is
    the next value of the id sequence of [document_chunks] and [idx] counts
    the rows. *)
Fixpoint chunk_rows (flushed_at : Z -> Z) (document_id doc_version : Z)
    (first_id idx : Z) (pairs : list (EnhancedChunk.t * list Q))
  : list DocumentChunk.t :=
  match pairs with
  | [] => []
  | (enhanced_chunk, embedding) :: rest =>
      let metadata := EnhancedChunk.metadata enhanced_chunk in
      DocumentChunk.mk (first_id + idx) document_id
        (EnhancedChunk.text enhanced_chunk)
        (ChunkMetadata.chunk_index metadata)
        (Some embedding)
        (metadata_json metadata)
        (Some (ChunkMetadata.recency_score metadata))
        (Some (flushed_at idx)) true doc_version None
        :: chunk_rows flushed_at document_id doc_version first_id (idx + 1) rest
  end.

Definition total_entities (enhanced_chunks : list EnhancedChunk.t) : Z :=
  fold_left Z.add
    (map (fun chunk =>
            let entities := ChunkMetadata.entities (EnhancedChunk.metadata chunk) in
            Z.of_nat (List.length (Entities.ids entities))
            + Z.of_nat (List.length (Entities.names entities))
            + Z.of_nat (List.length (Entities.amounts entities)))
         enhanced_chunks)
    0.

(** One run of the task with [self.request.retries = retries].  The write
    of [raw_content], committed before the chunking starts, falls on a
    column the [documents] table of this development does not carry.
    [None]: the chunking loop has not ended within [fuel] iterations. *)
Definition process_document (wk : Worker) (fuel : nat) (d : DB) (cache : Cache)
    (next_chunk_id : Z) (retries : Z) (document_id : Z)
    (file_path filename : string) : option TaskOutcome :=
  match extract_text (readers wk) file_path filename with
  | Extracted text =>
      match query_first (fun doc => Document.id doc =? document_id) d with
      | None => Some (on_exception d cache retries)
      | Some document =>
          let document_metadata :=
            JDict [ ("filename", JStr filename);
                    ("uploaded_at",
                     match Document.uploaded_at document with
                     | Some t => JStr (isoformat (chunker wk) t)
                     | None => JNull
                     end);
                    ("document_id", JInt document_id);
                    ("file_type", JStr (file_type filename)) ] in
          match chunk_text_enhanced (chunker wk) (chunked_at wk) fuel text
                  None None (Some document_metadata) with
          | None => None
          | Some enhanced_chunks =>
              let chunk_texts := map EnhancedChunk.text enhanced_chunks in
              match service_generate_embeddings_batch (provider wk) (backends wk)
                      chunk_texts with
              | None => Some (on_exception d cache retries)
              | Some embeddings =>
                  let doc_version :=
                    match query_first
                            (fun doc => Document.id doc =? document_id) d with
                    | Some document => Document.version document
                    | None => 1
                    end in
                  let rows :=
                    chunk_rows (flushed_at wk) document_id doc_version
                      next_chunk_id 0 (combine enhanced_chunks embeddings) in
                  Some (mkTaskOutcome
                          (Succeeded document_id
                             (Z.of_nat (List.length enhanced_chunks))
                             (total_entities enhanced_chunks))
                          (mkDB (documents d) (document_chunks d ++ rows)
                                (next_document_id d))
                          (clear_search_cache cache)
                          true)
              end
          end
      end
  | _ => Some (on_exception d cache retries)
  end.

(** A worker for examples: characters as tokens, no entity found, every
    chunk a paragraph, the text readers and the local model of
    [demo_backends]. *)
Definition demo_chunker : Chunker :=
  mkChunker ascii char_encode char_decode (fun _ => no_entities)
            (fun _ => "paragraph") str_of_int.

Definition demo_worker : Worker :=
  mkWorker demo_chunker demo_readers LocalProvider demo_backends
           (fun i => i) (fun i => i).

(* ================================================================== *)
(** * app/api/schemas.py, app/api/search.py and app/api/qa.py *)
(* ================================================================== *)

(** What an endpoint answers: its response model, 422 when the request
    body fails validation, 500 when the handler raises. *)
Inductive Http (A : Type) : Type :=
| Ok (a : A)
| UnprocessableEntity
| InternalServerError.

Arguments Ok {A} a.
Arguments UnprocessableEntity {A}.
Arguments InternalServerError {A}.

(** [Field(default, ge=lo, le=hi)] on an [int] field; [given] is the value
    of the field in the request body, if the body has one. *)
Definition field_int (default lo hi : Z) (given : option Z) : option Z :=
  match given with
  | Some v => if (lo <=? v) && (v <=? hi) then Some v else None
  | None => Some default
  end.

Module Schemas.
Record SearchRequest : Type := mkSearchRequest {
    query : string;
    top_k : Z
  }.

Record SearchResponse : Type := mkSearchResponse {
    response_query : string;
    results : list SearchResult.t;
    total_results : Z
  }.

Record QARequest : Type := mkQARequest {
    question : string;
    qa_top_k : Z
  }.

Record QAResponseModel : Type := mkQAResponseModel {
    response_question : string;
    response_answer : string;
    sources : list QASource;
    provider : string
  }.
End Schemas.

(** Validation of the request bodies: the text field is required, [top_k]
    defaults to 10 within 1..100 for a search and to 5 within 1..20 for a
    question. *)
Definition validate_search_request (query : option string) (top_k : option Z)
  : option Schemas.SearchRequest :=
  match query, field_int 10 1 100 top_k with
  | Some q, Some k => Some (Schemas.mkSearchRequest q k)
  | _, _ => None
  end.

Definition validate_qa_request (question : option string) (top_k : option Z)
  : option Schemas.QARequest :=
  match question, field_int 5 1 20 top_k with
  | Some q, Some k => Some (Schemas.mkQARequest q k)
  | _, _ => None
  end.

(** [POST /api/v1/search]: the answer, the cache afterwards and the calls
    made to the collaborators. *)
Definition search (env : Env) (d : DB) (cache : Cache)
    (query : option string) (top_k : option Z)
  : Http Schemas.SearchResponse * Cache * list Event :=
  match validate_search_request query top_k with
  | None => (UnprocessableEntity, cache, [])
  | Some request =>
      let '(results, cache1, log) :=
        semantic_search env d cache (Schemas.query request)
          (Schemas.top_k request) true default_recency_weight
          default_similarity_threshold in
      (Ok (Schemas.mkSearchResponse (Schemas.query request) results
             (Z.of_nat (List.length results))),
       cache1, log)
  end.

(** The response model built from the dict [answer_question] returns: the
    field [question] is required, so a dict without it fails validation,
    which the handler does not catch. *)
Definition qa_response_of (result : QAResponse)
  : option Schemas.QAResponseModel :=
  match qa_question result with
  | Some question =>
      Some (Schemas.mkQAResponseModel question (answer result)
              (qa_sources result)
              (qa_provider result))
  | None => None
  end.

(** [POST /api/v1/qa]. *)
Definition ask_question (env : Env) (ai_provider : string) (b : Backends)
    (d : DB) (cache : Cache) (question : option string) (top_k : option Z)
  : Http Schemas.QAResponseModel * Cache :=
  match validate_qa_request question top_k with
  | None => (UnprocessableEntity, cache)
  | Some request =>
      match answer_question env ai_provider b d cache
              (Schemas.question request) (Schemas.qa_top_k request) with
      | (Some result, cache1) =>
          match qa_response_of result with
          | Some response => (Ok response, cache1)
          | None => (InternalServerError, cache1)
          end
      | (None, cache1) => (InternalServerError, cache1)
      end
  end.

(* ================================================================== *)
(** * Properties of the version manager *)
(* ================================================================== *)

Lemma find_none_filter {A : Type} (p : A -> bool) (l : list A) :
  find p l = None <-> filter p l = [].
Proof.
  induction l as [| x l IH]; simpl; [tauto |].
  destruct (p x); [split; discriminate | exact IH].
Qed.

Lemma find_app_none {A : Type} (p : A -> bool) (l1 l2 : list A) :
  find p l1 = None -> find p (l1 ++ l2) = find p l2.
Proof.
  induction l1 as [| x l1 IH]; simpl; [reflexivity |].
  destruct (p x); [discriminate | exact IH].
Qed.

Lemma filter_single_find {A : Type} (p : A -> bool) (l : list A) (x : A) :
  find p l = Some x -> (List.length (filter p l) <= 1)%nat ->
  forall y, In y l -> p y = true -> y = x.
Proof.
  induction l as [| a l IH]; simpl; [discriminate |].
  destruct (p a) eqn:Ha.
  - intros [= ->] Hlen y [-> | Hy] Hp; [reflexivity |].
    simpl in Hlen.
    assert (Hin : In y (filter p l)) by (apply filter_In; auto).
    destruct (filter p l); [contradiction | simpl in Hlen; lia].
  - intros Hf Hlen y [-> | Hy] Hp; [congruence | eauto].
Qed.

Lemma deactivate_by_filename (fname : string) (old_id now : Z) (d : Document.t) :
  by_filename fname (deactivate_document old_id now d)
  = by_filename fname d && negb (Document.id d =? old_id).
Proof.
  unfold deactivate_document, by_filename.
  destruct (Document.id d =? old_id); simpl;
    destruct (String.eqb (Document.filename d) fname);
    destruct (Document.is_active d); reflexivity.
Qed.

Lemma active_count_deactivate_le (fname : string) (old_id now : Z)
    (docs : list Document.t) :
  (active_count fname (map (deactivate_document old_id now) docs)
   <= active_count fname docs)%nat.
Proof.
  unfold active_count. fold (by_filename fname).
  induction docs as [| d docs IH]; simpl; [lia |].
  rewrite deactivate_by_filename.
  destruct (by_filename fname d); simpl;
    [destruct (Document.id d =? old_id); simpl; lia | exact IH].
Qed.

Lemma filter_deactivated_nil (fname : string) (now : Z) (old : Document.t)
    (docs : list Document.t) :
  find (by_filename fname) docs = Some old ->
  (active_count fname docs <= 1)%nat ->
  filter (by_filename fname)
         (map (deactivate_document (Document.id old) now) docs) = [].
Proof.
  intros Hfind Hcnt.
  assert (Huniq := filter_single_find _ _ _ Hfind Hcnt).
  clear Hfind Hcnt.
  induction docs as [| d docs IH]; simpl; [reflexivity |].
  rewrite deactivate_by_filename.
  destruct (by_filename fname d) eqn:Hd; simpl.
  - rewrite (Huniq d (or_introl eq_refl) Hd), Z.eqb_refl. simpl.
    apply IH. intros y Hy. apply Huniq. now right.
  - apply IH. intros y Hy. apply Huniq. now right.
Qed.

Lemma active_count_app (fname : string) (l1 l2 : list Document.t) :
  active_count fname (l1 ++ l2)
  = (active_count fname l1 + active_count fname l2)%nat.
Proof. unfold active_count. now rewrite filter_app, length_app. Qed.

Lemma deactivate_chunk_inactive (old_id now : Z) (c : DocumentChunk.t) :
  (DocumentChunk.document_id (deactivate_chunk old_id now c) =? old_id)
  && DocumentChunk.is_active (deactivate_chunk old_id now c) = false.
Proof.
  unfold deactivate_chunk.
  destruct (DocumentChunk.document_id c =? old_id) eqn:H1;
    destruct (DocumentChunk.is_active c) eqn:H2;
    simpl; rewrite ?H1, ?H2; reflexivity.
Qed.

Lemma chunks_deactivated (old_id now : Z) (chunks : list DocumentChunk.t) :
  active_chunks_of old_id (map (deactivate_chunk old_id now) chunks) = O.
Proof.
  unfold active_chunks_of.
  induction chunks as [| c chunks IH]; [reflexivity |].
  cbn [map filter]. rewrite deactivate_chunk_inactive. exact IH.
Qed.

Lemma upload_preserves_invariant (w : World) (u : Upload) :
  one_active_per_filename w -> one_active_per_filename (snd (do_upload w u)).
Proof.
  intros Hinv. unfold do_upload, upload_document, query_first.
  fold (by_filename (up_filename u)). fold (by_content (up_content_hash u)).
  destruct (find (by_filename (up_filename u)) (documents (db w)))
    as [existing |] eqn:Hname.
  - destruct (String.eqb (Document.content_hash existing) (up_content_hash u));
      [exact Hinv |].
    intros f. simpl. rewrite active_count_app.
    destruct (String.eqb (up_filename u) f) eqn:Hf.
    + apply String.eqb_eq in Hf. subst f.
      unfold active_count at 1. fold (by_filename (up_filename u)).
      rewrite (filter_deactivated_nil _ _ _ _ Hname (Hinv _)).
      unfold active_count. simpl. destruct (_ && _); simpl; lia.
    + pose proof (active_count_deactivate_le f (Document.id existing)
                    (up_now u) (documents (db w))) as Hle.
      specialize (Hinv f).
      unfold active_count at 2. simpl. rewrite Hf. simpl. lia.
  - destruct (find (by_content (up_content_hash u)) (documents (db w)));
      [exact Hinv |].
    intros f. simpl. rewrite active_count_app.
    destruct (String.eqb (up_filename u) f) eqn:Hf.
    + apply String.eqb_eq in Hf. subst f.
      apply find_none_filter in Hname.
      unfold active_count at 1. fold (by_filename (up_filename u)).
      rewrite Hname. unfold active_count. simpl. destruct (_ && _); simpl; lia.
    + specialize (Hinv f).
      unfold active_count at 2. simpl. rewrite Hf. simpl. lia.
Qed.

Lemma uploads_preserve_invariant (us : list Upload) :
  forall w, one_active_per_filename w -> one_active_per_filename (uploads w us).
Proof.
  induction us as [| u us IH]; intros w Hinv; [exact Hinv |].
  apply IH, upload_preserves_invariant, Hinv.
Qed.

Lemma active_count_zero_find (fname : string) (docs : list Document.t) :
  active_count fname docs = O -> find (by_filename fname) docs = None.
Proof.
  unfold active_count. fold (by_filename fname). intros H.
  apply find_none_filter. now apply length_zero_iff_nil.
Qed.

Lemma lineage_first (fname : string) (w : World) (u : Upload) :
  up_filename u = fname ->
  active_count fname (documents (db w)) = O ->
  query_first (by_content (up_content_hash u)) (db w) = None ->
  lineage_at fname 1 (up_content_hash u) (snd (do_upload w u)).
Proof.
  intros <- Hcnt Hcontent.
  pose proof (active_count_zero_find _ _ Hcnt) as Hname.
  unfold lineage_at, do_upload, upload_document, query_first in *.
  fold (by_filename (up_filename u)). fold (by_content (up_content_hash u)).
  rewrite Hname, Hcontent. simpl. split.
  - rewrite active_count_app, Hcnt. unfold active_count. simpl.
    now rewrite String.eqb_refl.
  - eexists. split.
    + rewrite find_app_none by exact Hname. simpl.
      unfold by_filename. simpl. rewrite String.eqb_refl. reflexivity.
    + split; reflexivity.
Qed.

Lemma lineage_step (fname : string) (k : Z) (h : string) (w : World) (u : Upload) :
  lineage_at fname k h w ->
  up_filename u = fname ->
  String.eqb h (up_content_hash u) = false ->
  lineage_at fname (k + 1) (up_content_hash u) (snd (do_upload w u)).
Proof.
  intros [Hcnt (doc & Hfind & Hver & Hhash)] <- Hneq.
  unfold lineage_at, do_upload, upload_document, query_first in *.
  fold (by_filename (up_filename u)). rewrite Hfind, Hhash, Hneq. simpl.
  assert (Hnil := filter_deactivated_nil (up_filename u) (up_now u) doc
                    (documents (db w)) Hfind ltac:(lia)).
  split.
  - rewrite active_count_app. unfold active_count at 1.
    fold (by_filename (up_filename u)). rewrite Hnil.
    unfold active_count. simpl. now rewrite String.eqb_refl.
  - eexists. split.
    + rewrite find_app_none by (now apply find_none_filter). simpl.
      unfold by_filename. simpl. rewrite String.eqb_refl. reflexivity.
    + split; [simpl; lia | reflexivity].
Qed.

Lemma lineage_uploads (fname : string) (us : list Upload) :
  forall (w : World) (k : Z) (h : string),
    lineage_at fname k h w ->
    Forall (fun u => up_filename u = fname) us ->
    adjacent_distinct (h :: map up_content_hash us) = true ->
    exists h', lineage_at fname (k + Z.of_nat (List.length us)) h' (uploads w us).
Proof.
  induction us as [| u us IH]; intros w k h Hlin Hall Hadj.
  - exists h. simpl. now rewrite Z.add_0_r.
  - apply Forall_cons_iff in Hall as [Hu Hall'].
    cbn [map adjacent_distinct] in Hadj.
    apply andb_prop in Hadj as [Hne Hadj]. apply negb_true_iff in Hne.
    destruct (IH (snd (do_upload w u)) (k + 1) (up_content_hash u)
                 (lineage_step _ _ _ _ _ Hlin Hu Hne) Hall' Hadj) as [h' Hh'].
    exists h'. cbn [uploads fold_left List.length].
    replace (k + Z.of_nat (S (List.length us)))
      with (k + 1 + Z.of_nat (List.length us)) by lia.
    exact Hh'.
Qed.

(** C1, as the code has it.  A re-upload of a filename whose active document
    has another content hash deactivates that document ([is_active] false,
    [replaced_at] now) and all its active chunks and, in the same commit,
    appends a document of version [old.version + 1], active, whose metadata
    names the previous id.  Hence uploads keep at most one active document
    per filename, and [N] successive uploads of one filename, each changing
    the content, starting where the filename has no active document and the
    first content is not on file under an active document, leave the active
    document at version [N]. *)
Theorem version_lineage :
  (forall (w : World) (u : Upload) (old : Document.t),
      query_first (by_filename (up_filename u)) (db w) = Some old ->
      Document.content_hash old <> up_content_hash u ->
      exists new : Document.t,
        fst (do_upload w u)
        = mkUploadResponse "updated" (Some (Document.id new)) (Some (up_task u))
        /\ documents (db (snd (do_upload w u)))
           = map (deactivate_document (Document.id old) (up_now u))
                 (documents (db w)) ++ [new]
        /\ Forall (fun d => Document.id d = Document.id old ->
                            Document.is_active d = false
                            /\ Document.replaced_at d = Some (up_now u))
                  (map (deactivate_document (Document.id old) (up_now u))
                       (documents (db w)))
        /\ active_chunks_of (Document.id old)
             (document_chunks (db (snd (do_upload w u)))) = O
        /\ Document.version new = Document.version old + 1
        /\ Document.is_active new = true
        /\ Document.filename new = up_filename u
        /\ Document.content_hash new = up_content_hash u
        /\ py_get (Document.document_metadata new) "previous_version" JNull
           = Some (JInt (Document.id old)))
  /\ (forall (w : World) (us : list Upload),
         one_active_per_filename w -> one_active_per_filename (uploads w us))
  /\ (forall (w : World) (fname : string) (u : Upload) (us : list Upload),
         Forall (fun u' => up_filename u' = fname) (u :: us) ->
         adjacent_distinct (map up_content_hash (u :: us)) = true ->
         active_count fname (documents (db w)) = O ->
         query_first (by_content (up_content_hash u)) (db w) = None ->
         active_count fname (documents (db (uploads w (u :: us)))) = 1%nat
         /\ exists doc,
             query_first (by_filename fname) (db (uploads w (u :: us))) = Some doc
             /\ Document.version doc = Z.of_nat (List.length (u :: us))).
Proof.
  split; [| split].
  - intros w u old Hfind Hneq.
    apply String.eqb_neq in Hneq.
    unfold do_upload, upload_document, query_first in *.
    fold (by_filename (up_filename u)). rewrite Hfind, Hneq. simpl.
    eexists. refine (conj _ (conj eq_refl _)); [reflexivity |].
    split; [| split; [apply chunks_deactivated |]].
    + apply Forall_forall. intros d Hd Hid.
      apply in_map_iff in Hd as (d0 & <- & _).
      unfold deactivate_document in *.
      destruct (Document.id d0 =? Document.id old) eqn:E; simpl; [auto |].
      apply Z.eqb_neq in E. contradiction.
    + simpl. repeat split; reflexivity.
  - intros w us. apply uploads_preserve_invariant.
  - intros w fname u us Hall Hadj Hcnt Hcontent.
    apply Forall_cons_iff in Hall as [Hu Hall'].
    destruct (lineage_uploads _ us _ _ _
                (lineage_first _ w u Hu Hcnt Hcontent) Hall' Hadj)
      as (h' & Hone & doc & Hfind & Hver & _).
    split; [exact Hone |].
    exists doc. split; [exact Hfind |].
    rewrite Hver. cbn [List.length]. lia.
Qed.

(** C2. An upload whose hash equals the content hash of the active document
    with the same filename answers [no_change] with that document's id and
    leaves the database, the cache and the task queue as they were. *)
Theorem upload_no_change :
  forall (w : World) (u : Upload) (existing : Document.t),
    query_first (by_filename (up_filename u)) (db w) = Some existing ->
    Document.content_hash existing = up_content_hash u ->
    do_upload w u
    = (mkUploadResponse "no_change" (Some (Document.id existing)) None, w)
    /\ In existing (documents (db w))
    /\ Document.is_active existing = true
    /\ Document.filename existing = up_filename u.
Proof.
  intros w u existing Hfind Hhash.
  split.
  - unfold do_upload, upload_document, query_first in *.
    fold (by_filename (up_filename u)).
    rewrite Hfind, Hhash, String.eqb_refl. reflexivity.
  - unfold query_first in Hfind. apply find_some in Hfind as [Hin Hp].
    unfold by_filename in Hp. apply andb_prop in Hp as [Hf Ha].
    apply String.eqb_eq in Hf. auto.
Qed.

(** C3. When no active document has the incoming filename and some active
    document has the incoming content hash, the upload answers [duplicate]
    with the id of an active document of that content, stored under another
    filename, and changes nothing. *)
Theorem upload_duplicate :
  forall (w : World) (u : Upload),
    active_count (up_filename u) (documents (db w)) = O ->
    (exists d, In d (documents (db w)) /\ Document.is_active d = true
               /\ Document.content_hash d = up_content_hash u) ->
    exists existing : Document.t,
      In existing (documents (db w))
      /\ Document.is_active existing = true
      /\ Document.content_hash existing = up_content_hash u
      /\ Document.filename existing <> up_filename u
      /\ do_upload w u
         = (mkUploadResponse "duplicate" (Some (Document.id existing)) None, w).
Proof.
  intros w u Hcnt (d & Hin & Hact & Hhash).
  pose proof (active_count_zero_find _ _ Hcnt) as Hname.
  destruct (find (by_content (up_content_hash u)) (documents (db w)))
    as [existing |] eqn:Hcontent.
  - exists existing.
    pose proof (find_some _ _ Hcontent) as [Hin' Hp].
    unfold by_content in Hp. apply andb_prop in Hp as [Hh Ha].
    apply String.eqb_eq in Hh.
    repeat split; auto.
    + intros Hf.
      pose proof (find_none _ _ Hname existing Hin') as Hno.
      unfold by_filename in Hno. rewrite Hf, String.eqb_refl, Ha in Hno.
      discriminate.
    + unfold do_upload, upload_document, query_first.
      fold (by_filename (up_filename u)). fold (by_content (up_content_hash u)).
      rewrite Hname, Hcontent. reflexivity.
  - pose proof (find_none _ _ Hcontent d Hin) as Hno.
    unfold by_content in Hno. rewrite Hhash, String.eqb_refl, Hact in Hno.
    discriminate.
Qed.

Lemma version_lineage_witness :
  active_count "report.txt"
    (documents (db (uploads empty_world
       [upload_of "report.txt" "h1"; upload_of "report.txt" "h2";
        upload_of "report.txt" "h3"]))) = 1%nat
  /\ exists doc,
      query_first (by_filename "report.txt")
        (db (uploads empty_world
           [upload_of "report.txt" "h1"; upload_of "report.txt" "h2";
            upload_of "report.txt" "h3"])) = Some doc
      /\ Document.version doc = 3.
Proof.
  apply (proj2 (proj2 version_lineage) empty_world "report.txt"
           (upload_of "report.txt" "h1")
           [upload_of "report.txt" "h2"; upload_of "report.txt" "h3"]).
  - repeat constructor.
  - reflexivity.
  - reflexivity.
  - reflexivity.
Defined.

(** C1 as stated fails when the first content is on file under another
    filename: that upload is answered [duplicate] and creates nothing, so
    two uploads of [notes.txt] with different contents leave its active
    document at version 1. *)
Lemma version_count_counterexample :
  active_count "notes.txt" (documents (db report_world)) = O
  /\ adjacent_distinct ["h1"; "h2"] = true
  /\ fst (do_upload report_world (upload_of "notes.txt" "h1"))
     = mkUploadResponse "duplicate" (Some 1) None
  /\ option_map Document.version
       (query_first (by_filename "notes.txt")
          (db (uploads report_world
                 [upload_of "notes.txt" "h1"; upload_of "notes.txt" "h2"])))
     = Some 1.
Proof. repeat split; reflexivity. Qed.

Lemma upload_no_change_witness :
  do_upload report_world (upload_of "report.txt" "h1")
  = (mkUploadResponse "no_change" (Some 1) None, report_world)
  /\ In report_v1 (documents (db report_world))
  /\ Document.is_active report_v1 = true
  /\ Document.filename report_v1 = "report.txt".
Proof.
  apply (upload_no_change report_world (upload_of "report.txt" "h1") report_v1);
    reflexivity.
Defined.

Lemma upload_duplicate_witness :
  exists existing : Document.t,
    In existing (documents (db report_world))
    /\ Document.is_active existing = true
    /\ Document.content_hash existing = "h1"
    /\ Document.filename existing <> "copy.txt"
    /\ do_upload report_world (upload_of "copy.txt" "h1")
       = (mkUploadResponse "duplicate" (Some (Document.id existing)) None,
          report_world).
Proof.
  apply (upload_duplicate report_world (upload_of "copy.txt" "h1")).
  - reflexivity.
  - exists report_v1. simpl. auto.
Defined.

(* ================================================================== *)
(** * Properties of the temporal recency score *)
(* ================================================================== *)

Lemma matched_cons (p : string) (re : regex) (s : Q)
    (table : list (string * regex * Q)) (tl : string) :
  matched ((p, re, s) :: table) tl
  = if re_search re tl then s :: matched table tl else matched table tl.
Proof. unfold matched. simpl. now destruct (re_search re tl). Qed.

Lemma current_loop (tl : string) (table : list (string * regex * Q)) :
  forall (ti : TemporalInfo.t) (m : Q),
    snd (fold_left (current_step tl) table (ti, m))
    = fold_left py_max (matched table tl) m
    /\ TemporalInfo.is_current (fst (fold_left (current_step tl) table (ti, m)))
       = TemporalInfo.is_current ti
         || match matched table tl with [] => false | _ => true end.
Proof.
  induction table as [| [[p re] s] table IH]; intros ti m.
  - simpl. now rewrite orb_false_r.
  - rewrite matched_cons. cbn [fold_left current_step].
    destruct (re_search re tl).
    + destruct (IH (TemporalInfo.mk true (TemporalInfo.recency_score ti)
                      (TemporalInfo.keywords ti ++ [py_strip p "\b"]) true
                      (TemporalInfo.is_historical ti) (TemporalInfo.confidence ti))
                   (py_max m s)) as [H1 H2].
      split; [exact H1 |]. rewrite H2. simpl. now rewrite orb_true_r.
    + apply IH.
Qed.

Lemma historical_loop (tl : string) (table : list (string * regex * Q)) :
  forall (ti : TemporalInfo.t) (m : Q),
    snd (fold_left (historical_step tl) table (ti, m))
    = (if TemporalInfo.is_current ti then m
       else fold_left py_min (matched table tl) m)
    /\ TemporalInfo.is_current (fst (fold_left (historical_step tl) table (ti, m)))
       = TemporalInfo.is_current ti.
Proof.
  induction table as [| [[p re] s] table IH]; intros ti m.
  - simpl. now destruct (TemporalInfo.is_current ti).
  - rewrite matched_cons. cbn [fold_left historical_step].
    destruct (re_search re tl).
    + destruct (IH (TemporalInfo.mk true (TemporalInfo.recency_score ti)
                      (TemporalInfo.keywords ti ++ [py_strip p "\b"])
                      (TemporalInfo.is_current ti) true
                      (TemporalInfo.confidence ti))
                   (if negb (TemporalInfo.is_current ti) then py_min m s else m))
        as [H1 H2].
      split; [| exact H2]. rewrite H1. simpl.
      now destruct (TemporalInfo.is_current ti).
    + apply IH.
Qed.

Lemma fold_max_ge (l : list Q) :
  forall m : Q, (m <= fold_left py_max l m)%Q.
Proof.
  induction l as [| x l IH]; intros m; simpl; [apply Qle_refl |].
  eapply Qle_trans; [| apply IH].
  unfold py_max. destruct (Qle_bool x m) eqn:E; [apply Qle_refl |].
  destruct (Qlt_le_dec m x) as [Hlt | Hle]; [now apply Qlt_le_weak |].
  apply Qle_bool_iff in Hle. congruence.
Qed.

(** C4. The recency score of [detect_temporal_indicators] is the score of
    the rule: from 0.5, raised to the weight of every matching current
    pattern, lowered to the weight of a matching historical pattern only
    when no current pattern matched.  So a current match keeps the score at
    0.5 or above whatever historical patterns match; text matching neither
    table scores exactly 0.5; "current" with "previous" scores 0.9 and
    "archived" alone 0.1. *)
Theorem recency_score_rule :
  (forall text : string,
      TemporalInfo.recency_score (detect_temporal_indicators text)
      = recency_rule text)
  /\ (forall text : string,
         matched current_patterns (lower text) <> [] ->
         TemporalInfo.recency_score (detect_temporal_indicators text)
         = fold_left py_max (matched current_patterns (lower text)) (5 # 10)%Q
         /\ (5 # 10 <= TemporalInfo.recency_score (detect_temporal_indicators text))%Q)
  /\ (forall text : string,
         matched current_patterns (lower text) = [] ->
         matched historical_patterns (lower text) = [] ->
         TemporalInfo.recency_score (detect_temporal_indicators text) = (5 # 10)%Q)
  /\ TemporalInfo.recency_score
       (detect_temporal_indicators "The current rate replaces the previous one")
     = (9 # 10)%Q
  /\ TemporalInfo.recency_score
       (detect_temporal_indicators "This policy is archived.") = (1 # 10)%Q
  /\ TemporalInfo.recency_score
       (detect_temporal_indicators "Quarterly figures for the northern region")
     = (5 # 10)%Q.
Proof.
  assert (Hrule : forall text : string,
             TemporalInfo.recency_score (detect_temporal_indicators text)
             = recency_rule text).
  { intros text. unfold detect_temporal_indicators, recency_rule.
    set (ti0 := TemporalInfo.mk false (5 # 10) [] false false "medium").
    pose proof (current_loop (lower text) current_patterns ti0 (5 # 10)%Q)
      as [Hc1 Hc2].
    destruct (fold_left (current_step (lower text)) current_patterns
                        (ti0, (5 # 10)%Q)) as [ti1 m1].
    pose proof (historical_loop (lower text) historical_patterns ti1 m1)
      as [Hh1 _].
    destruct (fold_left (historical_step (lower text)) historical_patterns
                        (ti1, m1)) as [ti2 m2].
    simpl in *. rewrite Hh1, Hc2, Hc1.
    now destruct (matched current_patterns (lower text)). }
  split; [exact Hrule |].
  split; [| split; [| repeat split; vm_compute; reflexivity]].
  - intros text Hcur. rewrite Hrule. unfold recency_rule.
    destruct (matched current_patterns (lower text)) as [| c cur] eqn:E;
      [contradiction |].
    split; [reflexivity | apply fold_max_ge].
  - intros text Hcur Hhist. rewrite Hrule. unfold recency_rule.
    now rewrite Hcur, Hhist.
Qed.

Lemma recency_score_rule_witness :
  TemporalInfo.recency_score
    (detect_temporal_indicators "Recently it was old")
  = fold_left py_max (matched current_patterns (lower "Recently it was old"))
              (5 # 10)%Q
  /\ (5 # 10 <= TemporalInfo.recency_score
                  (detect_temporal_indicators "Recently it was old"))%Q.
Proof.
  apply (proj1 (proj2 recency_score_rule) "Recently it was old").
  vm_compute. discriminate.
Defined.

(* ================================================================== *)
(** * Properties of the chunk splitter *)
(* ================================================================== *)

Lemma py_slice_whole {A : Type} (l : list A) (stop : Z) :
  Z.of_nat (List.length l) <= stop -> py_slice l 0 stop = l.
Proof.
  intros H. unfold py_slice.
  assert (Ha : py_clamp (Z.of_nat (List.length l)) 0 = 0).
  { unfold py_clamp. change (0 <? 0) with false. cbn iota.
    destruct (Z.ltb_spec (Z.of_nat (List.length l)) 0); [lia | reflexivity]. }
  assert (Hb : py_clamp (Z.of_nat (List.length l)) stop
               = Z.of_nat (List.length l)).
  { unfold py_clamp.
    destruct (Z.ltb_spec stop 0); [lia |].
    destruct (Z.ltb_spec stop 0); [lia |].
    destruct (Z.ltb_spec (Z.of_nat (List.length l)) stop); lia. }
  rewrite Ha, Hb, Nat2Z.id. simpl. apply firstn_all.
Qed.

(** [k] is the index of a window exactly when its start lies in the input. *)
Lemma window_index (n step : Z) (k : nat) :
  0 <= n -> 0 < step ->
  (k < Z.to_nat ((n + step - 1) / step))%nat <-> Z.of_nat k * step < n.
Proof.
  intros Hn Hs.
  pose proof (Z.div_mod (n + step - 1) step ltac:(lia)) as Hdm.
  pose proof (Z.mod_pos_bound (n + step - 1) step Hs) as Hm.
  assert (Hq : 0 <= (n + step - 1) / step) by (apply Z.div_pos; lia).
  split; intros H.
  - assert (Z.of_nat k + 1 <= (n + step - 1) / step) by lia. nia.
  - assert (Z.of_nat k < (n + step - 1) / step) by nia. lia.
Qed.

Lemma chunk_loop_windows {token : Type} (decode : list token -> string)
    (tokens : list token) (size overlap : Z) :
  0 < size - overlap ->
  forall (fuel k : nat) (acc : list string),
    let c := Z.to_nat ((Z.of_nat (List.length tokens) + (size - overlap) - 1)
                       / (size - overlap)) in
    (k < c)%nat -> (c - k <= fuel)%nat ->
    chunk_loop decode fuel tokens size overlap (Z.of_nat k * (size - overlap)) acc
    = Some (acc ++ map (fun j => decode (py_slice tokens
                                           (Z.of_nat j * (size - overlap))
                                           (Z.of_nat j * (size - overlap) + size)))
                       (seq k (c - k))).
Proof.
  intros Hstep fuel. set (step := size - overlap) in *.
  set (n := Z.of_nat (List.length tokens)).
  induction fuel as [| fuel IH]; intros k acc c Hk Hfuel; [lia |].
  pose proof (proj1 (window_index n step k ltac:(lia) Hstep) Hk) as Hstart.
  cbn [chunk_loop]. fold n.
  destruct (Z.ltb_spec (Z.of_nat k * step) n) as [_ | E]; [| lia].
  replace (Z.of_nat k * step + size - overlap) with (Z.of_nat (S k) * step)
    by (unfold step; lia).
  destruct (Z.leb_spec n (Z.of_nat (S k) * step)) as [E' | E'].
  - assert (Hc : c = S k).
    { destruct (Nat.lt_ge_cases (S k) c) as [Hlt | Hge]; [| lia].
      apply (window_index n step (S k) ltac:(lia) Hstep) in Hlt. lia. }
    rewrite Hc. replace (S k - k)%nat with 1%nat by lia. reflexivity.
  - assert (Hlt : (S k < c)%nat)
      by (apply (window_index n step (S k) ltac:(lia) Hstep); lia).
    rewrite (IH (S k) _ Hlt ltac:(lia)).
    replace (c - k)%nat with (S (c - S k)) by lia.
    cbn [seq map]. now rewrite <- app_assoc.
Qed.




(* ================================================================== *)
(** * Sorting and slicing *)
(* ================================================================== *)

Section SortDesc.
Context {A : Type} (le : A -> A -> bool).
Hypothesis le_total : forall a b, le a b = false -> le b a = true.
Hypothesis le_trans : forall a b c, le a b = true -> le b c = true -> le a c = true.

Lemma insert_desc_perm (x : A) (l : list A) :
    Permutation (insert_desc le x l) (x :: l).
  Proof.
    induction l as [| y l IH]; simpl; [reflexivity |].
    destruct (le y x); [reflexivity |].
    rewrite IH. apply perm_swap.
  Qed.

Lemma sort_desc_perm (l : list A) : Permutation (sort_desc le l) l.
  Proof.
    induction l as [| x l IH]; simpl; [reflexivity |].
    rewrite insert_desc_perm. now constructor.
  Qed.

Lemma insert_desc_sorted (x : A) (l : list A) :
    StronglySorted (fun a b => le b a = true) l ->
    StronglySorted (fun a b => le b a = true) (insert_desc le x l).
  Proof.
    induction l as [| y l IH]; intros Hs; simpl.
    - repeat constructor.
    - inversion Hs as [| ? ? Hs' Hall]; subst.
      destruct (le y x) eqn:E.
      + apply SSorted_cons; [exact Hs |].
        apply Forall_cons; [exact E |].
        eapply Forall_impl; [| exact Hall].
        intros z Hz. cbv beta in *. apply (le_trans z y x Hz E).
      + apply SSorted_cons; [apply IH, Hs' |].
        eapply Permutation_Forall; [symmetry; apply insert_desc_perm |].
        apply Forall_cons; [apply le_total, E | exact Hall].
  Qed.

Lemma sort_desc_sorted (l : list A) :
    StronglySorted (fun a b => le b a = true) (sort_desc le l).
  Proof.
    induction l as [| x l IH]; simpl; [constructor |].
    now apply insert_desc_sorted.
  Qed.
End SortDesc.

Lemma sorted_app_inv {A : Type} (R : A -> A -> Prop) (l1 l2 : list A) :
  StronglySorted R (l1 ++ l2) ->
  StronglySorted R l1 /\ forall a b, In a l1 -> In b l2 -> R a b.
Proof.
  induction l1 as [| x l1 IH]; simpl; intros Hs.
  - split; [constructor | contradiction].
  - inversion Hs as [| ? ? Hs' Hall]; subst.
    destruct (IH Hs') as [H1 H2].
    apply Forall_app in Hall as [Ha1 Ha2].
    split; [now constructor |].
    intros a b [<- | Ha] Hb; [| auto].
    rewrite Forall_forall in Ha2. auto.
Qed.

Lemma py_prefix_firstn {A : Type} (l : list A) (stop : Z) :
  0 <= stop -> py_prefix l stop = firstn (Z.to_nat stop) l.
Proof.
  intros H. unfold py_prefix, py_slice.
  assert (Ha : py_clamp (Z.of_nat (List.length l)) 0 = 0).
  { unfold py_clamp. change (0 <? 0) with false. cbn iota.
    destruct (Z.ltb_spec (Z.of_nat (List.length l)) 0); [lia | reflexivity]. }
  rewrite Ha. simpl. unfold py_clamp.
  destruct (Z.ltb_spec stop 0); [lia |].
  destruct (Z.ltb_spec stop 0); [lia |].
  destruct (Z.ltb_spec (Z.of_nat (List.length l)) stop); [| reflexivity].
  rewrite Nat2Z.id, firstn_all. symmetry. apply firstn_all2. lia.
Qed.

(** The first [n] elements of a list sorted by [R]: sorted, at most [n], and
    in front, by [R], of everything cut off. *)
Lemma firstn_sorted {A : Type} (R : A -> A -> Prop) (l : list A) (n : nat) :
  StronglySorted R l ->
  StronglySorted R (firstn n l)
  /\ List.length (firstn n l) = Nat.min n (List.length l)
  /\ (forall a b, In a (firstn n l) -> In b (skipn n l) -> R a b).
Proof.
  intros Hs. rewrite <- (firstn_skipn n l) in Hs at 1.
  apply sorted_app_inv in Hs as [H1 H2].
  split; [exact H1 |]. split; [apply length_firstn | exact H2].
Qed.

(* ================================================================== *)
(** * Properties of the primary search *)
(* ================================================================== *)

Lemma Qle_bool_total (a b : Q) : Qle_bool a b = false -> Qle_bool b a = true.
Proof.
  intros H. apply Qle_bool_iff.
  destruct (Qlt_le_dec b a) as [Hlt | Hle]; [now apply Qlt_le_weak |].
  apply Qle_bool_iff in Hle. congruence.
Qed.

Lemma Qle_bool_trans (a b c : Q) :
  Qle_bool a b = true -> Qle_bool b c = true -> Qle_bool a c = true.
Proof.
  rewrite !Qle_bool_iff. apply Qle_trans.
Qed.

Lemma sorted_weaken {A : Type} (R R' : A -> A -> Prop) (l : list A) :
  (forall a b, R a b -> R' a b) -> StronglySorted R l -> StronglySorted R' l.
Proof.
  intros Himp Hs. induction Hs as [| x l Hs IH Hall]; constructor; auto.
  eapply Forall_impl; [| exact Hall]. auto.
Qed.

Lemma hybrid_sorted (l : list SearchResult.t) :
  StronglySorted hybrid_ge (sort_desc hybrid_le l).
Proof.
  apply sorted_weaken with (R := fun a b => hybrid_le b a = true).
  - intros a b H. unfold hybrid_le in H. now apply Qle_bool_iff in H.
  - apply sort_desc_sorted.
    + intros a b. apply Qle_bool_total.
    + intros a b c. apply Qle_bool_trans.
Qed.

Lemma process_row_built (boost : bool) (w thr : Q) (row : Row.t)
    (r : SearchResult.t) :
  process_row boost w thr row = Built r ->
  (thr <= Row.similarity row)%Q
  /\ SearchResult.similarity r = Row.similarity row
  /\ SearchResult.hybrid_score r = hybrid_of boost w row
  /\ SearchResult.recency_score r = reported_recency (Row.recency_score row).
Proof.
  unfold process_row.
  destruct (Qle_bool thr (Row.similarity row)) eqn:E; [| discriminate].
  cbn [negb].
  destruct (get_if_truthy _ "entities" _); [| discriminate].
  destruct (get_if_truthy _ "data_types" _); [| discriminate].
  destruct (get_if_truthy _ "temporal_info" _); [| discriminate].
  intros [= <-]. apply Qle_bool_iff in E. repeat split; auto.
Qed.

Lemma build_results_in (boost : bool) (w thr : Q) (rows : list Row.t)
    (r : SearchResult.t) :
  In r (build_results boost w thr rows) ->
  exists row, In row rows /\ process_row boost w thr row = Built r.
Proof.
  induction rows as [| row rows IH]; simpl; [contradiction |].
  destruct (process_row boost w thr row) as [| | r'] eqn:E.
  - intros H. destruct (IH H) as (row' & Hin & Hp). eauto.
  - intros H. destruct (IH H) as (row' & Hin & Hp). eauto.
  - intros [<- | H]; [eauto |].
    destruct (IH H) as (row' & Hin & Hp). eauto.
Qed.

Lemma db_execute_limit (env : Env) (d : DB) (emb : list Q)
    (extra : DocumentChunk.t -> bool) (limit : Z) (rows : list Row.t) :
  db_execute env d emb extra limit = Some rows ->
  db_available env = true /\ 0 <= limit.
Proof.
  unfold db_execute.
  destruct (db_available env); [| discriminate]. cbn [negb orb].
  destruct (Z.ltb_spec limit 0); [discriminate |]. auto.
Qed.

Lemma search_limit_nonneg (top_k : Z) (boost : bool) :
  0 <= search_limit_of top_k boost -> 0 <= top_k.
Proof. unfold search_limit_of. destruct boost; lia. Qed.

Lemma evict_full (cache : Cache) :
  _cache_max_size <= Z.of_nat (List.length cache) ->
  dict_pop_oldest cache = Some (tl cache).
Proof.
  unfold _cache_max_size. destruct cache as [| [k v] cache]; simpl; [lia |].
  intros _. now rewrite String.eqb_refl.
Qed.

(** What [semantic_search] returns, path by path. *)
Lemma semantic_search_paths (env : Env) (d : DB) (cache : Cache)
    (query : string) (top_k : Z) (boost : bool) (w thr : Q) :
  let key := _get_cache_key env query top_k boost in
  let limit := search_limit_of top_k boost in
  let run := semantic_search env d cache query top_k boost w thr in
  match assoc_get key cache with
  | Some cached => run = (cached, cache, [])
  | None =>
      match generate_embedding env query with
      | None => run = ([], cache, [EmbedQuery query])
      | Some emb =>
          let log := [EmbedQuery query; StoreQuery emb limit] in
          match db_execute env d emb (fun _ => true) limit with
          | None => run = ([], cache, log)
          | Some [] => run = ([], cache, log)
          | Some rows =>
              let final :=
                firstn (Z.to_nat top_k)
                       (sort_desc hybrid_le (build_results boost w thr rows)) in
              run = (final, dict_set key final (evicted cache), log)
          end
      end
  end.
Proof.
  cbv zeta. unfold semantic_search.
  destruct (assoc_get _ cache); [reflexivity |].
  destruct (generate_embedding env query) as [emb |]; [| reflexivity].
  destruct (db_execute env d emb (fun _ => true) (search_limit_of top_k boost))
    as [rows |] eqn:Hdb; [| reflexivity].
  destruct rows as [| row rows]; [reflexivity |].
  apply db_execute_limit in Hdb as [_ Hlim].
  apply search_limit_nonneg in Hlim.
  rewrite py_prefix_firstn by exact Hlim.
  unfold evicted.
  destruct (Z.leb_spec _cache_max_size (Z.of_nat (List.length cache))) as [H | H];
    [| reflexivity].
  now rewrite (evict_full cache H).
Qed.

Lemma in_firstn {A : Type} (n : nat) (l : list A) (x : A) :
  In x (firstn n l) -> In x l.
Proof.
  intros H. rewrite <- (firstn_skipn n l). apply in_or_app. now left.
Qed.

(** The part of a sorted list kept by a cut at [n], against what it drops. *)
Lemma top_of_sorted {A : Type} (R : A -> A -> Prop) (sorted built : list A)
    (n : nat) :
  StronglySorted R sorted -> Permutation sorted built ->
  exists dropped,
    Permutation (firstn n sorted ++ dropped) built
    /\ (forall r x, In r (firstn n sorted) -> In x dropped -> R r x)
    /\ List.length (firstn n sorted) = Nat.min n (List.length built).
Proof.
  intros Hs Hp. exists (skipn n sorted).
  destruct (firstn_sorted R sorted n Hs) as (_ & Hlen & Hcut).
  split; [now rewrite firstn_skipn |].
  split; [exact Hcut |].
  now rewrite Hlen, (Permutation_length Hp).
Qed.




(* ================================================================== *)
(** * Properties of the store query *)
(* ================================================================== *)

Lemma join_chunks_in (d : DB) (dc : DocumentChunk.t) (doc : Document.t) :
  In (dc, doc) (join_chunks d) <->
  In dc (document_chunks d) /\ In doc (documents d)
  /\ Document.id doc = DocumentChunk.document_id dc.
Proof.
  unfold join_chunks. rewrite in_flat_map. split.
  - intros (dc' & Hdc & Hin).
    apply in_map_iff in Hin as (doc' & [= <- <-] & Hf).
    apply filter_In in Hf as [Hdoc Hid]. apply Z.eqb_eq in Hid. auto.
  - intros (Hdc & Hdoc & Hid). exists dc. split; [exact Hdc |].
    apply in_map. apply filter_In. split; [exact Hdoc |]. now apply Z.eqb_eq.
Qed.

Lemma distance_sorted (env : Env) (emb : list Q)
    (l : list (DocumentChunk.t * Document.t)) :
  StronglySorted (fun a b => (distance env emb a <= distance env emb b)%Q)
                 (order_by_distance env emb l).
Proof.
  unfold order_by_distance.
  apply sorted_weaken
    with (R := fun a b => Qle_bool (distance env emb a) (distance env emb b) = true).
  - intros a b H. now apply Qle_bool_iff.
  - apply (sort_desc_sorted
             (fun a b => Qle_bool (distance env emb b) (distance env emb a))).
    + intros a b. apply Qle_bool_total.
    + intros a b c H1 H2. exact (Qle_bool_trans _ _ _ H2 H1).
Qed.

(** C6, as the code has it.  A primary search that misses the cache and
    gets its query embedded asks the store for [top_k * 3] rows when
    boosting is on and for [top_k] rows when it is off; the filtered search
    always asks for [top_k * 3].  The store answers with the nearest of the
    rows whose chunk has an embedding and is active and whose document is
    active, at most as many as asked for.  A search for five results with
    boosting asks for fifteen. *)
Theorem store_query_limit :
  (forall (env : Env) (d : DB) (cache : Cache) (query : string) (top_k : Z)
          (boost : bool) (w thr : Q) (emb : list Q),
      assoc_get (_get_cache_key env query top_k boost) cache = None ->
      generate_embedding env query = Some emb ->
      snd (semantic_search env d cache query top_k boost w thr)
      = [EmbedQuery query;
         StoreQuery emb (if boost then top_k * 3 else top_k)])
  /\ (forall (env : Env) (d : DB) (query : string) (top_k : Z)
             (data_types entity_ids : option (list string))
             (min_recency_score : option Q) (emb : list Q),
         generate_embedding env query = Some emb ->
         snd (semantic_search_with_filters env d query top_k data_types
                entity_ids min_recency_score)
         = [EmbedQuery query; StoreQuery emb (top_k * 3)])
  /\ (forall (env : Env) (d : DB) (emb : list Q)
             (extra : DocumentChunk.t -> bool) (limit : Z) (rows : list Row.t),
         db_execute env d emb extra limit = Some rows ->
         exists kept dropped,
           rows = map (select_row env emb) kept
           /\ Permutation (kept ++ dropped)
                (filter (fun p => where_active p && extra (fst p)) (join_chunks d))
           /\ List.length kept
              = Nat.min (Z.to_nat limit)
                  (List.length (filter (fun p => where_active p && extra (fst p))
                                       (join_chunks d)))
           /\ (forall k x, In k kept -> In x dropped ->
                           (distance env emb k <= distance env emb x)%Q)
           /\ Forall (fun p =>
                        In (fst p) (document_chunks d)
                        /\ In (snd p) (documents d)
                        /\ Document.id (snd p) = DocumentChunk.document_id (fst p)
                        /\ DocumentChunk.embedding (fst p) <> None
                        /\ DocumentChunk.is_active (fst p) = true
                        /\ Document.is_active (snd p) = true)
                     kept)
  /\ snd (semantic_search demo_env ranking_db [] "q" 5 true (3 # 10) 0)
     = [EmbedQuery "q"; StoreQuery [1%Q] 15].
Proof.
  split; [| split; [| split; [| reflexivity]]].
  - intros env d cache query top_k boost w thr emb Hmiss Hemb.
    unfold semantic_search. rewrite Hmiss, Hemb.
    fold (search_limit_of top_k boost).
    destruct (db_execute env d emb (fun _ => true) (search_limit_of top_k boost))
      as [[| row rows] |]; try reflexivity.
    destruct (_cache_max_size <=? Z.of_nat (List.length cache));
      [destruct (dict_pop_oldest cache) |]; reflexivity.
  - intros env d query top_k dts ids mr emb Hemb.
    unfold semantic_search_with_filters. rewrite Hemb.
    destruct (db_execute env d emb (filter_clauses dts ids mr) (top_k * 3))
      as [rows |]; [| reflexivity].
    destruct (filtered_results rows); reflexivity.
  - intros env d emb extra limit rows Hdb.
    unfold db_execute in Hdb.
    destruct (negb (db_available env) || (limit <? 0)); [discriminate |].
    injection Hdb as <-.
    set (eligible := filter (fun p => where_active p && extra (fst p))
                            (join_chunks d)).
    destruct (top_of_sorted _ (order_by_distance env emb eligible) eligible
                (Z.to_nat limit) (distance_sorted env emb eligible)
                (sort_desc_perm _ eligible))
      as (dropped & Hperm & Hcut & Hlen).
    exists (firstn (Z.to_nat limit) (order_by_distance env emb eligible)), dropped.
    split; [reflexivity |]. split; [exact Hperm |].
    split; [exact Hlen |]. split; [exact Hcut |].
    apply Forall_forall. intros [dc doc] Hin.
    assert (Hel : In (dc, doc) eligible).
    { apply (Permutation_in _ Hperm). apply in_or_app. now left. }
    apply filter_In in Hel as [Hjoin Hact].
    apply join_chunks_in in Hjoin as (Hdc & Hdoc & Hid).
    apply andb_prop in Hact as [Hact _]. unfold where_active in Hact.
    apply andb_prop in Hact as [Hact Hdact].
    apply andb_prop in Hact as [Hembd Hcact]. simpl in *.
    repeat split; auto.
    destruct (DocumentChunk.embedding dc); [discriminate | discriminate].
Qed.

Lemma store_query_limit_witness :
  snd (semantic_search demo_env ranking_db [] "q" 5 false (3 # 10) 0)
  = [EmbedQuery "q"; StoreQuery [1%Q] (if false then 5 * 3 else 5)].
Proof.
  apply (proj1 store_query_limit demo_env ranking_db [] "q" 5 false
               (3 # 10)%Q 0%Q [1%Q]); reflexivity.
Defined.

(** C6 as stated fails without boosting: a search for five results then
    asks the store for five rows, not fifteen. *)
Lemma search_limit_counterexample :
  snd (semantic_search demo_env ranking_db [] "q" 5 false (3 # 10) 0)
  = [EmbedQuery "q"; StoreQuery [1%Q] 5]
  /\ 5 <> 5 * 3.
Proof. split; [reflexivity | discriminate]. Qed.

(* ================================================================== *)
(** * Properties of the search cache *)
(* ================================================================== *)

Lemma dict_set_fresh {V : Type} (k : string) (v : V) (d : list (string * V)) :
  assoc_get k d = None -> dict_set k v d = d ++ [(k, v)].
Proof.
  induction d as [| [k' v'] d IH]; simpl; [reflexivity |].
  destruct (String.eqb k k'); [discriminate |].
  intros H. now rewrite IH.
Qed.

Lemma assoc_get_tl {V : Type} (k : string) (d : list (string * V)) :
  assoc_get k d = None -> assoc_get k (tl d) = None.
Proof.
  destruct d as [| [k' v'] d]; simpl; [auto |].
  now destruct (String.eqb k k').
Qed.

Lemma evicted_miss (key : string) (cache : Cache) :
  assoc_get key cache = None -> assoc_get key (evicted cache) = None.
Proof.
  unfold evicted. destruct (_ <=? _); [apply assoc_get_tl | auto].
Qed.

Lemma evicted_room (cache : Cache) :
  Z.of_nat (List.length cache) <= _cache_max_size ->
  Z.of_nat (List.length (evicted cache)) < _cache_max_size.
Proof.
  unfold evicted, _cache_max_size.
  destruct (Z.leb_spec 100 (Z.of_nat (List.length cache))); [| lia].
  destruct cache; simpl in *; lia.
Qed.

(** C8. A search leaves a cache of at most 100 entries at most 100 entries
    long.  It either leaves the cache as it was, which is what a hit does
    (the entry found keeps its place), or appends its results under its key
    after dropping, when the cache held 100 entries, the first entry in
    insertion order. *)
Theorem search_cache_bounded :
  forall (env : Env) (d : DB) (cache : Cache) (query : string) (top_k : Z)
         (boost : bool) (w thr : Q),
    Z.of_nat (List.length cache) <= _cache_max_size ->
    let run := semantic_search env d cache query top_k boost w thr in
    let key := _get_cache_key env query top_k boost in
    Z.of_nat (List.length (snd (fst run))) <= _cache_max_size
    /\ (snd (fst run) = cache
        \/ snd (fst run)
           = (if _cache_max_size <=? Z.of_nat (List.length cache)
              then tl cache else cache) ++ [(key, fst (fst run))])
    /\ (forall cached,
           assoc_get key cache = Some cached ->
           snd (fst run) = cache /\ fst (fst run) = cached).
Proof.
  intros env d cache query top_k boost w thr Hsize run key.
  pose proof (semantic_search_paths env d cache query top_k boost w thr)
    as Hpaths.
  cbv zeta in Hpaths. fold key run in Hpaths.
  destruct (assoc_get key cache) as [cached |] eqn:Hkey.
  { rewrite Hpaths. simpl. split; [exact Hsize | split; [now left |]].
    intros ? [= <-]. split; reflexivity. }
  assert (Hsame : run = ([], cache, snd run) ->
                  Z.of_nat (List.length (snd (fst run))) <= _cache_max_size
                  /\ (snd (fst run) = cache
                      \/ snd (fst run)
                         = (if _cache_max_size <=? Z.of_nat (List.length cache)
                            then tl cache else cache) ++ [(key, fst (fst run))])
                  /\ (forall cached,
                         None = Some cached ->
                         snd (fst run) = cache /\ fst (fst run) = cached)).
  { intros ->. cbn [fst snd]. split; [exact Hsize | split; [now left |]].
    discriminate. }
  destruct (generate_embedding env query) as [emb |];
    [| apply Hsame; rewrite Hpaths; reflexivity].
  destruct (db_execute env d emb (fun _ => true) (search_limit_of top_k boost))
    as [[| row rows] |];
    [apply Hsame; rewrite Hpaths; reflexivity |
     | apply Hsame; rewrite Hpaths; reflexivity].
  clear Hsame. rewrite Hpaths. cbn [fst snd].
  rewrite (dict_set_fresh _ _ _ (evicted_miss _ _ Hkey)).
  split; [| split; [now right | discriminate]].
  rewrite length_app. cbn [List.length].
  pose proof (evicted_room cache Hsize). lia.
Qed.

Lemma search_cache_bounded_witness :
  Z.of_nat (List.length
              (snd (fst (semantic_search demo_env ranking_db full_cache "q" 5
                           true (3 # 10) 0)))) <= _cache_max_size
  /\ (snd (fst (semantic_search demo_env ranking_db full_cache "q" 5 true
                  (3 # 10) 0)) = full_cache
      \/ snd (fst (semantic_search demo_env ranking_db full_cache "q" 5 true
                     (3 # 10) 0))
         = (if _cache_max_size <=? Z.of_nat (List.length full_cache)
            then tl full_cache else full_cache)
           ++ [(_get_cache_key demo_env "q" 5 true,
                fst (fst (semantic_search demo_env ranking_db full_cache "q" 5
                            true (3 # 10) 0)))])
  /\ (forall cached,
         assoc_get (_get_cache_key demo_env "q" 5 true) full_cache = Some cached ->
         snd (fst (semantic_search demo_env ranking_db full_cache "q" 5 true
                     (3 # 10) 0)) = full_cache
         /\ fst (fst (semantic_search demo_env ranking_db full_cache "q" 5 true
                        (3 # 10) 0)) = cached).
Proof.
  apply (search_cache_bounded demo_env ranking_db full_cache "q" 5 true
           (3 # 10)%Q 0%Q).
  vm_compute. discriminate.
Defined.

(* ================================================================== *)
(** * Properties of the filtered search *)
(* ================================================================== *)

Lemma Qle_bool_false (a b : Q) : Qle_bool a b = false <-> (b < a)%Q.
Proof.
  split; intros H.
  - destruct (Qlt_le_dec b a) as [Hlt | Hle]; [exact Hlt |].
    apply Qle_bool_iff in Hle. congruence.
  - destruct (Qle_bool a b) eqn:E; [| reflexivity].
    apply Qle_bool_iff in E. lra.
Qed.

Lemma tuple_le_spec (a b : FilteredResult.t) :
  tuple_le a b = true <-> tuple_ge b a.
Proof.
  unfold tuple_le, tuple_lt, tuple_ge, sort_key. cbn [fst snd].
  destruct (Qeq_bool (FilteredResult.similarity b) (FilteredResult.similarity a))
    eqn:Eq.
  - apply Qeq_bool_iff in Eq. rewrite negb_involutive, Qle_bool_iff.
    split; [intros H; right; split; [lra | exact H] | intros [H | [_ H]]; lra].
  - apply Qeq_bool_neq in Eq. rewrite negb_involutive, Qle_bool_iff.
    split; [intros H; left; lra | intros [H | [H _]]; lra].
Qed.

Lemma tuple_sorted (l : list FilteredResult.t) :
  StronglySorted tuple_ge (sort_desc tuple_le l).
Proof.
  apply sorted_weaken with (R := fun a b => tuple_le b a = true).
  - intros a b. apply tuple_le_spec.
  - apply sort_desc_sorted.
    + intros a b H.
      destruct (tuple_le b a) eqn:E; [reflexivity |].
      assert (Hab : ~ tuple_ge b a) by (rewrite <- tuple_le_spec; congruence).
      assert (Hba : ~ tuple_ge a b) by (rewrite <- tuple_le_spec; congruence).
      unfold tuple_ge in *. exfalso.
      destruct (Qlt_le_dec (FilteredResult.similarity a)
                           (FilteredResult.similarity b)); [tauto |].
      destruct (Qlt_le_dec (FilteredResult.similarity b)
                           (FilteredResult.similarity a)); [tauto |].
      destruct (Qlt_le_dec (FilteredResult.recency_score a)
                           (FilteredResult.recency_score b)).
      * apply Hab. right. split; lra.
      * apply Hba. right. split; lra.
    + intros a b c. rewrite !tuple_le_spec. unfold tuple_ge.
      intros [H1 | [H1 H1']] [H2 | [H2 H2']].
      * left; lra.
      * left; lra.
      * left; lra.
      * right; split; lra.
Qed.

(** C9. The filtered search returns its results in descending lexicographic
    order of (similarity, recency score): the first [top_k] of everything
    built from the rows of the store, nothing dropped ranking above anything
    kept in that order.  The order is not that of the hybrid score: on two
    chunks with similarities 0.7 and 0.8 and recency scores 0.9 and 0.1 the
    filtered search puts the second first and the primary search, at its
    default weight, the first. *)
Theorem filtered_search_order :
  (forall (env : Env) (d : DB) (query : string) (top_k : Z)
          (data_types entity_ids : option (list string))
          (min_recency_score : option Q) (emb : list Q) (rows : list Row.t)
          (built : list FilteredResult.t),
      generate_embedding env query = Some emb ->
      db_execute env d emb
        (filter_clauses data_types entity_ids min_recency_score) (top_k * 3)
      = Some rows ->
      filtered_results rows = Some built ->
      let results :=
        fst (semantic_search_with_filters env d query top_k data_types
               entity_ids min_recency_score) in
      StronglySorted tuple_ge results
      /\ exists dropped,
          Permutation (results ++ dropped) built
          /\ (forall r x, In r results -> In x dropped -> tuple_ge r x)
          /\ List.length results = Nat.min (Z.to_nat top_k) (List.length built))
  /\ map FilteredResult.chunk_id
         (fst (semantic_search_with_filters demo_env tie_break_db "q" 5
                 None None None)) = [2; 1]
  /\ map SearchResult.chunk_id
         (fst (fst (semantic_search demo_env tie_break_db [] "q" 5 true
                      default_recency_weight default_similarity_threshold)))
     = [1; 2].
Proof.
  split; [| split; reflexivity].
  intros env d query top_k dts ids mr emb rows built Hemb Hdb Hbuilt results.
  subst results. unfold semantic_search_with_filters.
  rewrite Hemb, Hdb, Hbuilt. cbn [fst].
  apply db_execute_limit in Hdb as [_ Hlim].
  rewrite py_prefix_firstn by lia.
  pose proof (tuple_sorted built) as Hsorted.
  split; [apply (firstn_sorted _ _ _ Hsorted) |].
  apply top_of_sorted; [exact Hsorted | apply sort_desc_perm].
Qed.

Lemma filtered_search_order_witness :
  StronglySorted tuple_ge
    (fst (semantic_search_with_filters demo_env tie_break_db "q" 5
            None None None)).
Proof.
  refine (proj1 (proj1 filtered_search_order demo_env tie_break_db "q" 5
                   None None None [1%Q] _ _ eq_refl eq_refl eq_refl)).
Defined.

(* ================================================================== *)
(** * Failures during a search *)
(* ================================================================== *)

Lemma filtered_results_none (rows : list Row.t) :
  filtered_results rows = None <->
  exists row, In row rows /\ filtered_row row = None.
Proof.
  induction rows as [| row rows IH]; simpl.
  - split; [discriminate | intros (? & [] & _)].
  - destruct (filtered_row row) as [r |] eqn:E.
    + destruct (filtered_results rows) as [rs |].
      * split; [discriminate |].
        intros (row' & [<- | Hin] & Hnone); [congruence |].
        assert (Hcontra : Some rs = None) by (apply IH; eauto).
        discriminate.
      * split; [| reflexivity]. intros _.
        destruct (proj1 IH eq_refl) as (row' & Hin & Hnone). eauto.
    + split; [| reflexivity]. intros _. exists row. auto.
Qed.

Lemma build_results_app (boost : bool) (w thr : Q) (rows1 rows2 : list Row.t) :
  build_results boost w thr (rows1 ++ rows2)
  = build_results boost w thr rows1 ++ build_results boost w thr rows2.
Proof.
  induction rows1 as [| row rows1 IH]; simpl; [reflexivity |].
  destruct (process_row boost w thr row); rewrite IH; reflexivity.
Qed.

Lemma join_no_chunks (docs : list Document.t) (n : Z) :
  join_chunks (mkDB docs [] n) = [].
Proof. reflexivity. Qed.

(** C10, as the code has it.  When the embedding of the query or the query
    to the store raises, the primary search returns the empty list and
    leaves the cache as it was, and the filtered search returns the empty
    list.  A row whose processing raises empties the result of the filtered
    search, while the primary search only passes over that row.  A store
    without chunks gives the same answers as a failure. *)
Theorem search_failure_returns_empty :
  (forall (env : Env) (d : DB) (cache : Cache) (query : string) (top_k : Z)
          (boost : bool) (w thr : Q),
      assoc_get (_get_cache_key env query top_k boost) cache = None ->
      generate_embedding env query = None
      \/ (exists emb,
             generate_embedding env query = Some emb
             /\ db_execute env d emb (fun _ => true)
                  (search_limit_of top_k boost) = None) ->
      fst (semantic_search env d cache query top_k boost w thr) = ([], cache))
  /\ (forall (env : Env) (d : DB) (query : string) (top_k : Z)
             (data_types entity_ids : option (list string))
             (min_recency_score : option Q),
         generate_embedding env query = None
         \/ (exists emb,
                generate_embedding env query = Some emb
                /\ (db_execute env d emb
                      (filter_clauses data_types entity_ids min_recency_score)
                      (top_k * 3) = None
                    \/ exists rows row,
                        db_execute env d emb
                          (filter_clauses data_types entity_ids min_recency_score)
                          (top_k * 3) = Some rows
                        /\ In row rows /\ filtered_row row = None)) ->
         fst (semantic_search_with_filters env d query top_k data_types
                entity_ids min_recency_score) = [])
  /\ (forall (boost : bool) (w thr : Q) (rows1 rows2 : list Row.t) (row : Row.t),
         process_row boost w thr row = Raised ->
         build_results boost w thr (rows1 ++ row :: rows2)
         = build_results boost w thr (rows1 ++ rows2))
  /\ (forall (env : Env) (docs : list Document.t) (n : Z) (cache : Cache)
             (query : string) (top_k : Z) (boost : bool) (w thr : Q)
             (data_types entity_ids : option (list string))
             (min_recency_score : option Q),
         assoc_get (_get_cache_key env query top_k boost) cache = None ->
         fst (semantic_search env (mkDB docs [] n) cache query top_k boost w thr)
         = ([], cache)
         /\ fst (semantic_search_with_filters env (mkDB docs [] n) query top_k
                   data_types entity_ids min_recency_score) = []).
Proof.
  split; [| split; [| split]].
  - intros env d cache query top_k boost w thr Hmiss Hfail.
    unfold semantic_search. rewrite Hmiss.
    destruct Hfail as [-> | (emb & -> & Hdb)]; [reflexivity |].
    fold (search_limit_of top_k boost). now rewrite Hdb.
  - intros env d query top_k dts ids mr Hfail.
    unfold semantic_search_with_filters.
    destruct Hfail as [-> | (emb & -> & [-> | (rows & row & -> & Hin & Hrow)])];
      try reflexivity.
    assert (Hnone : filtered_results rows = None)
      by (apply filtered_results_none; eauto).
    now rewrite Hnone.
  - intros boost w thr rows1 rows2 row Hrow.
    rewrite !build_results_app. simpl. now rewrite Hrow.
  - intros env docs n cache query top_k boost w thr dts ids mr Hmiss.
    split.
    + unfold semantic_search. rewrite Hmiss.
      destruct (generate_embedding env query) as [emb |]; [| reflexivity].
      unfold db_execute. rewrite join_no_chunks.
      destruct (negb (db_available env) || _); [reflexivity |].
      simpl. now rewrite firstn_nil.
    + unfold semantic_search_with_filters.
      destruct (generate_embedding env query) as [emb |]; [| reflexivity].
      unfold db_execute. rewrite join_no_chunks.
      destruct (negb (db_available env) || _); [reflexivity |].
      simpl. rewrite firstn_nil. simpl.
      unfold py_prefix, py_slice. simpl. now rewrite firstn_nil.
Qed.

Lemma search_failure_returns_empty_witness :
  fst (semantic_search provider_down ranking_db [] "q" 5 true (3 # 10) 0)
  = ([], [])
  /\ fst (semantic_search database_down ranking_db [] "q" 5 true (3 # 10) 0)
     = ([], []).
Proof.
  split.
  - apply (proj1 search_failure_returns_empty provider_down ranking_db [] "q" 5
                 true (3 # 10)%Q 0%Q); [reflexivity | left; reflexivity].
  - apply (proj1 search_failure_returns_empty database_down ranking_db [] "q" 5
                 true (3 # 10)%Q 0%Q); [reflexivity |].
    right. exists [1%Q]. split; reflexivity.
Defined.

(** C10 as stated fails for the primary search when the processing of a row
    raises: of two rows, one with a JSON string for metadata, the primary
    search returns the other and caches it, while the filtered search
    returns the empty list. *)
Lemma row_error_counterexample :
  process_row true (3 # 10) 0
    (select_row demo_env [1%Q]
       (chunk_of 1 (9 # 10) (Some (5 # 10)%Q) (JStr "legacy"), report_v1))
  = Raised
  /\ (exists r,
         fst (semantic_search demo_env bad_metadata_db [] "q" 5 true (3 # 10) 0)
         = ([r], [("q|5|True", [r])])
         /\ SearchResult.chunk_id r = 2)
  /\ fst (semantic_search_with_filters demo_env bad_metadata_db "q" 5
            None None None) = [].
Proof.
  split; [reflexivity |].
  split; [| reflexivity].
  vm_compute. eexists. split; reflexivity.
Qed.

(* ================================================================== *)
(** * More on uploads, deletion and the cache *)
(* ================================================================== *)

Lemma active_count_filter_le (fname : string) (p : Document.t -> bool)
    (docs : list Document.t) :
  (active_count fname (filter p docs) <= active_count fname docs)%nat.
Proof.
  unfold active_count.
  induction docs as [| d docs IH]; simpl; [lia |].
  destruct (p d); simpl;
    destruct (String.eqb (Document.filename d) fname && Document.is_active d);
    simpl; lia.
Qed.

(** X1. Deleting answers 404 exactly when no document has the id.
    Otherwise it removes the documents with that id and the chunks that
    reference it, keeps every other row, keeps the cache as it is, and keeps
    the invariant that no filename has two active documents. *)
Theorem delete_document_effect :
  forall (w : World) (document_id : Z),
    (delete_document w document_id = None <->
     forall d, In d (documents (db w)) -> Document.id d <> document_id)
    /\ forall w',
        delete_document w document_id = Some w' ->
        (forall d, In d (documents (db w')) <->
                   In d (documents (db w)) /\ Document.id d <> document_id)
        /\ (forall c, In c (document_chunks (db w')) <->
                      In c (document_chunks (db w))
                      /\ DocumentChunk.document_id c <> document_id)
        /\ search_cache w' = search_cache w
        /\ (one_active_per_filename w -> one_active_per_filename w').
Proof.
  intros w document_id. unfold delete_document, query_first.
  destruct (find (fun d => Document.id d =? document_id) (documents (db w)))
    as [document |] eqn:Hfind.
  - pose proof (find_some _ _ Hfind) as [Hin Hid]. apply Z.eqb_eq in Hid.
    split.
    + split; [discriminate |]. intros H. exfalso. exact (H document Hin Hid).
    + intros w' [= <-]. cbn [db documents document_chunks search_cache].
      rewrite Hid.
      split; [| split; [| split; [reflexivity |]]].
      * intros d. rewrite filter_In, negb_true_iff, Z.eqb_neq. tauto.
      * intros c. rewrite filter_In, negb_true_iff, Z.eqb_neq. tauto.
      * intros Hinv fname. cbn [db documents].
        eapply Nat.le_trans; [apply active_count_filter_le | apply Hinv].
  - split; [| discriminate].
    split; [| reflexivity]. intros _ d Hd Hid.
    pose proof (find_none _ _ Hfind d Hd) as Hno.
    apply Z.eqb_neq in Hno. contradiction.
Qed.

Lemma delete_document_effect_witness :
  (forall d, In d (documents (db (mkWorld (mkDB [] [] 2) [] []))) <->
             In d (documents (db report_world)) /\ Document.id d <> 1)
  /\ (forall c, In c (document_chunks (db (mkWorld (mkDB [] [] 2) [] []))) <->
                In c (document_chunks (db report_world))
                /\ DocumentChunk.document_id c <> 1)
  /\ search_cache (mkWorld (mkDB [] [] 2) [] []) = search_cache report_world
  /\ (one_active_per_filename report_world ->
      one_active_per_filename (mkWorld (mkDB [] [] 2) [] [])).
Proof.
  refine (proj2 (delete_document_effect report_world 1)
                (mkWorld (mkDB [] [] 2) [] []) _).
  reflexivity.
Defined.

Lemma filter_by_filename_single (fname : string) (doc : Document.t)
    (docs : list Document.t) :
  find (by_filename fname) docs = Some doc ->
  (active_count fname docs <= 1)%nat ->
  active_count fname
    (filter (fun d => negb (Document.id d =? Document.id doc)) docs) = O.
Proof.
  intros Hfind Hcnt.
  assert (Huniq := filter_single_find _ _ _ Hfind Hcnt).
  unfold active_count. fold (by_filename fname).
  apply length_zero_iff_nil.
  destruct (filter (by_filename fname)
              (filter (fun d => negb (Document.id d =? Document.id doc)) docs))
    as [| d l] eqn:E; [reflexivity |].
  assert (Hd : In d (d :: l)) by now left.
  rewrite <- E in Hd.
  apply filter_In in Hd as [Hd Hp]. apply filter_In in Hd as [Hd Hne].
  rewrite (Huniq d Hd Hp), Z.eqb_refl in Hne. discriminate.
Qed.

(** X2. Version numbers start over after a deletion.  When the active
    document of a filename is deleted, the next upload of that filename
    (with content not on file under an active document) is stored as version
    1, whatever version the deleted document had and whatever superseded
    versions remain. *)
Theorem version_restarts_after_delete :
  forall (w : World) (fname : string) (doc : Document.t) (u : Upload),
    one_active_per_filename w ->
    query_first (by_filename fname) (db w) = Some doc ->
    up_filename u = fname ->
    exists w',
      delete_document w (Document.id doc) = Some w'
      /\ active_count fname (documents (db w')) = O
      /\ (query_first (by_content (up_content_hash u)) (db w') = None ->
          lineage_at fname 1 (up_content_hash u) (snd (do_upload w' u))).
Proof.
  intros w fname doc u Hinv Hfind Hu.
  pose proof (find_some _ _ Hfind) as [Hin _].
  unfold delete_document, query_first.
  destruct (find (fun d => Document.id d =? Document.id doc) (documents (db w)))
    as [document |] eqn:Hdel.
  - pose proof (find_some _ _ Hdel) as [_ Hid]. apply Z.eqb_eq in Hid.
    eexists. split; [reflexivity |].
    assert (Hzero : active_count fname
              (filter (fun d => negb (Document.id d =? Document.id document))
                      (documents (db w))) = O).
    { rewrite Hid. apply filter_by_filename_single; [exact Hfind | apply Hinv]. }
    split; [exact Hzero |].
    intros Hcontent. apply lineage_first; assumption.
  - pose proof (find_none _ _ Hdel doc Hin) as Hno.
    cbv beta in Hno. rewrite Z.eqb_refl in Hno. discriminate.
Qed.

Lemma version_restarts_after_delete_witness :
  exists w',
    delete_document report_world (Document.id report_v1) = Some w'
    /\ active_count "report.txt" (documents (db w')) = O
    /\ (query_first (by_content "h9") (db w') = None ->
        lineage_at "report.txt" 1 "h9"
          (snd (do_upload w' (upload_of "report.txt" "h9")))).
Proof.
  apply (version_restarts_after_delete report_world "report.txt" report_v1
           (upload_of "report.txt" "h9")).
  - intros fname. unfold active_count, report_world.
    cbn [db documents filter].
    destruct (String.eqb _ _ && _); simpl; lia.
  - reflexivity.
  - reflexivity.
Defined.

Lemma find_by_filename_unique (fname : string) (doc : Document.t)
    (docs : list Document.t) :
  In doc docs -> by_filename fname doc = true ->
  (active_count fname docs <= 1)%nat ->
  find (by_filename fname) docs = Some doc.
Proof.
  intros Hin Hp Hcnt.
  destruct (find (by_filename fname) docs) as [x |] eqn:Hfind.
  - f_equal. symmetry. exact (filter_single_find _ _ _ Hfind Hcnt doc Hin Hp).
  - pose proof (find_none _ _ Hfind doc Hin). congruence.
Qed.

Lemma no_change_step (w : World) (u : Upload) (doc : Document.t) :
  find (by_filename (up_filename u)) (documents (db w)) = Some doc ->
  Document.content_hash doc = up_content_hash u ->
  do_upload w u
  = (mkUploadResponse "no_change" (Some (Document.id doc)) None, w).
Proof.
  intros Hfind Hhash. unfold do_upload, upload_document, query_first.
  fold (by_filename (up_filename u)).
  now rewrite Hfind, Hhash, String.eqb_refl.
Qed.

Lemma duplicate_step (w : World) (u : Upload) (doc : Document.t) :
  find (by_filename (up_filename u)) (documents (db w)) = None ->
  find (by_content (up_content_hash u)) (documents (db w)) = Some doc ->
  do_upload w u
  = (mkUploadResponse "duplicate" (Some (Document.id doc)) None, w).
Proof.
  intros Hname Hcontent. unfold do_upload, upload_document, query_first.
  fold (by_filename (up_filename u)). fold (by_content (up_content_hash u)).
  now rewrite Hname, Hcontent.
Qed.

(** The two branches that store a document. *)
Lemma created_step (w : World) (u : Upload) :
  (exists old, find (by_filename (up_filename u)) (documents (db w)) = Some old
               /\ String.eqb (Document.content_hash old) (up_content_hash u) = false)
  \/ (find (by_filename (up_filename u)) (documents (db w)) = None
      /\ find (by_content (up_content_hash u)) (documents (db w)) = None) ->
  exists new,
    In new (documents (db (snd (do_upload w u))))
    /\ by_filename (up_filename u) new = true
    /\ Document.content_hash new = up_content_hash u
    /\ response_document_id (fst (do_upload w u)) = Some (Document.id new).
Proof.
  unfold do_upload, upload_document, query_first.
  fold (by_filename (up_filename u)). fold (by_content (up_content_hash u)).
  intros [(old & -> & ->) | [-> ->]]; cbn [fst snd insert_document db documents];
    eexists; (split; [apply in_or_app; right; left; reflexivity |]);
    unfold by_filename; cbn; rewrite String.eqb_refl; auto.
Qed.

(** X3. Uploading is idempotent.  Where no filename has two active
    documents, the same file (same filename, same content hash) uploaded a
    second time right after the first changes nothing, is answered
    [no_change] or [duplicate], and names the same document as the first
    answer. *)
Theorem upload_twice :
  forall (w : World) (u u' : Upload),
    one_active_per_filename w ->
    up_filename u' = up_filename u ->
    up_content_hash u' = up_content_hash u ->
    let w1 := snd (do_upload w u) in
    snd (do_upload w1 u') = w1
    /\ (status (fst (do_upload w1 u')) = "no_change"
        \/ status (fst (do_upload w1 u')) = "duplicate")
    /\ response_document_id (fst (do_upload w1 u'))
       = response_document_id (fst (do_upload w u)).
Proof.
  intros w u u' Hinv Hf Hh w1.
  pose proof (upload_preserves_invariant w u Hinv) as Hinv1. fold w1 in Hinv1.
  assert (Hcreated :
    (exists new,
        In new (documents (db w1))
        /\ by_filename (up_filename u) new = true
        /\ Document.content_hash new = up_content_hash u
        /\ response_document_id (fst (do_upload w u)) = Some (Document.id new)) ->
    snd (do_upload w1 u') = w1
    /\ (status (fst (do_upload w1 u')) = "no_change"
        \/ status (fst (do_upload w1 u')) = "duplicate")
    /\ response_document_id (fst (do_upload w1 u'))
       = response_document_id (fst (do_upload w u))).
  { intros (new & Hin & Hp & Hhash & Hid).
    pose proof (find_by_filename_unique _ _ _ Hin Hp (Hinv1 _)) as Hfind.
    rewrite <- Hf in Hfind. rewrite <- Hh in Hhash.
    rewrite (no_change_step w1 u' new Hfind Hhash). cbn. auto. }
  destruct (find (by_filename (up_filename u)) (documents (db w)))
    as [existing |] eqn:Hname.
  - destruct (String.eqb (Document.content_hash existing) (up_content_hash u))
      eqn:Hsame.
    + apply String.eqb_eq in Hsame.
      assert (Hw1 : w1 = w)
        by (unfold w1; now rewrite (no_change_step w u existing Hname Hsame)).
      rewrite Hw1. rewrite <- Hf in Hname. rewrite <- Hh in Hsame.
      rewrite (no_change_step w u' existing Hname Hsame).
      rewrite Hf in Hname. rewrite Hh in Hsame.
      rewrite (no_change_step w u existing Hname Hsame). cbn. auto.
    + apply Hcreated, created_step. left. eauto.
  - destruct (find (by_content (up_content_hash u)) (documents (db w)))
      as [existing |] eqn:Hcontent.
    + assert (Hw1 : w1 = w)
        by (unfold w1; now rewrite (duplicate_step w u existing Hname Hcontent)).
      rewrite Hw1. rewrite <- Hf in Hname. rewrite <- Hh in Hcontent.
      rewrite (duplicate_step w u' existing Hname Hcontent).
      rewrite Hf in Hname. rewrite Hh in Hcontent.
      rewrite (duplicate_step w u existing Hname Hcontent). cbn. auto.
    + apply Hcreated, created_step. right. auto.
Qed.

Lemma upload_twice_witness :
  snd (do_upload (snd (do_upload empty_world (upload_of "a.txt" "h")))
                 (upload_of "a.txt" "h"))
  = snd (do_upload empty_world (upload_of "a.txt" "h"))
  /\ (status (fst (do_upload (snd (do_upload empty_world (upload_of "a.txt" "h")))
                             (upload_of "a.txt" "h"))) = "no_change"
      \/ status (fst (do_upload (snd (do_upload empty_world (upload_of "a.txt" "h")))
                                (upload_of "a.txt" "h"))) = "duplicate")
  /\ response_document_id
       (fst (do_upload (snd (do_upload empty_world (upload_of "a.txt" "h")))
                       (upload_of "a.txt" "h")))
     = response_document_id (fst (do_upload empty_world (upload_of "a.txt" "h"))).
Proof.
  apply (upload_twice empty_world (upload_of "a.txt" "h") (upload_of "a.txt" "h")).
  - intros fname. unfold active_count, empty_world. cbn. lia.
  - reflexivity.
  - reflexivity.
Defined.

Lemma process_row_document (boost : bool) (w thr : Q) (row : Row.t)
    (r : SearchResult.t) :
  process_row boost w thr row = Built r ->
  SearchResult.document_id r = Row.document_id row
  /\ SearchResult.chunk_id r = Row.id row.
Proof.
  unfold process_row.
  destruct (negb (Qle_bool thr (Row.similarity row))); [discriminate |].
  destruct (get_if_truthy _ "entities" _); [| discriminate].
  destruct (get_if_truthy _ "data_types" _); [| discriminate].
  destruct (get_if_truthy _ "temporal_info" _); [| discriminate].
  intros [= <-]. split; reflexivity.
Qed.

(** Every row the store returns is built from an active chunk of the table. *)
Lemma db_execute_row_chunk (env : Env) (d : DB) (emb : list Q)
    (extra : DocumentChunk.t -> bool) (limit : Z) (rows : list Row.t)
    (row : Row.t) :
  db_execute env d emb extra limit = Some rows -> In row rows ->
  exists dc,
    In dc (document_chunks d)
    /\ DocumentChunk.is_active dc = true
    /\ Row.document_id row = DocumentChunk.document_id dc
    /\ Row.id row = DocumentChunk.id dc.
Proof.
  unfold db_execute.
  destruct (negb (db_available env) || (limit <? 0)); [discriminate |].
  intros [= <-] Hin.
  apply in_map_iff in Hin as ([dc doc] & <- & Hin).
  apply in_firstn in Hin.
  apply (Permutation_in _ (sort_desc_perm _ _)) in Hin.
  apply filter_In in Hin as [Hjoin Hact].
  apply join_chunks_in in Hjoin as (Hdc & _ & _).
  apply andb_prop in Hact as [Hact _]. unfold where_active in Hact.
  apply andb_prop in Hact as [Hact _].
  apply andb_prop in Hact as [_ Hcact]. simpl in Hcact.
  exists dc. repeat split; auto.
Qed.

Lemma filtered_results_in (rows : list Row.t) :
  forall (built : list FilteredResult.t) (r : FilteredResult.t),
    filtered_results rows = Some built -> In r built ->
    exists row, In row rows /\ FilteredResult.chunk_id r = Row.id row.
Proof.
  induction rows as [| row rows IH]; simpl; intros built r.
  - intros [= <-] [].
  - destruct (filtered_row row) as [r' |] eqn:E; [| discriminate].
    destruct (filtered_results rows) as [rs |]; [| discriminate].
    intros [= <-] [<- | Hin].
    + exists row. split; [now left |].
      unfold filtered_row in E.
      destruct (get_if_truthy _ "entities" _); [| discriminate].
      destruct (get_if_truthy _ "data_types" _); [| discriminate].
      now injection E as <-.
    + destruct (IH rs r eq_refl Hin) as (row' & Hin' & Hid). eauto.
Qed.

Lemma deactivated_chunk_in (old_id now : Z) (chunks : list DocumentChunk.t)
    (dc : DocumentChunk.t) :
  In dc (map (deactivate_chunk old_id now) chunks) ->
  DocumentChunk.is_active dc = true ->
  DocumentChunk.document_id dc <> old_id.
Proof.
  intros Hin Hact Hid. apply in_map_iff in Hin as (c & <- & _).
  pose proof (deactivate_chunk_inactive old_id now c) as H.
  rewrite Hact, Hid, Z.eqb_refl in H. discriminate.
Qed.

Lemma updated_world (w : World) (u : Upload) (old : Document.t) :
  query_first (by_filename (up_filename u)) (db w) = Some old ->
  Document.content_hash old <> up_content_hash u ->
  document_chunks (db (snd (do_upload w u)))
  = map (deactivate_chunk (Document.id old) (up_now u)) (document_chunks (db w))
  /\ search_cache (snd (do_upload w u)) = [].
Proof.
  intros Hfind Hneq. apply String.eqb_neq in Hneq.
  unfold do_upload, upload_document, query_first in *.
  fold (by_filename (up_filename u)). rewrite Hfind, Hneq. split; reflexivity.
Qed.

(** The results of a primary search that does not hit the cache come from
    active chunks of the table. *)
Lemma search_results_chunks (env : Env) (d : DB) (cache : Cache)
    (query : string) (top_k : Z) (boost : bool) (rw thr : Q)
    (r : SearchResult.t) :
  assoc_get (_get_cache_key env query top_k boost) cache = None ->
  In r (fst (fst (semantic_search env d cache query top_k boost rw thr))) ->
  exists dc,
    In dc (document_chunks d)
    /\ DocumentChunk.is_active dc = true
    /\ SearchResult.document_id r = DocumentChunk.document_id dc
    /\ SearchResult.chunk_id r = DocumentChunk.id dc.
Proof.
  intros Hmiss.
  pose proof (semantic_search_paths env d cache query top_k boost rw thr)
    as Hpaths.
  cbv zeta in Hpaths. rewrite Hmiss in Hpaths.
  destruct (generate_embedding env query) as [emb |];
    [| rewrite Hpaths; intros []].
  destruct (db_execute env d emb (fun _ => true) (search_limit_of top_k boost))
    as [[| row0 rows0] |] eqn:Hdb; try (rewrite Hpaths; intros []).
  rewrite Hpaths. cbn [fst]. intros Hin.
  apply in_firstn in Hin.
  apply (Permutation_in _ (sort_desc_perm _ _)) in Hin.
  apply build_results_in in Hin as (row & Hrow & Hbuilt).
  apply process_row_document in Hbuilt as [Hdoc Hid].
  destruct (db_execute_row_chunk _ _ _ _ _ _ _ Hdb Hrow)
    as (dc & Hdc & Hact & Hdoc' & Hid').
  exists dc. repeat split; congruence.
Qed.

Lemma filtered_search_chunks (env : Env) (d : DB) (query : string) (top_k : Z)
    (dts ids : option (list string)) (mr : option Q) (r : FilteredResult.t) :
  In r (fst (semantic_search_with_filters env d query top_k dts ids mr)) ->
  exists dc,
    In dc (document_chunks d)
    /\ DocumentChunk.is_active dc = true
    /\ FilteredResult.chunk_id r = DocumentChunk.id dc.
Proof.
  unfold semantic_search_with_filters.
  destruct (generate_embedding env query) as [emb |]; [| intros []].
  destruct (db_execute env d emb (filter_clauses dts ids mr) (top_k * 3))
    as [rows |] eqn:Hdb; [| intros []].
  destruct (filtered_results rows) as [built |] eqn:Hbuilt; [| intros []].
  cbn [fst]. pose proof (db_execute_limit _ _ _ _ _ _ Hdb) as [_ Hlim].
  rewrite py_prefix_firstn by lia. intros Hin.
  apply in_firstn in Hin.
  apply (Permutation_in _ (sort_desc_perm _ _)) in Hin.
  destruct (filtered_results_in _ _ _ Hbuilt Hin) as (row & Hrow & Hid).
  destruct (db_execute_row_chunk _ _ _ _ _ _ _ Hdb Hrow)
    as (dc & Hdc & Hact & _ & Hid').
  exists dc. repeat split; congruence.
Qed.

(** X4. Once an upload has replaced a document by a new version, no search
    returns a chunk of the replaced document: the cache is empty and the
    chunks of that document are inactive, so every result of the primary
    search, with any arguments and collaborators, and of the filtered search
    is an active chunk of another document. *)
Theorem superseded_not_returned :
  forall (w : World) (u : Upload) (old : Document.t),
    query_first (by_filename (up_filename u)) (db w) = Some old ->
    Document.content_hash old <> up_content_hash u ->
    let w1 := snd (do_upload w u) in
    search_cache w1 = []
    /\ (forall (env : Env) (query : string) (top_k : Z) (boost : bool)
               (rw thr : Q),
           Forall (fun r =>
                     SearchResult.document_id r <> Document.id old
                     /\ exists dc,
                         In dc (document_chunks (db w1))
                         /\ DocumentChunk.id dc = SearchResult.chunk_id r
                         /\ DocumentChunk.is_active dc = true
                         /\ DocumentChunk.document_id dc <> Document.id old)
                  (fst (fst (semantic_search env (db w1) (search_cache w1)
                               query top_k boost rw thr))))
    /\ (forall (env : Env) (query : string) (top_k : Z)
               (data_types entity_ids : option (list string))
               (min_recency_score : option Q),
           Forall (fun r =>
                     exists dc,
                       In dc (document_chunks (db w1))
                       /\ DocumentChunk.id dc = FilteredResult.chunk_id r
                       /\ DocumentChunk.is_active dc = true
                       /\ DocumentChunk.document_id dc <> Document.id old)
                  (fst (semantic_search_with_filters env (db w1) query top_k
                          data_types entity_ids min_recency_score))).
Proof.
  intros w u old Hfind Hneq w1.
  destruct (updated_world w u old Hfind Hneq) as [Hchunks Hcache].
  fold w1 in Hchunks, Hcache.
  split; [exact Hcache | split].
  - intros env query top_k boost rw thr. apply Forall_forall. intros r Hr.
    rewrite Hcache in Hr.
    apply search_results_chunks in Hr as (dc & Hdc & Hact & Hdoc & Hid);
      [| reflexivity].
    assert (Hne : DocumentChunk.document_id dc <> Document.id old).
    { rewrite Hchunks in Hdc. eapply deactivated_chunk_in; eauto. }
    split; [congruence |]. exists dc. repeat split; auto.
  - intros env query top_k dts ids mr. apply Forall_forall. intros r Hr.
    apply filtered_search_chunks in Hr as (dc & Hdc & Hact & Hid).
    assert (Hne : DocumentChunk.document_id dc <> Document.id old).
    { rewrite Hchunks in Hdc. eapply deactivated_chunk_in; eauto. }
    exists dc. repeat split; auto.
Qed.

Lemma superseded_not_returned_witness :
  Forall (fun r => SearchResult.document_id r <> 1)
    (fst (fst (semantic_search demo_env
                 (db (snd (do_upload report_world (upload_of "report.txt" "h2"))))
                 (search_cache (snd (do_upload report_world
                                       (upload_of "report.txt" "h2"))))
                 "q" 5 true (3 # 10) 0))).
Proof.
  eapply Forall_impl;
    [| apply (proj1 (proj2 (superseded_not_returned report_world
                              (upload_of "report.txt" "h2") report_v1
                              eq_refl ltac:(discriminate)))
                    demo_env "q" 5 true (3 # 10)%Q 0%Q)].
  intros r [H _]. exact H.
Defined.

Lemma assoc_get_dict_set {V : Type} (k : string) (v : V) (d : list (string * V)) :
  assoc_get k (dict_set k v d) = Some v.
Proof.
  induction d as [| [k' v'] d IH]; simpl.
  - now rewrite String.eqb_refl.
  - destruct (String.eqb k k') eqn:E; simpl; rewrite E; auto.
Qed.

(** X5. A search that returned results is repeated from the cache: the same
    query, count and boost flag asked again get the same list whatever the
    database holds by then and whatever weight and threshold are passed.
    Deleting a document does not clear the cache, so the repeated search
    still returns that list after a deletion. *)
Theorem cached_results_repeat :
  forall (env : Env) (d : DB) (cache : Cache) (query : string) (top_k : Z)
         (boost : bool) (rw thr : Q),
    let run := semantic_search env d cache query top_k boost rw thr in
    fst (fst run) <> [] ->
    (forall (d' : DB) (rw' thr' : Q),
        semantic_search env d' (snd (fst run)) query top_k boost rw' thr'
        = (fst (fst run), snd (fst run), []))
    /\ (forall (queue : list (Z * string * string)) (document_id : Z)
               (w' : World),
           delete_document (mkWorld d (snd (fst run)) queue) document_id
           = Some w' ->
           fst (fst (semantic_search env (db w') (search_cache w') query top_k
                       boost rw thr))
           = fst (fst run)).
Proof.
  intros env d cache query top_k boost rw thr run Hne.
  assert (Hhit : assoc_get (_get_cache_key env query top_k boost) (snd (fst run))
                 = Some (fst (fst run))).
  { subst run.
    pose proof (semantic_search_paths env d cache query top_k boost rw thr)
      as Hpaths.
    cbv zeta in Hpaths.
    destruct (assoc_get (_get_cache_key env query top_k boost) cache)
      as [cached |] eqn:Hkey.
    - rewrite Hpaths. exact Hkey.
    - destruct (generate_embedding env query) as [emb |];
        [| rewrite Hpaths in Hne; now contradiction Hne].
      destruct (db_execute env d emb (fun _ => true)
                  (search_limit_of top_k boost)) as [[| row rows] |];
        try (rewrite Hpaths in Hne; now contradiction Hne).
      rewrite Hpaths. cbn [fst snd]. apply assoc_get_dict_set. }
  assert (Hrepeat : forall (d' : DB) (rw' thr' : Q),
             semantic_search env d' (snd (fst run)) query top_k boost rw' thr'
             = (fst (fst run), snd (fst run), [])).
  { intros d' rw' thr'. unfold semantic_search at 1. now rewrite Hhit. }
  split; [exact Hrepeat |].
  intros queue document_id w' Hdel.
  unfold delete_document in Hdel. cbn [db search_cache task_queue] in Hdel.
  destruct (query_first _ _); [| discriminate].
  injection Hdel as <-. cbn [db search_cache]. now rewrite Hrepeat.
Qed.

Lemma cached_results_repeat_witness :
  fst (fst (semantic_search demo_env ranking_db [] "q" 5 true (3 # 10) 0)) <> []
  /\ semantic_search demo_env (db empty_world)
       (snd (fst (semantic_search demo_env ranking_db [] "q" 5 true (3 # 10) 0)))
       "q" 5 true (1 # 2) (9 # 10)
     = (fst (fst (semantic_search demo_env ranking_db [] "q" 5 true (3 # 10) 0)),
        snd (fst (semantic_search demo_env ranking_db [] "q" 5 true (3 # 10) 0)),
        []).
Proof.
  split; [vm_compute; discriminate |].
  apply (proj1 (cached_results_repeat demo_env ranking_db [] "q" 5 true
                  (3 # 10)%Q 0%Q ltac:(vm_compute; discriminate))).
Defined.

Lemma batch_upload_app (l1 : list Upload) :
  forall (w : World) (l2 : list Upload),
    batch_upload_documents w (l1 ++ l2)
    = (fst (batch_upload_documents w l1)
         ++ fst (batch_upload_documents (snd (batch_upload_documents w l1)) l2),
       snd (batch_upload_documents (snd (batch_upload_documents w l1)) l2)).
Proof.
  induction l1 as [| u l1 IH]; intros w l2.
  - simpl. now destruct (batch_upload_documents w l2).
  - cbn [app batch_upload_documents].
    destruct (do_upload w u) as [r w1].
    rewrite (IH w1 l2).
    destruct (batch_upload_documents w1 l1) as [rs w2]. reflexivity.
Qed.

Lemma batch_upload_snd (files : list Upload) :
  forall w : World, snd (batch_upload_documents w files) = uploads w files.
Proof.
  induction files as [| u files IH]; intros w; [reflexivity |].
  cbn [batch_upload_documents uploads fold_left].
  destruct (do_upload w u) as [r w1].
  specialize (IH w1). destruct (batch_upload_documents w1 files) as [rs w2].
  exact IH.
Qed.

Lemma batch_upload_length (files : list Upload) :
  forall w : World,
    List.length (fst (batch_upload_documents w files)) = List.length files.
Proof.
  induction files as [| u files IH]; intros w; [reflexivity |].
  cbn [batch_upload_documents].
  destruct (do_upload w u) as [r w1].
  specialize (IH w1). destruct (batch_upload_documents w1 files) as [rs w2].
  cbn [fst List.length] in *. now rewrite IH.
Qed.



Lemma firstn_add_skipn {A : Type} (n m : nat) (l : list A) :
  firstn (n + m) l = firstn n l ++ firstn m (skipn n l).
Proof.
  revert l. induction n as [| n IH]; intros l; [reflexivity |].
  destruct l as [| x l]; simpl; [now rewrite firstn_nil | now rewrite IH].
Qed.



(* ================================================================== *)
(** * More on the temporal indicators *)
(* ================================================================== *)

Lemma current_loop_fields (tl : string) (table : list (string * regex * Q)) :
  forall (ti : TemporalInfo.t) (m : Q),
    let r := fst (fold_left (current_step tl) table (ti, m)) in
    List.length (TemporalInfo.keywords r)
    = (List.length (TemporalInfo.keywords ti)
       + List.length (matched table tl))%nat
    /\ TemporalInfo.has_temporal_indicator r
       = TemporalInfo.has_temporal_indicator ti
         || (0 <? List.length (matched table tl))%nat
    /\ TemporalInfo.is_historical r = TemporalInfo.is_historical ti.
Proof.
  induction table as [| [[p re] s] table IH]; intros ti m.
  - simpl. rewrite Nat.add_0_r, orb_false_r. auto.
  - rewrite matched_cons. cbn [fold_left current_step].
    destruct (re_search re tl); [| apply IH].
    specialize (IH (TemporalInfo.mk true (TemporalInfo.recency_score ti)
                      (TemporalInfo.keywords ti ++ [py_strip p "\b"]) true
                      (TemporalInfo.is_historical ti) (TemporalInfo.confidence ti))
                   (py_max m s)).
    cbv zeta in IH. destruct IH as (H1 & H2 & H3).
    cbv zeta. rewrite H1, H2, H3. cbn [TemporalInfo.keywords
      TemporalInfo.has_temporal_indicator TemporalInfo.is_historical List.length].
    rewrite length_app. cbn [List.length].
    rewrite orb_true_r. repeat split; try reflexivity; lia.
Qed.

Lemma historical_loop_fields (tl : string) (table : list (string * regex * Q)) :
  forall (ti : TemporalInfo.t) (m : Q),
    let r := fst (fold_left (historical_step tl) table (ti, m)) in
    List.length (TemporalInfo.keywords r)
    = (List.length (TemporalInfo.keywords ti)
       + List.length (matched table tl))%nat
    /\ TemporalInfo.has_temporal_indicator r
       = TemporalInfo.has_temporal_indicator ti
         || (0 <? List.length (matched table tl))%nat
    /\ TemporalInfo.is_historical r
       = TemporalInfo.is_historical ti
         || (0 <? List.length (matched table tl))%nat.
Proof.
  induction table as [| [[p re] s] table IH]; intros ti m.
  - simpl. rewrite Nat.add_0_r, !orb_false_r. auto.
  - rewrite matched_cons. cbn [fold_left historical_step].
    destruct (re_search re tl); [| apply IH].
    specialize (IH (TemporalInfo.mk true (TemporalInfo.recency_score ti)
                      (TemporalInfo.keywords ti ++ [py_strip p "\b"])
                      (TemporalInfo.is_current ti) true
                      (TemporalInfo.confidence ti))
                   (if negb (TemporalInfo.is_current ti) then py_min m s else m)).
    cbv zeta in IH. destruct IH as (H1 & H2 & H3).
    cbv zeta. rewrite H1, H2, H3. cbn [TemporalInfo.keywords
      TemporalInfo.has_temporal_indicator TemporalInfo.is_historical List.length].
    rewrite length_app. cbn [List.length].
    rewrite !orb_true_r. repeat split; try reflexivity; lia.
Qed.

(** The fields of the answer of [detect_temporal_indicators], in terms of
    the patterns that match. *)
Lemma temporal_fields (text : string) :
  let ti := detect_temporal_indicators text in
  let cur := matched current_patterns (lower text) in
  let hist := matched historical_patterns (lower text) in
  List.length (TemporalInfo.keywords ti)
  = (List.length cur + List.length hist)%nat
  /\ TemporalInfo.has_temporal_indicator ti
     = (0 <? List.length cur + List.length hist)%nat
  /\ TemporalInfo.is_current ti = (0 <? List.length cur)%nat
  /\ TemporalInfo.is_historical ti = (0 <? List.length hist)%nat
  /\ TemporalInfo.confidence ti
     = (if (2 <=? List.length cur + List.length hist)%nat then "high"
        else if (List.length cur + List.length hist =? 1)%nat then "medium"
        else "low").
Proof.
  cbv zeta. unfold detect_temporal_indicators.
  set (ti0 := TemporalInfo.mk false (5 # 10) [] false false "medium").
  pose proof (current_loop (lower text) current_patterns ti0 (5 # 10)%Q)
    as [_ Hc].
  pose proof (current_loop_fields (lower text) current_patterns ti0 (5 # 10)%Q)
    as (Hk1 & Hh1 & Hi1).
  cbv zeta in Hk1, Hh1, Hi1.
  destruct (fold_left (current_step (lower text)) current_patterns
                      (ti0, (5 # 10)%Q)) as [ti1 m1].
  pose proof (historical_loop (lower text) historical_patterns ti1 m1)
    as [_ Hc2].
  pose proof (historical_loop_fields (lower text) historical_patterns ti1 m1)
    as (Hk2 & Hh2 & Hi2).
  cbv zeta in Hk2, Hh2, Hi2.
  destruct (fold_left (historical_step (lower text)) historical_patterns
                      (ti1, m1)) as [ti2 m2].
  cbn [fst snd] in *.
  cbn [TemporalInfo.keywords TemporalInfo.has_temporal_indicator
       TemporalInfo.is_current TemporalInfo.is_historical TemporalInfo.confidence].
  assert (Hnz : match matched current_patterns (lower text) with
                | [] => false | _ :: _ => true end
                = (0 <? List.length (matched current_patterns (lower text)))%nat)
    by (now destruct (matched current_patterns (lower text))).
  rewrite Hnz in Hc.
  rewrite Hk2, Hk1, Hh2, Hh1, Hi2, Hi1, Hc2, Hc.
  subst ti0.
  cbn [TemporalInfo.keywords TemporalInfo.has_temporal_indicator
       TemporalInfo.is_current TemporalInfo.is_historical List.length
       Nat.add orb].
  generalize (List.length (matched current_patterns (lower text))) as a.
  generalize (List.length (matched historical_patterns (lower text))) as b.
  intros b a. repeat split; try reflexivity.
  destruct a, b; reflexivity.
Qed.

Lemma matched_in (table : list (string * regex * Q)) (tl : string) (q : Q) :
  In q (matched table tl) -> In q (map snd table).
Proof.
  unfold matched. intros H. apply in_map_iff in H as (row & <- & Hin).
  apply filter_In in Hin as [Hin _]. now apply in_map.
Qed.

Lemma py_max_bounds (lo hi a b : Q) :
  (lo <= a <= hi)%Q -> (lo <= b <= hi)%Q -> (lo <= py_max a b <= hi)%Q.
Proof. unfold py_max. now destruct (Qle_bool b a). Qed.

Lemma py_min_bounds (lo hi a b : Q) :
  (lo <= a <= hi)%Q -> (lo <= b <= hi)%Q -> (lo <= py_min a b <= hi)%Q.
Proof. unfold py_min. now destruct (Qle_bool a b). Qed.

Lemma fold_max_bounds (lo hi : Q) (l : list Q) :
  forall m : Q,
    (lo <= m <= hi)%Q -> Forall (fun q => (lo <= q <= hi)%Q) l ->
    (lo <= fold_left py_max l m <= hi)%Q.
Proof.
  induction l as [| x l IH]; intros m Hm Hall; [exact Hm |].
  inversion Hall; subst. simpl. apply IH; [now apply py_max_bounds | assumption].
Qed.

Lemma fold_min_bounds (lo hi : Q) (l : list Q) :
  forall m : Q,
    (lo <= m <= hi)%Q -> Forall (fun q => (lo <= q <= hi)%Q) l ->
    (lo <= fold_left py_min l m <= hi)%Q.
Proof.
  induction l as [| x l IH]; intros m Hm Hall; [exact Hm |].
  inversion Hall; subst. simpl. apply IH; [now apply py_min_bounds | assumption].
Qed.

Lemma current_weights :
  Forall (fun q => (7 # 10 <= q <= 9 # 10)%Q) (map snd current_patterns).
Proof. repeat constructor; unfold Qle; simpl; lia. Qed.

Lemma historical_weights :
  Forall (fun q => (1 # 10 <= q <= 4 # 10)%Q) (map snd historical_patterns).
Proof. repeat constructor; unfold Qle; simpl; lia. Qed.

Lemma matched_weights (P : Q -> Prop) (table : list (string * regex * Q))
    (tl : string) :
  Forall P (map snd table) -> Forall P (matched table tl).
Proof.
  rewrite !Forall_forall. intros H q Hq. apply H. eapply matched_in; eauto.
Qed.

(** X8. The recency score of every text lies between 0.1 and 0.9.  It is
    0.7 or more exactly when a current pattern matches, 0.4 or less exactly
    when only historical patterns match, and 0.5 exactly when no pattern
    matches at all. *)
Theorem recency_score_range :
  forall text : string,
    let ti := detect_temporal_indicators text in
    (1 # 10 <= TemporalInfo.recency_score ti <= 9 # 10)%Q
    /\ (TemporalInfo.is_current ti = true
        <-> (7 # 10 <= TemporalInfo.recency_score ti)%Q)
    /\ (TemporalInfo.is_current ti = false
        /\ TemporalInfo.is_historical ti = true
        <-> (TemporalInfo.recency_score ti <= 4 # 10)%Q)
    /\ (TemporalInfo.has_temporal_indicator ti = false
        <-> (TemporalInfo.recency_score ti == 5 # 10)%Q).
Proof.
  intros text ti.
  pose proof (temporal_fields text) as (_ & Hhas & Hcur & Hhist & _).
  cbv zeta in Hhas, Hcur, Hhist. fold ti in Hhas, Hcur, Hhist.
  assert (Hscore : TemporalInfo.recency_score ti = recency_rule text).
  { unfold ti, detect_temporal_indicators, recency_rule.
    set (ti0 := TemporalInfo.mk false (5 # 10) [] false false "medium").
    pose proof (current_loop (lower text) current_patterns ti0 (5 # 10)%Q)
      as [Hc1 Hc2].
    destruct (fold_left (current_step (lower text)) current_patterns
                        (ti0, (5 # 10)%Q)) as [ti1 m1].
    pose proof (historical_loop (lower text) historical_patterns ti1 m1)
      as [Hh1 _].
    destruct (fold_left (historical_step (lower text)) historical_patterns
                        (ti1, m1)) as [ti2 m2].
    simpl in *. rewrite Hh1, Hc2, Hc1.
    now destruct (matched current_patterns (lower text)). }
  rewrite Hscore, Hhas, Hcur, Hhist. unfold recency_rule.
  pose proof (matched_weights _ _ (lower text) current_weights) as Wc.
  pose proof (matched_weights _ _ (lower text) historical_weights) as Wh.
  destruct (matched current_patterns (lower text)) as [| c cur].
  - (* no current pattern *)
    destruct (matched historical_patterns (lower text)) as [| h hist].
    + cbn. repeat split; intros; try reflexivity; try discriminate; try lra;
        try (match goal with H : _ /\ _ |- _ => destruct H; discriminate end);
        try (unfold Qle, Qeq in *; simpl in *; lia).
    + inversion Wh as [| ? ? Hh Wh']; subst.
      assert (Hb : (1 # 10 <= fold_left py_min (h :: hist) (5 # 10) <= 4 # 10)%Q).
      { cbn [fold_left].
        apply fold_min_bounds; [| exact Wh'].
        unfold py_min. destruct (Qle_bool (5 # 10) h) eqn:E; [| exact Hh].
        apply Qle_bool_iff in E. lra. }
      cbn [List.length Nat.add Nat.ltb Nat.leb].
      repeat split; intros; try reflexivity; try discriminate; try lra;
        try (match goal with H : _ /\ _ |- _ => destruct H; discriminate end);
        try (unfold Qle, Qeq in *; simpl in *; lia).
  - (* a current pattern *)
    inversion Wc as [| ? ? Hc Wc']; subst.
    assert (Hb : (7 # 10 <= fold_left py_max (c :: cur) (5 # 10) <= 9 # 10)%Q).
    { cbn [fold_left].
      apply fold_max_bounds; [| exact Wc'].
      unfold py_max. destruct (Qle_bool c (5 # 10)) eqn:E; [| exact Hc].
      apply Qle_bool_iff in E. lra. }
    cbn [List.length Nat.add Nat.ltb Nat.leb].
    repeat split; intros; try reflexivity; try discriminate; try lra;
        try (match goal with H : _ /\ _ |- _ => destruct H; discriminate end);
        try (unfold Qle, Qeq in *; simpl in *; lia).
Qed.

(** X9. The flags and the confidence label agree with the keywords found:
    one keyword is recorded per matching pattern of either table; an
    indicator is reported exactly when some keyword was found, which is when
    the text is current or historical; the confidence is low for no keyword,
    medium for one and high for two or more, so it is low exactly when the
    score is the neutral 0.5. *)
Theorem confidence_counts_keywords :
  forall text : string,
    let ti := detect_temporal_indicators text in
    let n := List.length (TemporalInfo.keywords ti) in
    n = (List.length (matched current_patterns (lower text))
         + List.length (matched historical_patterns (lower text)))%nat
    /\ TemporalInfo.has_temporal_indicator ti
       = TemporalInfo.is_current ti || TemporalInfo.is_historical ti
    /\ (TemporalInfo.has_temporal_indicator ti = true <-> (0 < n)%nat)
    /\ (TemporalInfo.confidence ti = "low" <-> n = 0%nat)
    /\ (TemporalInfo.confidence ti = "medium" <-> n = 1%nat)
    /\ (TemporalInfo.confidence ti = "high" <-> (2 <= n)%nat)
    /\ (TemporalInfo.confidence ti = "low"
        <-> (TemporalInfo.recency_score ti == 5 # 10)%Q).
Proof.
  intros text ti n.
  pose proof (recency_score_range text) as (_ & _ & _ & Hneutral).
  cbv zeta in Hneutral. fold ti in Hneutral.
  pose proof (temporal_fields text) as (Hk & Hhas & Hcur & Hhist & Hconf).
  cbv zeta in Hk, Hhas, Hcur, Hhist, Hconf.
  fold ti in Hk, Hhas, Hcur, Hhist, Hconf. fold n in Hk.
  rewrite <- Hneutral, Hconf, Hhas, Hcur, Hhist, <- Hk.
  split; [reflexivity |].
  destruct (List.length (matched current_patterns (lower text))) as [| a];
    destruct (List.length (matched historical_patterns (lower text))) as [| b];
    subst n; rewrite Hk; cbn [Nat.add Nat.ltb Nat.leb Nat.eqb orb];
    (split; [reflexivity |]).
  all: try (destruct a as [| a]); try (destruct b as [| b]);
    cbn [Nat.add Nat.ltb Nat.leb Nat.eqb];
    try rewrite Nat.add_succ_r; cbn [Nat.add Nat.ltb Nat.leb Nat.eqb];
    repeat split; intros; try reflexivity; try discriminate; try lia.
Qed.

(* ================================================================== *)
(** * Properties of the data-type classification *)
(* ================================================================== *)

(** The list built from seven independent decisions, with its fallback. *)
Lemma tag_list_props (c1 c2 c3 c4 c5 c6 c7 : bool) :
  let l := (if c1 then ["salary_data"] else [])
           ++ (if c2 then ["contact_info"] else [])
           ++ (if c3 then ["status_data"] else [])
           ++ (if c4 then ["policy_data"] else [])
           ++ (if c5 then ["financial_data"] else [])
           ++ (if c6 then ["personnel_data"] else [])
           ++ (if c7 then ["project_data"] else []) in
  let tags := if negb (truthy_list l) then l ++ ["general"] else l in
  tags <> []
  /\ NoDup tags
  /\ (In "general" tags <-> tags = ["general"])
  /\ (In "salary_data" tags <-> c1 = true)
  /\ (In "contact_info" tags <-> c2 = true)
  /\ (In "financial_data" tags <-> c5 = true)
  /\ (In "personnel_data" tags <-> c6 = true).
Proof.
  destruct c1, c2, c3, c4, c5, c6, c7; cbv zeta; cbn [app truthy_list negb];
    (split; [discriminate |]);
    (split; [repeat (constructor; [cbn [In]; intuition discriminate |]);
             constructor |]);
    repeat split; cbn [In]; intros; try discriminate; try reflexivity;
      try (intuition discriminate); auto.
Qed.

Lemma classify_shape (text : string) (entities : Entities.t) :
  classify_data_type text entities
  = let l :=
      (if search_words ["salary"; "compensation"; "pay"; "wage"] (lower text)
          && truthy_list (Entities.amounts entities)
       then ["salary_data"] else [])
      ++ (if truthy_list (Entities.emails entities)
             || truthy_list (Entities.phone_numbers entities)
          then ["contact_info"] else [])
      ++ (if search_words ["status"; "state"; "phase"; "completed";
                           "in progress"; "pending"] (lower text)
          then ["status_data"] else [])
      ++ (if search_words ["policy"; "rule"; "guideline"; "procedure"; "must";
                           "shall"; "required"] (lower text)
          then ["policy_data"] else [])
      ++ (if truthy_list (Entities.amounts entities)
             && search_words ["price"; "cost"; "fee"; "budget"; "revenue"]
                             (lower text)
          then ["financial_data"] else [])
      ++ (if truthy_list (Entities.names entities)
             && search_words ["employee"; "manager"; "team"; "department"; "hr"]
                             (lower text)
          then ["personnel_data"] else [])
      ++ (if search_words ["project"; "product"; "feature"; "release";
                           "version"] (lower text)
          then ["project_data"] else []) in
    if negb (truthy_list l) then l ++ ["general"] else l.
Proof.
  unfold classify_data_type. cbv zeta.
  destruct (search_words ["salary"; "compensation"; "pay"; "wage"] (lower text));
    destruct (truthy_list (Entities.amounts entities));
    destruct (truthy_list (Entities.emails entities)
              || truthy_list (Entities.phone_numbers entities));
    destruct (search_words ["status"; "state"; "phase"; "completed";
                            "in progress"; "pending"] (lower text));
    destruct (search_words ["policy"; "rule"; "guideline"; "procedure"; "must";
                            "shall"; "required"] (lower text));
    destruct (search_words ["price"; "cost"; "fee"; "budget"; "revenue"]
                           (lower text));
    destruct (truthy_list (Entities.names entities)
              && search_words ["employee"; "manager"; "team"; "department"; "hr"]
                              (lower text));
    destruct (search_words ["project"; "product"; "feature"; "release";
                            "version"] (lower text));
    reflexivity.
Qed.

Lemma truthy_list_true {A : Type} (l : list A) :
  truthy_list l = true <-> l <> [].
Proof. destruct l; simpl; split; congruence. Qed.

(** X10. The classification is never empty and names no tag twice, and
    [general] stands only alone.  [salary_data] and [financial_data] are
    given only to text with an extracted amount, [personnel_data] only to
    text with an extracted name, and [contact_info] exactly to text with an
    extracted e-mail address or telephone number, whatever the words. *)
Theorem classify_data_type_tags :
  forall (text : string) (entities : Entities.t),
    let tags := classify_data_type text entities in
    tags <> []
    /\ NoDup tags
    /\ (In "general" tags <-> tags = ["general"])
    /\ (In "salary_data" tags -> Entities.amounts entities <> [])
    /\ (In "financial_data" tags -> Entities.amounts entities <> [])
    /\ (In "personnel_data" tags -> Entities.names entities <> [])
    /\ (In "contact_info" tags
        <-> Entities.emails entities <> []
            \/ Entities.phone_numbers entities <> []).
Proof.
  intros text entities tags. subst tags. rewrite classify_shape.
  match goal with
  | |- context [if ?c1 then ["salary_data"] else []] =>
    match goal with
    | |- context [if ?c2 then ["contact_info"] else []] =>
      match goal with
      | |- context [if ?c3 then ["status_data"] else []] =>
        match goal with
        | |- context [if ?c4 then ["policy_data"] else []] =>
          match goal with
          | |- context [if ?c5 then ["financial_data"] else []] =>
            match goal with
            | |- context [if ?c6 then ["personnel_data"] else []] =>
              match goal with
              | |- context [if ?c7 then ["project_data"] else []] =>
                pose proof (tag_list_props c1 c2 c3 c4 c5 c6 c7)
                  as (H1 & H2 & H3 & H4 & H5 & H6 & H7)
              end
            end
          end
        end
      end
    end
  end.
  cbv zeta in *.
  split; [exact H1 |]. split; [exact H2 |]. split; [exact H3 |].
  split; [| split; [| split]].
  - intros H. apply H4 in H. apply andb_prop in H as [_ H].
    now apply truthy_list_true.
  - intros H. apply H6 in H. apply andb_prop in H as [H _].
    now apply truthy_list_true.
  - intros H. apply H7 in H. apply andb_prop in H as [H _].
    now apply truthy_list_true.
  - rewrite H5, orb_true_iff, !truthy_list_true. reflexivity.
Qed.

(* ================================================================== *)
(** * More on the chunk splitter *)
(* ================================================================== *)

Lemma chunk_loop_stuck {token : Type} (decode : list token -> string)
    (tokens : list token) (size overlap : Z) :
  tokens <> [] -> size <= overlap ->
  forall (fuel : nat) (start : Z) (chunks : list string),
    start <= 0 ->
    chunk_loop decode fuel tokens size overlap start chunks = None.
Proof.
  intros Hne Hov.
  assert (Hn : 0 < Z.of_nat (List.length tokens))
    by (destruct tokens; [contradiction | cbn [List.length]; lia]).
  induction fuel as [| fuel IH]; intros start chunks Hstart; [reflexivity |].
  cbn [chunk_loop].
  destruct (Z.ltb_spec start (Z.of_nat (List.length tokens))); [| lia].
  destruct (Z.leb_spec (Z.of_nat (List.length tokens)) (start + size - overlap));
    [lia |].
  apply IH. lia.
Qed.

(** X11. With an overlap as large as the window, or larger, the loop of
    [chunk_text] never ends on an input that has a token: the start of the
    window does not advance, so no number of iterations yields a result. *)
Theorem chunk_text_diverges :
  forall (token : Type) (encode : string -> list token)
         (decode : list token -> string) (text : string) (size overlap : Z)
         (fuel : nat),
    encode text <> [] -> size <= overlap ->
    chunk_text encode decode fuel text (Some size) (Some overlap) = None.
Proof.
  intros token encode decode text size overlap fuel Hne Hov.
  unfold chunk_text. apply chunk_loop_stuck; [assumption | assumption | lia].
Qed.

Lemma chunk_text_diverges_witness :
  chunk_text char_encode char_decode 1000 "abc" (Some 4) (Some 4) = None.
Proof.
  apply (chunk_text_diverges ascii char_encode char_decode "abc" 4 4 1000).
  - discriminate.
  - lia.
Defined.

Lemma py_slice_nonneg {A : Type} (l : list A) (a b : Z) :
  0 <= a -> 0 <= b ->
  py_slice l a b = skipn (Z.to_nat a) (firstn (Z.to_nat b) l).
Proof.
  intros Ha Hb. unfold py_slice.
  set (n := Z.of_nat (List.length l)).
  assert (Hclamp : forall i, 0 <= i ->
             py_clamp n i = if n <? i then n else i).
  { intros i Hi. unfold py_clamp.
    destruct (Z.ltb_spec i 0); [lia |].
    destruct (Z.ltb_spec i 0); [lia | reflexivity]. }
  rewrite (Hclamp a Ha), (Hclamp b Hb).
  assert (Hfb : firstn (Z.to_nat (if n <? b then n else b)) l
                = firstn (Z.to_nat b) l).
  { destruct (Z.ltb_spec n b); [| reflexivity].
    unfold n. rewrite Nat2Z.id, firstn_all.
    symmetry. apply firstn_all2. lia. }
  rewrite Hfb.
  destruct (Z.ltb_spec n a); [| reflexivity].
  unfold n. rewrite Nat2Z.id.
  rewrite !skipn_all2; [reflexivity | |].
  - rewrite length_firstn. lia.
  - rewrite length_firstn. lia.
Qed.

Lemma nth_error_slice {A : Type} (l : list A) (a b : Z) (i : nat) :
  0 <= a -> a <= Z.of_nat i < b ->
  nth_error (py_slice l a b) (i - Z.to_nat a) = nth_error l i.
Proof.
  intros Ha Hi. rewrite py_slice_nonneg by lia.
  rewrite nth_error_skipn.
  replace (Z.to_nat a + (i - Z.to_nat a))%nat with i by lia.
  rewrite nth_error_firstn.
  destruct (Nat.ltb_spec i (Z.to_nat b)); [reflexivity | lia].
Qed.



(* ================================================================== *)
(** * Properties of the providers and the embedding service *)
(* ================================================================== *)

Lemma normalize_length (embedding : list Q) (target_dim : Z) :
  0 <= target_dim ->
  Z.of_nat (List.length (normalize_embedding_dimension embedding target_dim))
  = target_dim.
Proof.
  intros Ht. unfold normalize_embedding_dimension.
  destruct (Z.eqb_spec (Z.of_nat (List.length embedding)) target_dim) as [E | E];
    [exact E |].
  destruct (Z.ltb_spec (Z.of_nat (List.length embedding)) target_dim).
  - rewrite length_app, repeat_length. lia.
  - rewrite py_prefix_firstn by lia. rewrite length_firstn. lia.
Qed.

(** X13. For a target dimension that is not negative the normalised
    embedding has exactly that dimension; it agrees with the embedding on
    every position both have, holds zero on every position it adds, and
    normalising it again changes nothing. *)
Theorem normalize_embedding_dimension_spec :
  forall (embedding : list Q) (target_dim : Z),
    0 <= target_dim ->
    let out := normalize_embedding_dimension embedding target_dim in
    Z.of_nat (List.length out) = target_dim
    /\ (forall i : nat,
           (i < List.length embedding)%nat -> Z.of_nat i < target_dim ->
           nth_error out i = nth_error embedding i)
    /\ (forall i : nat,
           (List.length embedding <= i)%nat -> Z.of_nat i < target_dim ->
           nth_error out i = Some 0%Q)
    /\ normalize_embedding_dimension out target_dim = out.
Proof.
  intros embedding target_dim Ht out.
  pose proof (normalize_length embedding target_dim Ht) as Hlen. fold out in Hlen.
  split; [exact Hlen |]. split; [| split].
  - intros i Hi Hit. subst out. unfold normalize_embedding_dimension.
    destruct (Z.eqb_spec (Z.of_nat (List.length embedding)) target_dim);
      [reflexivity |].
    destruct (Z.ltb_spec (Z.of_nat (List.length embedding)) target_dim).
    + now rewrite nth_error_app1.
    + rewrite py_prefix_firstn by lia. rewrite nth_error_firstn.
      destruct (Nat.ltb_spec i (Z.to_nat target_dim)); [reflexivity | lia].
  - intros i Hi Hit. subst out. unfold normalize_embedding_dimension.
    destruct (Z.eqb_spec (Z.of_nat (List.length embedding)) target_dim); [lia |].
    destruct (Z.ltb_spec (Z.of_nat (List.length embedding)) target_dim); [| lia].
    rewrite nth_error_app2 by lia.
    apply nth_error_repeat. lia.
  - unfold normalize_embedding_dimension at 1.
    now rewrite Hlen, Z.eqb_refl.
Qed.

Lemma normalize_embedding_dimension_spec_witness :
  Z.of_nat (List.length (normalize_embedding_dimension [1; 2; 3]%Q 5)) = 5.
Proof.
  apply (proj1 (normalize_embedding_dimension_spec [1; 2; 3]%Q 5 ltac:(lia))).
Defined.

(** The calls a primary search makes: none on a hit, the embedding alone
    when it fails, else the embedding and one store query that carries the
    embedding the provider returned. *)
Lemma semantic_search_log (env : Env) (d : DB) (cache : Cache) (query : string)
    (top_k : Z) (boost : bool) (rw thr : Q) (emb : list Q) (limit : Z) :
  In (StoreQuery emb limit)
     (snd (semantic_search env d cache query top_k boost rw thr)) ->
  generate_embedding env query = Some emb.
Proof.
  unfold semantic_search.
  destruct (assoc_get _ cache); [intros [] |].
  destruct (generate_embedding env query) as [e |];
    [| intros [H | []]; discriminate].
  assert (Hlog : In (StoreQuery emb limit)
                    [EmbedQuery query;
                     StoreQuery e (search_limit_of top_k boost)] ->
                 Some e = Some emb).
  { intros [H | [H | []]]; [discriminate | now injection H as -> _]. }
  fold (search_limit_of top_k boost).
  destruct (db_execute env d e (fun _ => true) (search_limit_of top_k boost))
    as [[| row rows] |]; try exact Hlog.
  destruct (_cache_max_size <=? Z.of_nat (List.length cache));
    [destruct (dict_pop_oldest cache) |]; exact Hlog.
Qed.

Lemma filtered_search_log (env : Env) (d : DB) (query : string) (top_k : Z)
    (dts ids : option (list string)) (mr : option Q) (emb : list Q) (limit : Z) :
  In (StoreQuery emb limit)
     (snd (semantic_search_with_filters env d query top_k dts ids mr)) ->
  generate_embedding env query = Some emb.
Proof.
  unfold semantic_search_with_filters.
  destruct (generate_embedding env query) as [e |];
    [| intros [H | []]; discriminate].
  assert (Hlog : In (StoreQuery emb limit)
                    [EmbedQuery query; StoreQuery e (top_k * 3)] ->
                 Some e = Some emb).
  { intros [H | [H | []]]; [discriminate | now injection H as -> _]. }
  destruct (db_execute env d e (filter_clauses dts ids mr) (top_k * 3))
    as [rows |]; [| exact Hlog].
  destruct (filtered_results rows); exact Hlog.
Qed.

(** X14. The hybrid provider fails to embed a text only when OpenAI fails
    and the local model is unused or fails too; when the local model is in
    use and answers, its answer is taken.  Whatever provider is configured,
    an embedding the service returns has 1536 components, and so has every
    query vector a search sends to the store. *)
Theorem embedding_service_dimension :
  forall (b : Backends) (text : string),
    (service_generate_embedding HybridProvider b text = None
     <-> openai_embed b text = None
         /\ (local_available b = false \/ local_encode b text = None))
    /\ (forall e, local_available b = true -> local_encode b text = Some e ->
                  service_generate_embedding HybridProvider b text
                  = Some (normalize_embedding_dimension e TARGET_DIMENSION))
    /\ (forall p e, service_generate_embedding p b text = Some e ->
                    Z.of_nat (List.length e) = TARGET_DIMENSION)
    /\ (forall (ai_provider : string) (distance : list Q -> list Q -> Q)
               (available : bool) (md5 : string -> string) (d : DB)
               (cache : Cache) (top_k : Z) (boost : bool) (rw thr : Q)
               (data_types entity_ids : option (list string))
               (min_recency_score : option Q) (emb : list Q) (limit : Z),
           In (StoreQuery emb limit)
              (snd (semantic_search
                      (service_env ai_provider b distance available md5)
                      d cache text top_k boost rw thr))
           \/ In (StoreQuery emb limit)
                 (snd (semantic_search_with_filters
                         (service_env ai_provider b distance available md5)
                         d text top_k data_types entity_ids min_recency_score)) ->
           Z.of_nat (List.length emb) = TARGET_DIMENSION).
Proof.
  intros b text.
  assert (Hdim : forall p e, service_generate_embedding p b text = Some e ->
                             Z.of_nat (List.length e) = TARGET_DIMENSION).
  { intros p e. unfold service_generate_embedding.
    destruct (provider_generate_embedding p b text); [| discriminate].
    intros [= <-]. apply normalize_length. unfold TARGET_DIMENSION. lia. }
  split; [| split; [| split; [exact Hdim |]]].
  - unfold service_generate_embedding, provider_generate_embedding,
      local_generate_embedding.
    destruct (local_available b); cbn [negb].
    + destruct (local_encode b text) as [e |].
      * split; [discriminate | intros [_ [H | H]]; discriminate].
      * destruct (openai_embed b text); split; try discriminate; auto.
        intros [H _]. discriminate.
    + destruct (openai_embed b text); split; try discriminate; auto.
      intros [H _]. discriminate.
  - intros e Ha He.
    unfold service_generate_embedding, provider_generate_embedding,
      local_generate_embedding.
    now rewrite Ha, He.
  - intros ai_provider distance available md5 d cache top_k boost rw thr
           dts ids mr emb limit [H | H].
    + apply semantic_search_log in H. exact (Hdim _ _ H).
    + apply filtered_search_log in H. exact (Hdim _ _ H).
Qed.

Lemma embedding_service_dimension_witness :
  service_generate_embedding HybridProvider demo_backends "salary"
  = Some (normalize_embedding_dimension [1; 2; 3]%Q TARGET_DIMENSION).
Proof.
  apply (proj1 (proj2 (embedding_service_dimension demo_backends "salary"))
               [1; 2; 3]%Q); reflexivity.
Defined.

(** X15. The health report of the hybrid provider is never [unhealthy]:
    it is [healthy] when OpenAI answers and [degraded] otherwise.  As
    [check_providers] counts [degraded] as healthy, a system configured
    with the hybrid provider reports [healthy] whatever state the back ends
    are in, while one configured with OpenAI reports [healthy] exactly when
    the test embedding succeeds. *)
Theorem hybrid_never_unhealthy :
  forall (ai_provider : string) (b : Backends),
    (provider_health HybridProvider b = "healthy"
     \/ provider_health HybridProvider b = "degraded")
    /\ (provider_health HybridProvider b = "healthy"
        <-> openai_embed b "test" <> None)
    /\ (lower ai_provider = "hybrid" -> check_providers ai_provider b = "healthy")
    /\ (lower ai_provider = "openai" ->
        (check_providers ai_provider b = "healthy"
         <-> openai_embed b "test" <> None)).
Proof.
  intros ai_provider b.
  split; [| split; [| split]].
  - unfold provider_health. destruct (String.eqb (openai_health b) "healthy"); auto.
  - unfold provider_health, openai_health.
    destruct (openai_embed b "test"); cbn; split; congruence.
  - intros Hcfg.
    unfold check_providers, get_provider, get_completion_provider.
    rewrite Hcfg. cbn [String.eqb Ascii.eqb Bool.eqb].
    change (String.eqb "hybrid" "openai") with false.
    change (String.eqb "hybrid" "local") with false.
    change (String.eqb "hybrid" "hybrid") with true. cbn iota.
    unfold provider_health.
    destruct (String.eqb (openai_health b) "healthy"); reflexivity.
  - intros Hcfg.
    unfold check_providers, get_provider, get_completion_provider.
    rewrite Hcfg.
    change (String.eqb "openai" "openai") with true.
    change (String.eqb "openai" "local") with false.
    change (String.eqb "openai" "hybrid") with false. cbn iota.
    unfold provider_health, openai_health.
    destruct (openai_embed b "test"); cbn; split; congruence.
Qed.

Lemma hybrid_never_unhealthy_witness :
  check_providers "Hybrid" demo_backends = "healthy".
Proof.
  apply (proj1 (proj2 (proj2 (hybrid_never_unhealthy "Hybrid" demo_backends)))).
  reflexivity.
Defined.

(* ================================================================== *)
(** * Properties of the text extraction *)
(* ================================================================== *)

Lemma lower_char_idem (c : ascii) : lower_char (lower_char c) = lower_char c.
Proof.
  unfold lower_char.
  destruct ((65 <=? nat_of_ascii c) && (nat_of_ascii c <=? 90))%nat eqn:E;
    [| now rewrite E].
  apply andb_prop in E as [E1 E2].
  apply Nat.leb_le in E1. apply Nat.leb_le in E2.
  rewrite nat_ascii_embedding by lia.
  destruct (Nat.leb_spec (nat_of_ascii c + 32) 90); [lia |].
  now rewrite andb_false_r.
Qed.

Lemma lower_idem (s : string) : lower (lower s) = lower s.
Proof.
  induction s as [| c s IH]; simpl; [reflexivity |].
  now rewrite lower_char_idem, IH.
Qed.

Lemma lower_app (s t : string) : lower (s ++ t) = (lower s ++ lower t)%string.
Proof. induction s as [| c s IH]; simpl; [reflexivity | now rewrite IH]. Qed.

Lemma lower_char_dot (c : ascii) :
  Ascii.eqb (lower_char c) "." = Ascii.eqb c ".".
Proof.
  unfold lower_char.
  destruct ((65 <=? nat_of_ascii c) && (nat_of_ascii c <=? 90))%nat eqn:E;
    [| reflexivity].
  apply andb_prop in E as [E1 E2].
  apply Nat.leb_le in E1. apply Nat.leb_le in E2.
  assert (H1 : Ascii.eqb (ascii_of_nat (nat_of_ascii c + 32)) "." = false).
  { apply Ascii.eqb_neq. intros H.
    apply (f_equal nat_of_ascii) in H.
    rewrite nat_ascii_embedding in H by lia.
    change (nat_of_ascii ".") with 46%nat in H. lia. }
  assert (H2 : Ascii.eqb c "." = false).
  { apply Ascii.eqb_neq. intros ->.
    change (nat_of_ascii ".") with 46%nat in E1. lia. }
  now rewrite H1, H2.
Qed.

Lemma dotless_lower (s : string) : dotless (lower s) = dotless s.
Proof.
  induction s as [| c s IH]; simpl; [reflexivity |].
  now rewrite lower_char_dot, IH.
Qed.

Lemma string_app_nil_r (s : string) : (s ++ "")%string = s.
Proof. induction s as [| c s IH]; simpl; [reflexivity | now rewrite IH]. Qed.

Lemma string_app_assoc (s t u : string) :
  ((s ++ t) ++ u)%string = (s ++ t ++ u)%string.
Proof. induction s as [| c s IH]; simpl; [reflexivity | now rewrite IH]. Qed.

Lemma last_segment_dotless (s : string) :
  dotless s = true -> forall acc, last_segment_from acc s = (acc ++ s)%string.
Proof.
  induction s as [| c s IH]; simpl; intros H acc.
  - now rewrite string_app_nil_r.
  - apply andb_prop in H as [Hc Hs]. apply negb_true_iff in Hc.
    rewrite Hc, (IH Hs). now rewrite string_app_assoc.
Qed.

Lemma last_segment_after_dot (stem ext : string) :
  dotless ext = true ->
  forall acc, last_segment_from acc (stem ++ String "." ext) = ext.
Proof.
  intros Hext. induction stem as [| c stem IH]; intros acc; simpl.
  - now rewrite (last_segment_dotless ext Hext).
  - destruct (Ascii.eqb c "."); apply IH.
Qed.



(* ================================================================== *)
(** * Properties of the completeness check and of question answering *)
(* ================================================================== *)

Lemma completeness_loop_spec (env : Env)
    (chat : list (string * string) -> Q -> option string) (d : DB)
    (requirements : list string) :
  forall (cache : Cache) (acc analysis : list Analysis.t) (cache' : Cache),
    completeness_loop env chat d cache requirements acc = (Some analysis, cache') ->
    exists added,
      analysis = acc ++ added
      /\ map Analysis.requirement added = requirements
      /\ Forall (fun a => Analysis.covered a = true
                          <-> (7 # 10 < Analysis.confidence a)%Q) added.
Proof.
  induction requirements as [| req rest IH]; intros cache acc analysis cache'.
  - simpl. intros [= <- <-]. exists []. rewrite app_nil_r. auto.
  - cbn [completeness_loop].
    destruct (semantic_search env d cache req 3 true default_recency_weight
                default_similarity_threshold) as [[results cache1] log].
    destruct results as [| best results].
    + intros H. apply IH in H as (added & -> & Hreq & Hcov).
      eexists (_ :: added). rewrite <- app_assoc. split; [reflexivity |].
      split; [simpl; now rewrite Hreq |].
      constructor; [| exact Hcov]. simpl.
      split; [discriminate | intros H; exfalso; revert H; apply Qle_not_lt].
      unfold Qle. simpl. lia.
    + destruct (chat _ _) as [llm |]; [| discriminate].
      intros H. apply IH in H as (added & -> & Hreq & Hcov).
      eexists (_ :: added). rewrite <- app_assoc. split; [reflexivity |].
      split; [simpl; now rewrite Hreq |].
      constructor; [| exact Hcov]. simpl.
      rewrite negb_true_iff. apply Qle_bool_false.
Qed.

Lemma filter_split_length {A : Type} (f : A -> bool) (l : list A) :
  (List.length (filter f l) + List.length (filter (fun a => negb (f a)) l)
   = List.length l)%nat.
Proof.
  induction l as [| x l IH]; simpl; [reflexivity |].
  destruct (f x); simpl; lia.
Qed.

Lemma percentage_bounds (c t : Z) :
  0 <= c <= t -> 0 < t ->
  (0 <= inject_Z c / inject_Z t * 100 <= 100)%Q.
Proof.
  intros Hc Ht.
  assert (Ht' : (0 < inject_Z t)%Q)
    by (change (inject_Z 0 < inject_Z t)%Q; rewrite <- Zlt_Qlt; exact Ht).
  assert (Hc0 : (0 <= inject_Z c)%Q)
    by (change (inject_Z 0 <= inject_Z c)%Q; rewrite <- Zle_Qle; lia).
  assert (Hct : (inject_Z c <= inject_Z t)%Q) by (rewrite <- Zle_Qle; lia).
  assert (H0 : (0 <= inject_Z c / inject_Z t)%Q).
  { apply Qle_shift_div_l; [exact Ht' | lra]. }
  assert (H1 : (inject_Z c / inject_Z t <= 1)%Q).
  { apply Qle_shift_div_r; [exact Ht' | lra]. }
  split; lra.
Qed.



Lemma search_without_embedding (env : Env) (d : DB) (query : string)
    (top_k : Z) (boost : bool) (rw thr : Q) :
  generate_embedding env query = None ->
  semantic_search env d [] query top_k boost rw thr
  = ([], [], [EmbedQuery query]).
Proof. intros H. unfold semantic_search. cbn [assoc_get]. now rewrite H. Qed.

Lemma outage_loop (env : Env)
    (chat : list (string * string) -> Q -> option string) (d : DB)
    (requirements : list string) :
  (forall q, In q requirements -> generate_embedding env q = None) ->
  forall acc,
    completeness_loop env chat d [] requirements acc
    = (Some (acc ++ map (fun r => Analysis.mk r false 0
                                    "No relevant information found" [])
                        requirements), []).
Proof.
  induction requirements as [| req rest IH]; intros Hdown acc.
  - simpl. now rewrite app_nil_r.
  - cbn [completeness_loop].
    rewrite search_without_embedding by (apply Hdown; now left).
    rewrite IH by (intros q Hq; apply Hdown; now right).
    now rewrite <- app_assoc.
Qed.

(** X18. An outage of the embedding provider is not reported as an error.
    With an empty cache and no embedding for the requirements, the
    completeness check reports every requirement as a gap with confidence 0
    and a percentage of 0, and with no embedding for the question, question
    answering returns its could-not-find answer without sources; neither
    calls the language model. *)
Theorem outage_reads_as_no_coverage :
  forall (env : Env) (d : DB),
    (forall (chat : list (string * string) -> Q -> option string)
            (requirements : list string),
        (forall q, In q requirements -> generate_embedding env q = None) ->
        exists report,
          check_completeness env chat d [] requirements = (Some report, [])
          /\ gaps report = requirements
          /\ covered_count report = 0
          /\ (completeness_percentage report == 0)%Q
          /\ Forall (fun a => Analysis.covered a = false
                              /\ Analysis.confidence a = 0%Q
                              /\ Analysis.sources a = [])
                    (detailed_analysis report))
    /\ (forall (ai_provider : string) (b : Backends) (question : string)
               (top_k : Z),
           generate_embedding env question = None ->
           answer_question env ai_provider b d [] question top_k
           = (Some (mkQAResponse
                      "I couldn't find relevant information to answer this question."
                      [] None
                      (provider_name (get_completion_provider ai_provider))),
              [])).
Proof.
  intros env d. split.
  - intros chat requirements Hdown.
    unfold check_completeness. rewrite (outage_loop env chat d requirements Hdown).
    cbn [app]. eexists. split; [reflexivity |].
    cbn [gaps covered_count completeness_percentage detailed_analysis].
    assert (Hnone : filter Analysis.covered
                      (map (fun r => Analysis.mk r false 0
                                       "No relevant information found" [])
                           requirements) = []).
    { induction requirements as [| r rs IH]; [reflexivity |]. simpl.
      apply IH. intros q Hq. apply Hdown. now right. }
    assert (Hall : filter (fun a => negb (Analysis.covered a))
                      (map (fun r => Analysis.mk r false 0
                                       "No relevant information found" [])
                           requirements)
                   = map (fun r => Analysis.mk r false 0
                                     "No relevant information found" [])
                         requirements).
    { clear. induction requirements as [| r rs IH]; [reflexivity |]. simpl.
      now rewrite IH. }
    rewrite Hnone, Hall, map_map. cbn [Analysis.requirement List.length].
    split; [apply map_id |]. split; [reflexivity |]. split.
    + destruct (0 <? Z.of_nat (List.length requirements)); [| reflexivity].
      unfold Qdiv. change (inject_Z (Z.of_nat 0)) with 0%Q. lra.
    + apply Forall_forall. intros a Ha.
      apply in_map_iff in Ha as (r & <- & _). auto.
  - intros ai_provider b question top_k Hdown.
    unfold answer_question.
    now rewrite search_without_embedding by exact Hdown.
Qed.

Lemma outage_reads_as_no_coverage_witness :
  answer_question provider_down "hybrid" demo_backends ranking_db [] "q" 5
  = (Some (mkQAResponse
             "I couldn't find relevant information to answer this question."
             [] None (provider_name (get_completion_provider "hybrid"))),
     []).
Proof.
  apply (proj2 (outage_reads_as_no_coverage provider_down ranking_db)
               "hybrid" demo_backends "q" 5).
  reflexivity.
Defined.

Lemma substring_length_le (n : nat) (s : string) :
  (String.length (substring 0 n s) <= n)%nat.
Proof.
  revert s. induction n as [| n IH]; intros s.
  - destruct s; simpl; lia.
  - destruct s as [| c s]; simpl; [lia |]. specialize (IH s). lia.
Qed.

Lemma string_length_app (s t : string) :
  String.length (s ++ t) = (String.length s + String.length t)%nat.
Proof. induction s as [| c s IH]; simpl; [reflexivity | now rewrite IH]. Qed.

Lemma substring_short (n : nat) (s : string) :
  (String.length s <= n)%nat -> substring 0 n s = s.
Proof.
  revert s. induction n as [| n IH]; intros s H.
  - destruct s; simpl in *; [reflexivity | lia].
  - destruct s as [| c s]; simpl in *; [reflexivity |].
    rewrite IH by lia. reflexivity.
Qed.

Lemma sources_of_results (results : list SearchResult.t) :
  Forall2 (fun s r =>
             source_filename s = SearchResult.filename r
             /\ source_similarity s = SearchResult.similarity r
             /\ source_text s
                = (substring 0 200 (SearchResult.text r) ++ "...")%string
             /\ (String.length (source_text s) <= 203)%nat
             /\ ((String.length (SearchResult.text r) <= 200)%nat ->
                 source_text s = (SearchResult.text r ++ "...")%string))
          (map (fun result =>
                  mkQASource (SearchResult.filename result)
                    (substring 0 200 (SearchResult.text result) ++ "...")
                    (SearchResult.similarity result))
               results)
          results.
Proof.
  induction results as [| r results IH]; [constructor |].
  cbn [map]. constructor; [| exact IH].
  cbn [source_filename source_similarity source_text].
  repeat split.
  - rewrite string_length_app.
    pose proof (substring_length_le 200 (SearchResult.text r)).
    change (String.length "...") with 3%nat. lia.
  - intros H. now rewrite substring_short.
Qed.

(** X19. An answer of [answer_question] is built on the search results.
    Without results it is the could-not-find answer, with no source and no
    question field.  With results it carries the question and one source
    per result, in order, with the result's filename and similarity and the
    first 200 characters of its text followed by three dots, which are
    added also to a text that was not cut.  The provider named is never the
    local one. *)
Theorem answer_question_sources :
  forall (env : Env) (ai_provider : string) (b : Backends) (d : DB)
         (cache : Cache) (question : string) (top_k : Z) (response : QAResponse)
         (cache' : Cache),
    answer_question env ai_provider b d cache question top_k
    = (Some response, cache') ->
    let results :=
      fst (fst (semantic_search env d cache question top_k true
                  default_recency_weight default_similarity_threshold)) in
    (results = [] ->
     answer response
     = "I couldn't find relevant information to answer this question."
     /\ qa_sources response = [] /\ qa_question response = None)
    /\ (results <> [] ->
        qa_question response = Some question
        /\ provider_generate_completion (get_completion_provider ai_provider) b
             [("system",
               "You are a helpful assistant that answers questions based on provided context. Always cite your sources.");
              ("user",
               qa_prompt (join (newline ++ newline) (context_parts 1 results))
                         question)] (3 # 10)%Q 500
           = Some (answer response))
    /\ Forall2 (fun s r =>
                  source_filename s = SearchResult.filename r
                  /\ source_similarity s = SearchResult.similarity r
                  /\ source_text s
                     = (substring 0 200 (SearchResult.text r) ++ "...")%string
                  /\ (String.length (source_text s) <= 203)%nat
                  /\ ((String.length (SearchResult.text r) <= 200)%nat ->
                      source_text s = (SearchResult.text r ++ "...")%string))
               (qa_sources response) results
    /\ qa_provider response <> "Local".
Proof.
  intros env ai_provider b d cache question top_k response cache'.
  unfold answer_question.
  destruct (semantic_search env d cache question top_k true
              default_recency_weight default_similarity_threshold)
    as [[results cache1] log].
  cbn [fst].
  assert (Hprov : provider_name (get_completion_provider ai_provider) <> "Local").
  { unfold get_completion_provider.
    destruct (String.eqb (lower ai_provider) "local"); [discriminate |].
    destruct (String.eqb (lower ai_provider) "hybrid"); discriminate. }
  destruct results as [| r0 rs].
  - intros [= <- <-]. cbn.
    split; [auto |]. split; [intros H; now contradiction H |].
    split; [constructor | exact Hprov].
  - destruct (provider_generate_completion _ b _ _ _) as [ans |] eqn:Hans;
      [| discriminate].
    intros [= <- <-]. cbn [answer qa_sources qa_question qa_provider].
    split; [discriminate |]. split; [intros _; split; [reflexivity | first [reflexivity | exact Hans]] |].
    split; [| exact Hprov].
    apply (sources_of_results (r0 :: rs)).
Qed.

Lemma answer_question_sources_witness :
  qa_provider
    (mkQAResponse
       "I couldn't find relevant information to answer this question."
       [] None (provider_name (get_completion_provider "local")))
  <> "Local".
Proof.
  apply (answer_question_sources provider_down "local" demo_backends ranking_db
           [] "q" 5 _ [] eq_refl).
Defined.

(* ================================================================== *)
(** * Properties of the ingestion task *)
(* ================================================================== *)

(** With the default settings the chunking loop ends within one iteration
    per token. *)
Lemma chunk_text_default {token : Type} (encode : string -> list token)
    (decode : list token -> string) (text : string) (fuel : nat) :
  (List.length (encode text) < fuel)%nat ->
  chunk_text encode decode fuel text None None
  = Some (windows decode (encode text) (chunk_size settings)
            (chunk_size settings - chunk_overlap settings)).
Proof.
  intros Hfuel. unfold chunk_text, windows.
  cbn [settings chunk_size chunk_overlap].
  destruct (encode text) as [| t ts] eqn:E.
  - destruct fuel as [| fuel]; [simpl in Hfuel; lia | reflexivity].
  - set (tokens := t :: ts) in *.
    pose proof (chunk_loop_windows decode tokens 1000 100 ltac:(lia) fuel 0 [])
      as H.
    cbv zeta in H. rewrite Nat.sub_0_r in H.
    assert (Hn : 1 <= Z.of_nat (List.length tokens))
      by (unfold tokens; cbn [List.length]; lia).
    apply H.
    + apply (window_index (Z.of_nat (List.length tokens)) (1000 - 100) 0);
        lia.
    + assert (Hq : (Z.of_nat (List.length tokens) + (1000 - 100) - 1)
                   / (1000 - 100) <= Z.of_nat (List.length tokens))
        by (apply Z.div_le_upper_bound; lia).
      lia.
Qed.

Lemma enhance_texts (ck : Chunker) (at_ : Z -> Z) (dm : option Json)
    (basic_chunks : list string) :
  forall idx : Z,
    map EnhancedChunk.text (enhance ck at_ dm idx basic_chunks) = basic_chunks.
Proof.
  induction basic_chunks as [| c cs IH]; intros idx; [reflexivity |].
  cbn [enhance map EnhancedChunk.text]. now rewrite IH.
Qed.

Lemma enhance_nth (ck : Chunker) (at_ : Z -> Z) (dm : option Json)
    (basic_chunks : list string) :
  forall (idx : Z) (k : nat) (c : EnhancedChunk.t),
    nth_error (enhance ck at_ dm idx basic_chunks) k = Some c ->
    nth_error basic_chunks k = Some (EnhancedChunk.text c)
    /\ ChunkMetadata.chunk_index (EnhancedChunk.metadata c) = idx + Z.of_nat k
    /\ ChunkMetadata.recency_score (EnhancedChunk.metadata c)
       = TemporalInfo.recency_score
           (detect_temporal_indicators (EnhancedChunk.text c))
    /\ ChunkMetadata.entities (EnhancedChunk.metadata c)
       = extract_entities ck (EnhancedChunk.text c)
    /\ ChunkMetadata.data_types (EnhancedChunk.metadata c)
       = classify_data_type (EnhancedChunk.text c)
           (extract_entities ck (EnhancedChunk.text c))
    /\ ChunkMetadata.temporal_info (EnhancedChunk.metadata c)
       = detect_temporal_indicators (EnhancedChunk.text c).
Proof.
  induction basic_chunks as [| t ts IH]; intros idx k c.
  - destruct k; discriminate.
  - destruct k as [| k].
    + cbn [enhance nth_error]. intros [= <-].
      cbn [EnhancedChunk.text EnhancedChunk.metadata ChunkMetadata.chunk_index
           ChunkMetadata.recency_score ChunkMetadata.entities
           ChunkMetadata.data_types ChunkMetadata.temporal_info].
      repeat split; try reflexivity. lia.
    + cbn [enhance nth_error]. intros H.
      destruct (IH (idx + 1) k c H) as (H1 & H2 & H3).
      split; [exact H1 |]. split; [lia | exact H3].
Qed.

Lemma chunk_rows_length (fa : Z -> Z) (did ver first : Z)
    (pairs : list (EnhancedChunk.t * list Q)) :
  forall idx : Z,
    List.length (chunk_rows fa did ver first idx pairs) = List.length pairs.
Proof.
  induction pairs as [| [c e] pairs IH]; intros idx; [reflexivity |].
  cbn [chunk_rows List.length]. now rewrite IH.
Qed.

Lemma chunk_rows_nth (fa : Z -> Z) (did ver first : Z)
    (pairs : list (EnhancedChunk.t * list Q)) :
  forall (idx : Z) (k : nat) (row : DocumentChunk.t),
    nth_error (chunk_rows fa did ver first idx pairs) k = Some row ->
    exists c e,
      nth_error pairs k = Some (c, e)
      /\ row = DocumentChunk.mk (first + (idx + Z.of_nat k)) did
                 (EnhancedChunk.text c)
                 (ChunkMetadata.chunk_index (EnhancedChunk.metadata c))
                 (Some e) (metadata_json (EnhancedChunk.metadata c))
                 (Some (ChunkMetadata.recency_score (EnhancedChunk.metadata c)))
                 (Some (fa (idx + Z.of_nat k))) true ver None.
Proof.
  induction pairs as [| [c e] pairs IH]; intros idx k row.
  - destruct k; discriminate.
  - destruct k as [| k].
    + cbn [chunk_rows nth_error]. intros [= <-]. exists c, e.
      split; [reflexivity |]. now rewrite Z.add_0_r.
    + cbn [chunk_rows nth_error]. intros H.
      destruct (IH (idx + 1) k row H) as (c' & e' & H1 & H2).
      exists c', e'. split; [exact H1 |].
      replace (idx + Z.of_nat (S k)) with (idx + 1 + Z.of_nat k) by lia.
      exact H2.
Qed.

Lemma nth_error_combine {A B : Type} (l1 : list A) :
  forall (l2 : list B) (k : nat) (a : A) (b : B),
    nth_error (combine l1 l2) k = Some (a, b) ->
    nth_error l1 k = Some a /\ nth_error l2 k = Some b.
Proof.
  induction l1 as [| x l1 IH]; intros l2 k a b.
  - destruct k; discriminate.
  - destruct l2 as [| y l2]; [destruct k; discriminate |].
    destruct k as [| k]; cbn [combine nth_error].
    + intros [= <- <-]. now split.
    + apply IH.
Qed.

Lemma service_batch_dimension (p : ProviderKind) (b : Backends)
    (texts : list string) (embeddings : list (list Q)) :
  service_generate_embeddings_batch p b texts = Some embeddings ->
  Forall (fun e => Z.of_nat (List.length e) = TARGET_DIMENSION) embeddings.
Proof.
  unfold service_generate_embeddings_batch.
  destruct (provider_generate_embeddings_batch p b texts) as [raw |];
    [| discriminate].
  intros [= <-]. apply Forall_forall. intros e He.
  apply in_map_iff in He as (r & <- & _).
  apply normalize_length. unfold TARGET_DIMENSION. lia.
Qed.

(** The score of a text is that of the rule, hence between 0.1 and 0.9. *)
Lemma recency_score_bounds (text : string) :
  (1 # 10 <= TemporalInfo.recency_score (detect_temporal_indicators text)
   <= 9 # 10)%Q.
Proof.
  assert (Hscore : TemporalInfo.recency_score (detect_temporal_indicators text)
                   = recency_rule text).
  { unfold detect_temporal_indicators, recency_rule.
    set (ti0 := TemporalInfo.mk false (5 # 10) [] false false "medium").
    pose proof (current_loop (lower text) current_patterns ti0 (5 # 10)%Q)
      as [Hc1 Hc2].
    destruct (fold_left (current_step (lower text)) current_patterns
                        (ti0, (5 # 10)%Q)) as [ti1 m1].
    pose proof (historical_loop (lower text) historical_patterns ti1 m1)
      as [Hh1 _].
    destruct (fold_left (historical_step (lower text)) historical_patterns
                        (ti1, m1)) as [ti2 m2].
    simpl in *. rewrite Hh1, Hc2, Hc1.
    now destruct (matched current_patterns (lower text)). }
  rewrite Hscore. unfold recency_rule.
  assert (Wc : Forall (fun q => (1 # 10 <= q <= 9 # 10)%Q)
                 (matched current_patterns (lower text))).
  { eapply Forall_impl; [| apply (matched_weights _ _ _ current_weights)].
    cbv beta. intros q Hq. lra. }
  assert (Wh : Forall (fun q => (1 # 10 <= q <= 9 # 10)%Q)
                 (matched historical_patterns (lower text))).
  { eapply Forall_impl; [| apply (matched_weights _ _ _ historical_weights)].
    cbv beta. intros q Hq. lra. }
  assert (H5 : (1 # 10 <= 5 # 10 <= 9 # 10)%Q) by lra.
  destruct (matched current_patterns (lower text)) as [| c cur].
  - now apply fold_min_bounds.
  - now apply fold_max_bounds.
Qed.



(** What [semantic_search] reads from the metadata the task stores. *)
Lemma metadata_gets (m : ChunkMetadata.t) :
  get_if_truthy (metadata_json m) "entities" (JDict [])
  = Some (entities_json (ChunkMetadata.entities m))
  /\ get_if_truthy (metadata_json m) "data_types" (JList [])
     = Some (json_strs (ChunkMetadata.data_types m))
  /\ get_if_truthy (metadata_json m) "temporal_info" (JDict [])
     = Some (temporal_info_json (ChunkMetadata.temporal_info m)).
Proof. repeat split. Qed.

Lemma existsb_json_strs (s : string) (l : list string) :
  existsb (json_is_str s) (map JStr l) = existsb (String.eqb s) l.
Proof. induction l as [| x l IH]; [reflexivity |]. simpl. now rewrite IH. Qed.

(** A chunk row in the table after a run was there before or was written by
    the run, from the text it holds. *)
Lemma process_document_new_row (wk : Worker) (fuel : nat) (d : DB)
    (cache : Cache) (next_chunk_id retries document_id : Z)
    (file_path filename : string) (out : TaskOutcome) (dc : DocumentChunk.t) :
  process_document wk fuel d cache next_chunk_id retries document_id
    file_path filename = Some out ->
  In dc (document_chunks (task_db out)) ->
  In dc (document_chunks d)
  \/ (DocumentChunk.document_id dc = document_id
      /\ DocumentChunk.is_active dc = true
      /\ DocumentChunk.recency_score dc
         = Some (TemporalInfo.recency_score
                   (detect_temporal_indicators (DocumentChunk.chunk_text dc)))
      /\ exists m : ChunkMetadata.t,
          DocumentChunk.document_metadata dc = metadata_json m
          /\ ChunkMetadata.entities m
             = extract_entities (chunker wk) (DocumentChunk.chunk_text dc)
          /\ ChunkMetadata.data_types m
             = classify_data_type (DocumentChunk.chunk_text dc)
                 (extract_entities (chunker wk) (DocumentChunk.chunk_text dc))
          /\ ChunkMetadata.temporal_info m
             = detect_temporal_indicators (DocumentChunk.chunk_text dc)).
Proof.
  unfold process_document, on_exception.
  destruct (extract_text (readers wk) file_path filename) as [text | |];
    try (intros [= <-]; now left).
  destruct (query_first _ d) as [document |]; [| intros [= <-]; now left].
  destruct (chunk_text_enhanced _ _ _ _ _ _ _) as [enhanced_chunks |] eqn:Hch;
    [| discriminate].
  destruct (service_generate_embeddings_batch _ _ _) as [embeddings |];
    [| intros [= <-]; now left].
  intros [= <-]. cbn [task_db document_chunks]. intros Hin.
  apply in_app_or in Hin as [Hin | Hin]; [now left | right].
  apply In_nth_error in Hin as [k Hk].
  apply chunk_rows_nth in Hk as (c & e & Hpair & ->).
  apply nth_error_combine in Hpair as [Hc _].
  unfold chunk_text_enhanced in Hch.
  destruct (chunk_text _ _ _ _ _ _) as [basic_chunks |]; [| discriminate].
  injection Hch as <-.
  apply enhance_nth in Hc as (_ & _ & Hrec & Hent & Hdt & Hti).
  cbn [DocumentChunk.document_id DocumentChunk.is_active
       DocumentChunk.recency_score DocumentChunk.chunk_text
       DocumentChunk.document_metadata].
  split; [reflexivity |]. split; [reflexivity |].
  split; [now rewrite Hrec |].
  exists (EnhancedChunk.metadata c). now repeat split.
Qed.

Lemma reported_recency_stored (text : string) :
  reported_recency
    (Some (TemporalInfo.recency_score (detect_temporal_indicators text)))
  = TemporalInfo.recency_score (detect_temporal_indicators text).
Proof.
  unfold reported_recency.
  destruct (Qeq_bool _ 0) eqn:E; [| reflexivity].
  apply Qeq_bool_iff in E.
  pose proof (recency_score_bounds text) as [Hlo _]. rewrite E in Hlo.
  unfold Qle in Hlo. simpl in Hlo. lia.
Qed.

(** X21. A chunk written by [process_document] never trips the per-row
    handler of a search.  Whatever document it is joined with and whatever
    the query, the primary search either passes it over as below the
    threshold or builds a result from it: the text's own recency score is
    reported (never the fallback 0.5 for a missing score), the hybrid score
    blends it when the boost is on, and entities, data types and temporal
    information are those found in the chunk's text.  The filtered search
    builds its result in the same way and does not fail on it. *)
Theorem ingested_chunks_build :
  forall (wk : Worker) (fuel : nat) (d : DB) (cache : Cache)
         (next_chunk_id retries document_id : Z) (file_path filename : string)
         (out : TaskOutcome) (dc : DocumentChunk.t),
    process_document wk fuel d cache next_chunk_id retries document_id
      file_path filename = Some out ->
    In dc (document_chunks (task_db out)) ->
    ~ In dc (document_chunks d) ->
    forall (env : Env) (query_embedding : list Q) (doc : Document.t)
           (use_recency_boost : bool) (recency_weight similarity_threshold : Q),
      let row := select_row env query_embedding (dc, doc) in
      let text := DocumentChunk.chunk_text dc in
      let entities := extract_entities (chunker wk) text in
      let temporal_info := detect_temporal_indicators text in
      let recency := TemporalInfo.recency_score temporal_info in
      let similarity := Row.similarity row in
      process_row use_recency_boost recency_weight similarity_threshold row
      = (if Qle_bool similarity_threshold similarity then
           Built (SearchResult.mk (DocumentChunk.id dc) text
                    (DocumentChunk.chunk_index dc) (DocumentChunk.document_id dc)
                    (Document.filename doc) (Document.version doc)
                    (Document.uploaded_at doc) (DocumentChunk.created_at dc)
                    similarity recency
                    (if use_recency_boost
                     then similarity * (1 - recency_weight)
                          + recency * recency_weight
                     else similarity)%Q
                    (entities_json entities)
                    (json_strs (classify_data_type text entities))
                    (temporal_info_json temporal_info))
         else BelowThreshold)
      /\ filtered_row row
         = Some (FilteredResult.mk (DocumentChunk.id dc) text
                   (Document.filename doc) similarity recency
                   (entities_json entities)
                   (json_strs (classify_data_type text entities))).
Proof.
  intros wk fuel d cache next_chunk_id retries document_id file_path filename
         out dc Hrun Hin Hnew env emb doc boost w thr.
  destruct (process_document_new_row _ _ _ _ _ _ _ _ _ _ _ Hrun Hin)
    as [Hold | (_ & _ & Hrec & m & Hmeta & Hent & Hdt & Hti)];
    [contradiction |].
  cbv zeta.
  pose proof (metadata_gets m) as (G1 & G2 & G3).
  unfold process_row, filtered_row.
  cbn [select_row Row.similarity Row.recency_score Row.document_metadata
       Row.id Row.chunk_text Row.chunk_index Row.document_id Row.filename
       Row.version Row.uploaded_at Row.created_at].
  rewrite Hmeta, G1, G2, G3, Hrec, Hent, Hdt, Hti, reported_recency_stored.
  split; [| reflexivity].
  destruct (Qle_bool thr _); cbn [negb]; [| reflexivity].
  now destruct boost.
Qed.

Lemma ingested_chunks_build_witness :
  filtered_row
    (select_row demo_env [1%Q]
       (DocumentChunk.mk 7 1 "txt text" 0
          (Some (normalize_embedding_dimension [1; 2; 3]%Q TARGET_DIMENSION))
          (metadata_json
             (ChunkMetadata.mk 0 8 8 "paragraph" ["general"] no_entities
                (detect_temporal_indicators "txt text") (5 # 10) "0"
                (Some (JDict [("filename", JStr "report.txt");
                              ("uploaded_at", JStr "0");
                              ("document_id", JInt 1);
                              ("file_type", JStr "txt")]))))
          (Some (5 # 10)%Q) (Some 0) true 1 None,
        report_v1))
  <> None.
Proof.
  match goal with
  | |- filtered_row (select_row _ _ (?dc, _)) <> None =>
      pose proof (ingested_chunks_build demo_worker 20 (db report_world)
                    full_cache 7 0 1 "/app/uploads/u_report.txt" "report.txt"
                    _ dc eq_refl) as H
  end.
  cbn [task_db document_chunks] in H.
  specialize (H ltac:(vm_compute; right; left; reflexivity)
                ltac:(vm_compute; intros [E | []]; discriminate)
                demo_env [1%Q] report_v1 true (3 # 10)%Q 0%Q).
  cbv zeta in H. destruct H as [_ H]. rewrite H. discriminate.
Defined.

Lemma forallb_pointwise {A : Type} (f g : A -> bool) (l : list A) :
  (forall a, f a = g a) -> forallb f l = forallb g l.
Proof.
  intros H. induction l as [| x l IH]; [reflexivity |].
  simpl. now rewrite H, IH.
Qed.

Lemma existsb_pointwise {A : Type} (f g : A -> bool) (l : list A) :
  (forall a, f a = g a) -> existsb f l = existsb g l.
Proof.
  intros H. induction l as [| x l IH]; [reflexivity |].
  simpl. now rewrite H, IH.
Qed.

(** X22. The filters of the filtered search read back what the task
    stored.  On a chunk written by [process_document] the data-type filter
    holds exactly when every requested type is among the types
    [classify_data_type] found in the chunk's text, the entity filter
    exactly when some requested id is among the ids [extract_entities] found
    there, and the recency filter exactly when the bound does not exceed the
    recency score of the text; so a bound of at most 0.1 excludes no such
    chunk and a bound above 0.9 excludes them all. *)
Theorem filters_read_ingested_metadata :
  forall (wk : Worker) (fuel : nat) (d : DB) (cache : Cache)
         (next_chunk_id retries document_id : Z) (file_path filename : string)
         (out : TaskOutcome) (dc : DocumentChunk.t),
    process_document wk fuel d cache next_chunk_id retries document_id
      file_path filename = Some out ->
    In dc (document_chunks (task_db out)) ->
    ~ In dc (document_chunks d) ->
    let text := DocumentChunk.chunk_text dc in
    let entities := extract_entities (chunker wk) text in
    let recency :=
      TemporalInfo.recency_score (detect_temporal_indicators text) in
    (forall (data_types entity_ids : option (list string))
            (min_recency_score : option Q),
        filter_clauses data_types entity_ids min_recency_score dc
        = match min_recency_score with
          | Some m => Qle_bool m recency
          | None => true
          end
          && forallb (fun s => existsb (String.eqb s)
                                 (classify_data_type text entities))
                     (opt_list data_types)
          && (if is_nonempty entity_ids
              then existsb (fun s => existsb (String.eqb s)
                                       (Entities.ids entities))
                           (opt_list entity_ids)
              else true))
    /\ (forall m : Q, (m <= 1 # 10)%Q ->
          filter_clauses None None (Some m) dc = true)
    /\ (forall (m : Q) (data_types entity_ids : option (list string)),
          (9 # 10 < m)%Q ->
          filter_clauses data_types entity_ids (Some m) dc = false).
Proof.
  intros wk fuel d cache next_chunk_id retries document_id file_path filename
         out dc Hrun Hin Hnew text entities recency.
  destruct (process_document_new_row _ _ _ _ _ _ _ _ _ _ _ Hrun Hin)
    as [Hold | (_ & _ & Hrec & m & Hmeta & Hent & Hdt & _)];
    [contradiction |].
  fold text in Hrec, Hent, Hdt. fold entities in Hent, Hdt.
  fold recency in Hrec.
  pose proof (recency_score_bounds text) as [Hlo Hhi]. fold recency in Hlo, Hhi.
  assert (Hall : forall (data_types entity_ids : option (list string))
                        (min_recency_score : option Q),
             filter_clauses data_types entity_ids min_recency_score dc
             = match min_recency_score with
               | Some m => Qle_bool m recency
               | None => true
               end
               && forallb (fun s => existsb (String.eqb s)
                                      (classify_data_type text entities))
                          (opt_list data_types)
               && (if is_nonempty entity_ids
                   then existsb (fun s => existsb (String.eqb s)
                                            (Entities.ids entities))
                                (opt_list entity_ids)
                   else true)).
  { intros dts ids mr. unfold filter_clauses. rewrite Hrec, Hmeta.
    f_equal; [f_equal |].
    - unfold contains_data_types, metadata_json.
      cbn [app assoc_get String.eqb Ascii.eqb Bool.eqb].
      rewrite Hdt. unfold json_strs.
      destruct dts as [[| x xs] |]; cbn [is_nonempty opt_list];
        try reflexivity.
      apply forallb_pointwise. intros s. apply existsb_json_strs.
    - destruct (is_nonempty ids); [| reflexivity].
      unfold json_arrow, metadata_json.
      cbn [app assoc_get String.eqb Ascii.eqb Bool.eqb entities_json].
      rewrite Hent. unfold json_strs, json_exists_any.
      apply existsb_pointwise. intros s. apply existsb_json_strs. }
  split; [exact Hall |]. split.
  - intros q Hq. rewrite Hall. cbn [opt_list forallb is_nonempty andb].
    rewrite !andb_true_r. apply Qle_bool_iff. lra.
  - intros q dts ids Hq. rewrite Hall.
    assert (E : Qle_bool q recency = false).
    { destruct (Qle_bool q recency) eqn:E; [| reflexivity].
      apply Qle_bool_iff in E. lra. }
    now rewrite E.
Qed.

Lemma filters_read_ingested_metadata_witness :
  filter_clauses None None (Some (1 # 10)%Q)
    (DocumentChunk.mk 7 1 "txt text" 0
       (Some (normalize_embedding_dimension [1; 2; 3]%Q TARGET_DIMENSION))
       (metadata_json
          (ChunkMetadata.mk 0 8 8 "paragraph" ["general"] no_entities
             (detect_temporal_indicators "txt text") (5 # 10) "0"
             (Some (JDict [("filename", JStr "report.txt");
                           ("uploaded_at", JStr "0");
                           ("document_id", JInt 1);
                           ("file_type", JStr "txt")]))))
       (Some (5 # 10)%Q) (Some 0) true 1 None)
  = true.
Proof.
  match goal with
  | |- filter_clauses _ _ _ ?dc = true =>
      pose proof (filters_read_ingested_metadata demo_worker 20
                    (db report_world) full_cache 7 0 1
                    "/app/uploads/u_report.txt" "report.txt" _ dc eq_refl) as H
  end.
  cbn [task_db document_chunks] in H.
  specialize (H ltac:(vm_compute; right; left; reflexivity)
                ltac:(vm_compute; intros [E | []]; discriminate)).
  cbv zeta in H. destruct H as (_ & H & _).
  apply H. unfold Qle. simpl. lia.
Defined.



(** Every row the store returns is joined with an active document on file. *)
Lemma db_execute_row_document (env : Env) (d : DB) (emb : list Q)
    (extra : DocumentChunk.t -> bool) (limit : Z) (rows : list Row.t)
    (row : Row.t) :
  db_execute env d emb extra limit = Some rows -> In row rows ->
  exists doc,
    In doc (documents d)
    /\ Document.id doc = Row.document_id row
    /\ Document.is_active doc = true.
Proof.
  unfold db_execute.
  destruct (negb (db_available env) || (limit <? 0)); [discriminate |].
  intros [= <-] Hin.
  apply in_map_iff in Hin as ([dc doc] & <- & Hin).
  apply in_firstn in Hin.
  apply (Permutation_in _ (sort_desc_perm _ _)) in Hin.
  apply filter_In in Hin as [Hjoin Hact].
  apply join_chunks_in in Hjoin as (_ & Hdoc & Hid).
  apply andb_prop in Hact as [Hact _]. unfold where_active in Hact.
  apply andb_prop in Hact as [_ Hdact]. simpl in Hdact.
  exists doc. repeat split; auto.
Qed.

Lemma search_results_documents (env : Env) (d : DB) (cache : Cache)
    (query : string) (top_k : Z) (boost : bool) (rw thr : Q)
    (r : SearchResult.t) :
  assoc_get (_get_cache_key env query top_k boost) cache = None ->
  In r (fst (fst (semantic_search env d cache query top_k boost rw thr))) ->
  exists doc,
    In doc (documents d)
    /\ Document.id doc = SearchResult.document_id r
    /\ Document.is_active doc = true.
Proof.
  intros Hmiss.
  pose proof (semantic_search_paths env d cache query top_k boost rw thr)
    as Hpaths.
  cbv zeta in Hpaths. rewrite Hmiss in Hpaths.
  destruct (generate_embedding env query) as [emb |];
    [| rewrite Hpaths; intros []].
  destruct (db_execute env d emb (fun _ => true) (search_limit_of top_k boost))
    as [[| row0 rows0] |] eqn:Hdb; try (rewrite Hpaths; intros []).
  rewrite Hpaths. cbn [fst]. intros Hin.
  apply in_firstn in Hin.
  apply (Permutation_in _ (sort_desc_perm _ _)) in Hin.
  apply build_results_in in Hin as (row & Hrow & Hbuilt).
  apply process_row_document in Hbuilt as [Hdoc _].
  destruct (db_execute_row_document _ _ _ _ _ _ _ Hdb Hrow)
    as (doc & Hin & Hid & Hact).
  exists doc. repeat split; congruence.
Qed.

(** X24. [process_document] does not look at [is_active] of its document.
    A task that runs after its document has been replaced or deactivated
    still writes its chunks, flagged active, under the id of that document.
    The primary search, run on a cache that does not hold the query, never
    returns them all the same: every result belongs to a document that is
    active, hence to another document. *)
Theorem late_task_chunks_hidden :
  forall (wk : Worker) (fuel : nat) (d : DB) (cache : Cache)
         (next_chunk_id retries document_id : Z) (file_path filename : string)
         (out : TaskOutcome),
    process_document wk fuel d cache next_chunk_id retries document_id
      file_path filename = Some out ->
    (forall doc, In doc (documents d) -> Document.id doc = document_id ->
                 Document.is_active doc = false) ->
    (forall dc, In dc (document_chunks (task_db out)) ->
                ~ In dc (document_chunks d) ->
                DocumentChunk.is_active dc = true
                /\ DocumentChunk.document_id dc = document_id)
    /\ (active_chunks_of document_id (document_chunks (task_db out))
        = active_chunks_of document_id (document_chunks d)
          + (List.length (document_chunks (task_db out))
             - List.length (document_chunks d)))%nat
    /\ (forall (env : Env) (search_cache : Cache) (query : string) (top_k : Z)
               (boost : bool) (rw thr : Q),
           assoc_get (_get_cache_key env query top_k boost) search_cache = None ->
           Forall (fun r => SearchResult.document_id r <> document_id)
                  (fst (fst (semantic_search env (task_db out) search_cache
                               query top_k boost rw thr)))).
Proof.
  intros wk fuel d cache next_chunk_id retries document_id file_path filename
         out Hrun Hinactive.
  split; [| split].
  - intros dc Hin Hnew.
    destruct (process_document_new_row _ _ _ _ _ _ _ _ _ _ _ Hrun Hin)
      as [Hold | (Hid & Hact & _)]; [contradiction | now split].
  - assert (Hshape : exists rows,
               document_chunks (task_db out) = document_chunks d ++ rows
               /\ Forall (fun dc => DocumentChunk.is_active dc = true
                                    /\ DocumentChunk.document_id dc = document_id)
                         rows).
    { revert Hrun. unfold process_document, on_exception.
      assert (Hnone : forall o : TaskOutcome,
                 task_db o = d ->
                 exists rows,
                   document_chunks (task_db o) = document_chunks d ++ rows
                   /\ Forall (fun dc => DocumentChunk.is_active dc = true
                                        /\ DocumentChunk.document_id dc
                                           = document_id) rows).
      { intros o ->. exists []. now rewrite app_nil_r. }
      destruct (extract_text (readers wk) file_path filename) as [text | |];
        try (intros [= <-]; now apply Hnone).
      destruct (query_first _ d) as [document |];
        [| intros [= <-]; now apply Hnone].
      destruct (chunk_text_enhanced _ _ _ _ _ _ _) as [enhanced_chunks |];
        [| discriminate].
      destruct (service_generate_embeddings_batch _ _ _) as [embeddings |];
        [| intros [= <-]; now apply Hnone].
      intros [= <-]. cbn [task_db document_chunks].
      eexists. split; [reflexivity |].
      apply Forall_forall. intros dc Hin.
      apply In_nth_error in Hin as [k Hk].
      apply chunk_rows_nth in Hk as (c & e & _ & ->). now split. }
    destruct Hshape as (rows & -> & Hrows).
    unfold active_chunks_of. rewrite filter_app, !length_app.
    replace (List.length (document_chunks d) + List.length rows
             - List.length (document_chunks d))%nat
      with (List.length rows) by lia.
    f_equal. clear Hrun.
    induction Hrows as [| dc rows [Hact Hid] _ IH]; [reflexivity |].
    cbn [filter]. rewrite Hact, Hid, Z.eqb_refl. cbn [andb List.length].
    now rewrite IH.
  - intros env search_cache query top_k boost rw thr Hmiss.
    apply Forall_forall. intros r Hr Hid.
    destruct (search_results_documents _ _ _ _ _ _ _ _ _ Hmiss Hr)
      as (doc & Hin & Hdoc & Hact).
    assert (Hdocs : documents (task_db out) = documents d).
    { revert Hrun. unfold process_document, on_exception.
      destruct (extract_text (readers wk) file_path filename) as [text | |];
        try (now intros [= <-]).
      destruct (query_first _ d) as [document |]; [| now intros [= <-]].
      destruct (chunk_text_enhanced _ _ _ _ _ _ _) as [enhanced_chunks |];
        [| discriminate].
      destruct (service_generate_embeddings_batch _ _ _) as [embeddings |];
        now intros [= <-]. }
    rewrite Hdocs in Hin.
    rewrite (Hinactive doc Hin ltac:(congruence)) in Hact. discriminate.
Qed.

Lemma late_task_chunks_hidden_witness :
  active_chunks_of 1
    (document_chunks
       (db (snd (do_upload report_world (upload_of "report.txt" "h2")))))
  = 0%nat
  /\ exists out : TaskOutcome,
      process_document demo_worker 20
        (db (snd (do_upload report_world (upload_of "report.txt" "h2"))))
        [] 2 0 1 "/app/uploads/u1_report.txt" "report.txt" = Some out
      /\ active_chunks_of 1 (document_chunks (task_db out)) = 1%nat
      /\ Forall (fun r => SearchResult.document_id r <> 1)
                (fst (fst (semantic_search demo_env (task_db out) [] "q" 5 true
                             (3 # 10) 0))).
Proof.
  split; [reflexivity |].
  eexists. split; [reflexivity |].
  split; [vm_compute; reflexivity |].
  refine (proj2 (proj2 (late_task_chunks_hidden demo_worker 20
            (db (snd (do_upload report_world (upload_of "report.txt" "h2"))))
            [] 2 0 1 "/app/uploads/u1_report.txt" "report.txt" _ eq_refl _))
            demo_env [] "q" 5 true (3 # 10)%Q 0%Q eq_refl).
  intros doc [<- | [<- | []]]; [reflexivity | discriminate].
Defined.

(* ================================================================== *)
(** * Properties of the search and question endpoints *)
(* ================================================================== *)

Lemma semantic_search_store_limit (env : Env) (d : DB) (cache : Cache)
    (query : string) (top_k : Z) (boost : bool) (rw thr : Q) (emb : list Q)
    (limit : Z) :
  In (StoreQuery emb limit)
     (snd (semantic_search env d cache query top_k boost rw thr)) ->
  limit = search_limit_of top_k boost.
Proof.
  unfold semantic_search.
  destruct (assoc_get _ cache); [intros [] |].
  destruct (generate_embedding env query) as [e |];
    [| intros [H | []]; discriminate].
  assert (Hlog : In (StoreQuery emb limit)
                    [EmbedQuery query;
                     StoreQuery e (search_limit_of top_k boost)] ->
                 limit = search_limit_of top_k boost).
  { intros [H | [H | []]]; [discriminate | now injection H as _ <-]. }
  fold (search_limit_of top_k boost).
  destruct (db_execute env d e (fun _ => true) (search_limit_of top_k boost))
    as [[| row rows] |]; try exact Hlog.
  destruct (_cache_max_size <=? Z.of_nat (List.length cache));
    [destruct (dict_pop_oldest cache) |]; exact Hlog.
Qed.

Lemma semantic_search_miss_results (env : Env) (d : DB) (cache : Cache)
    (query : string) (top_k : Z) (boost : bool) (rw thr : Q) :
  assoc_get (_get_cache_key env query top_k boost) cache = None ->
  0 <= top_k ->
  let results :=
    fst (fst (semantic_search env d cache query top_k boost rw thr)) in
  Z.of_nat (List.length results) <= top_k
  /\ StronglySorted hybrid_ge results.
Proof.
  intros Hmiss Hk.
  pose proof (semantic_search_paths env d cache query top_k boost rw thr)
    as Hpaths.
  cbv zeta in Hpaths. rewrite Hmiss in Hpaths. cbv zeta.
  assert (Hnil : Z.of_nat (List.length (@nil SearchResult.t)) <= top_k
                 /\ StronglySorted hybrid_ge (@nil SearchResult.t))
    by (split; [simpl; lia | constructor]).
  destruct (generate_embedding env query) as [emb |];
    [| rewrite Hpaths; exact Hnil].
  destruct (db_execute env d emb (fun _ => true) (search_limit_of top_k boost))
    as [[| row0 rows0] |]; try (rewrite Hpaths; exact Hnil).
  rewrite Hpaths. cbn [fst].
  destruct (firstn_sorted hybrid_ge
              (sort_desc hybrid_le (build_results boost rw thr (row0 :: rows0)))
              (Z.to_nat top_k) (hybrid_sorted _)) as (Hs & Hlen & _).
  split; [| exact Hs]. rewrite Hlen. lia.
Qed.

(** X25. The search endpoint.  It answers 422, without searching, exactly
    when the body has no query or a [top_k] outside 1..100; otherwise it
    answers with the query, the results of the primary search with the
    recency boost on and their number, and never with an error of its own.
    Whenever it queries the store it asks for three times [top_k] rows, so
    for 3 to 300 rows and never for a negative number; and when the cache
    does not hold the query the results number at most [top_k] and come in
    descending order of hybrid score. *)
Theorem search_endpoint :
  forall (env : Env) (d : DB) (cache : Cache) (query : option string)
         (top_k : option Z),
    let run := search env d cache query top_k in
    let k := match top_k with Some k => k | None => 10 end in
    (fst (fst run) = UnprocessableEntity
     <-> query = None \/ k < 1 \/ 100 < k)
    /\ (fst (fst run) = UnprocessableEntity ->
        snd (fst run) = cache /\ snd run = [])
    /\ fst (fst run) <> InternalServerError
    /\ (forall resp : Schemas.SearchResponse,
          fst (fst run) = Ok resp ->
          query = Some (Schemas.response_query resp)
          /\ Schemas.total_results resp
             = Z.of_nat (List.length (Schemas.results resp))
          /\ Schemas.results resp
             = fst (fst (semantic_search env d cache
                           (Schemas.response_query resp) k true
                           default_recency_weight default_similarity_threshold))
          /\ (forall emb limit,
                In (StoreQuery emb limit) (snd run) ->
                limit = 3 * k /\ 3 <= limit <= 300)
          /\ (assoc_get (_get_cache_key env (Schemas.response_query resp) k true)
                        cache = None ->
              Schemas.total_results resp <= k
              /\ StronglySorted hybrid_ge (Schemas.results resp))).
Proof.
  intros env d cache query top_k run k.
  unfold search, validate_search_request, field_int in run.
  destruct query as [q |].
  - assert (Hvalid : forall v : Z,
               ((1 <=? v) && (v <=? 100) = true <-> ~ (v < 1 \/ 100 < v)))
      by (intros v; rewrite andb_true_iff, !Z.leb_le; lia).
    assert (Hk : match match top_k with
                       | Some v => if (1 <=? v) && (v <=? 100) then Some v
                                   else None
                       | None => Some 10
                       end with
                 | Some k' => k' = k /\ 1 <= k <= 100
                 | None => k < 1 \/ 100 < k
                 end).
    { subst k. destruct top_k as [v |]; [| lia].
      destruct ((1 <=? v) && (v <=? 100)) eqn:E.
      - apply andb_true_iff in E as [E1 E2].
        apply Z.leb_le in E1, E2. lia.
      - destruct (Z.leb_spec 1 v); [| lia].
        destruct (Z.leb_spec v 100); [discriminate | lia]. }
    destruct (match top_k with
              | Some v => if (1 <=? v) && (v <=? 100) then Some v else None
              | None => Some 10
              end) as [k' |].
    + destruct Hk as [-> Hrange].
      cbn [Schemas.query Schemas.top_k] in run.
      destruct (semantic_search env d cache q k true default_recency_weight
                  default_similarity_threshold) as [[results cache1] log]
        eqn:Hrun.
      subst run. cbn [fst snd].
      split; [split; [discriminate | intros [H | H]; [discriminate | lia]] |].
      split; [discriminate |]. split; [discriminate |].
      intros resp [= <-].
      cbn [Schemas.response_query Schemas.total_results Schemas.results].
      rewrite Hrun. cbn [fst].
      split; [reflexivity |]. split; [reflexivity |]. split; [reflexivity |].
      split.
      * intros emb limit Hin.
        assert (Hl : limit = search_limit_of k true).
        { apply (semantic_search_store_limit env d cache q k true
                   default_recency_weight default_similarity_threshold emb).
          now rewrite Hrun. }
        unfold search_limit_of in Hl. lia.
      * intros Hmiss.
        pose proof (semantic_search_miss_results env d cache q k true
                      default_recency_weight default_similarity_threshold
                      Hmiss ltac:(lia)) as Hres.
        cbv zeta in Hres. rewrite Hrun in Hres. exact Hres.
    + subst run. cbn [fst snd].
      split; [split; [intros _; right; exact Hk | reflexivity] |].
      split; [now split |]. split; [discriminate |]. discriminate.
  - subst run. cbn [fst snd].
    split; [split; [intros _; now left | reflexivity] |].
    split; [now split |]. split; [discriminate |]. discriminate.
Qed.

Lemma answer_question_cases (env : Env) (ai_provider : string) (b : Backends)
    (d : DB) (cache : Cache) (question : string) (top_k : Z) :
  let search_results :=
    fst (fst (semantic_search env d cache question top_k true
                default_recency_weight default_similarity_threshold)) in
  let run := answer_question env ai_provider b d cache question top_k in
  match search_results with
  | [] => exists result, fst run = Some result /\ qa_question result = None
  | _ :: _ =>
      fst run = None
      \/ exists result,
          fst run = Some result
          /\ qa_question result = Some question
          /\ List.length (qa_sources result) = List.length search_results
  end.
Proof.
  cbv zeta. unfold answer_question.
  destruct (semantic_search env d cache question top_k true
              default_recency_weight default_similarity_threshold)
    as [[results cache1] log].
  cbn [fst]. destruct results as [| r rs].
  - eexists. split; reflexivity.
  - destruct (provider_generate_completion _ _ _ _ _) as [ans |].
    + right. eexists. cbn [fst]. split; [reflexivity |].
      cbn [qa_question qa_sources]. split; [reflexivity |].
      now rewrite length_map.
    + now left.
Qed.

(** X26. The question endpoint.  It answers 422 exactly when the body has no
    question or a [top_k] outside 1..20.  Otherwise, when the search finds
    nothing, the dict [answer_question] returns has no [question] field, the
    response model rejects it and the endpoint answers 500: the message that
    no relevant information was found never reaches the client.  A
    successful answer repeats the question and has one source per search
    result, so at least one. *)
Theorem qa_endpoint :
  forall (env : Env) (ai_provider : string) (b : Backends) (d : DB)
         (cache : Cache) (question : option string) (top_k : option Z),
    let answer_ := fst (ask_question env ai_provider b d cache question top_k) in
    let k := match top_k with Some k => k | None => 5 end in
    (answer_ = UnprocessableEntity
     <-> question = None \/ k < 1 \/ 20 < k)
    /\ (forall q : string,
          question = Some q -> 1 <= k <= 20 ->
          fst (fst (semantic_search env d cache q k true default_recency_weight
                      default_similarity_threshold)) = [] ->
          answer_ = InternalServerError)
    /\ (forall resp : Schemas.QAResponseModel,
          answer_ = Ok resp ->
          question = Some (Schemas.response_question resp)
          /\ List.length (Schemas.sources resp)
             = List.length
                 (fst (fst (semantic_search env d cache
                              (Schemas.response_question resp) k true
                              default_recency_weight
                              default_similarity_threshold)))
          /\ Schemas.sources resp <> []).
Proof.
  intros env ai_provider b d cache question top_k answer_ k. subst answer_.
  unfold ask_question, validate_qa_request, field_int.
  destruct question as [q |].
  - assert (Hk : match match top_k with
                       | Some v => if (1 <=? v) && (v <=? 20) then Some v
                                   else None
                       | None => Some 5
                       end with
                 | Some k' => k' = k /\ 1 <= k <= 20
                 | None => k < 1 \/ 20 < k
                 end).
    { subst k. destruct top_k as [v |]; [| lia].
      destruct ((1 <=? v) && (v <=? 20)) eqn:E.
      - apply andb_true_iff in E as [E1 E2].
        apply Z.leb_le in E1, E2. lia.
      - destruct (Z.leb_spec 1 v); [| lia].
        destruct (Z.leb_spec v 20); [discriminate | lia]. }
    destruct (match top_k with
              | Some v => if (1 <=? v) && (v <=? 20) then Some v else None
              | None => Some 5
              end) as [k' |].
    + destruct Hk as [-> Hrange].
      cbn [Schemas.question Schemas.qa_top_k].
      pose proof (answer_question_cases env ai_provider b d cache q k) as Hc.
      cbv zeta in Hc.
      destruct (answer_question env ai_provider b d cache q k)
        as [[result |] cache1]; cbn [fst] in Hc.
      * unfold qa_response_of.
        destruct (fst (fst (semantic_search env d cache q k true
                              default_recency_weight
                              default_similarity_threshold)))
          as [| r rs] eqn:Hs.
        -- destruct Hc as (result' & [= <-] & Hq).
           rewrite Hq. cbn [fst].
           split; [split; [discriminate | intros [H | H]; [discriminate | lia]] |].
           split; [reflexivity |]. discriminate.
        -- destruct Hc as [Hc | (result' & [= <-] & Hq & Hlen)];
             [discriminate |].
           rewrite Hq. cbn [fst].
           split; [split; [discriminate | intros [H | H]; [discriminate | lia]] |].
           split; [intros q' [= <-] _ Hnil; rewrite Hs in Hnil; discriminate |].
           intros resp [= <-].
           cbn [Schemas.response_question Schemas.sources].
           rewrite Hs.
           split; [reflexivity |]. split; [exact Hlen |].
           destruct (qa_sources result); [discriminate Hlen | discriminate].
      * cbn [fst].
        split; [split; [discriminate | intros [H | H]; [discriminate | lia]] |].
        split; [reflexivity |]. discriminate.
    + cbn [fst].
      split; [split; [intros _; right; exact Hk | reflexivity] |].
      split; [intros q' [= <-] Hr; lia |]. discriminate.
  - cbn [fst].
    split; [split; [intros _; now left | reflexivity] |].
    split; [discriminate |]. discriminate.
Qed.
